(** * Order and job status workflow of the window-manufacturing backend

    A shallow embedding of the Sequelize models [Order], [Job],
    [JobStatusUpdate], [Notification], [User], [Client] and of the two
    Express routes that change a status:

    - [PUT /jobs/:jobId/status]    (routes/jobs.js),
    - [PUT /orders/:orderId/status] (routes/orders.js).

    Tables keyed by primary key are finite maps, append-only tables are
    lists in insertion order.  A route is a computation over the database
    that can answer early ([return res.status(..).json(..)]) or throw into
    the route's [try { .. } catch] block.  No route opens a database
    transaction, so a write that has been awaited stays in the database
    when a later statement throws. *)

From Stdlib Require Import ZArith String Ascii List DecimalString Decimal DecimalNat Lia.
From stdpp Require Import gmap strings list fin_maps.

Local Open Scope Z_scope.

(** ** JavaScript values used by the routes *)

Module JS.

(** Strings are byte strings holding UTF-8 text. *)

(** [!!v] for a value that is a string, [null] or [undefined]. *)
Definition truthy (v : option string) : bool :=
  match v with
  | Some s => negb (String.eqb s "")
  | None => false
  end.

(** [a || b] on such values. *)
Definition or_else (a b : option string) : option string :=
  if truthy a then a else b.

(** [String(n)] and template interpolation of an integer. *)
Definition String_of_nat (n : nat) : string :=
  NilZero.string_of_uint (Nat.to_uint n).

Definition String_of_Z (z : Z) : string :=
  NilZero.string_of_int (Z.to_int z).

(** Template interpolation of a nullable string column. *)
Definition interpolate (v : option string) : string :=
  match v with
  | Some s => s
  | None => "null"
  end.

(** The filler of [padStart]: [k] characters taken from the repeated pad
    string. *)
Fixpoint fill (k : nat) (pad cur : string) : string :=
  match k with
  | O => ""
  | S k' =>
      match cur with
      | String c r => String c (fill k' pad r)
      | EmptyString =>
          match pad with
          | String c r => String c (fill k' pad r)
          | EmptyString => ""
          end
      end
  end.

(** [s.padStart(targetLength, padString)]. *)
Definition padStart (targetLength : nat) (padString s : string) : string :=
  if (targetLength <=? String.length s)%nat then s
  else fill (targetLength - String.length s) padString padString +:+ s.

Definition code_units (s : string) : list N :=
  map N_of_ascii (list_ascii_of_string s).

Definition of_code_units (l : list N) : string :=
  string_of_list_ascii (map ascii_of_N l).

(** [toLowerCase] and [toUpperCase], on the ASCII letters. *)
Definition lower_unit (n : N) : N :=
  if ((65 <=? n) && (n <=? 90))%N then (n + 32)%N else n.

Definition upper_unit (n : N) : N :=
  if ((97 <=? n) && (n <=? 122))%N then (n - 32)%N else n.

Definition toLowerCase (s : string) : string :=
  of_code_units (map lower_unit (code_units s)).

Definition toUpperCase (s : string) : string :=
  of_code_units (map upper_unit (code_units s)).

(** White space and line terminators of ECMAScript, as UTF-8 sequences:
    TAB, LF, VT, FF, CR, SP; U+00A0; U+1680, U+2000..U+200A, U+2028,
    U+2029, U+202F, U+205F, U+3000, U+FEFF. *)
Definition ws1 (a : N) : bool :=
  (((9 <=? a) && (a <=? 13)) || (a =? 32))%N.

Definition ws2 (a b : N) : bool :=
  ((a =? 194) && (b =? 160))%N.

Definition ws3 (a b c : N) : bool :=
  (((a =? 225) && (b =? 154) && (c =? 128))
   || ((a =? 226) && (b =? 128)
       && (((128 <=? c) && (c <=? 138)) || (c =? 168) || (c =? 169) || (c =? 175)))
   || ((a =? 226) && (b =? 129) && (c =? 159))
   || ((a =? 227) && (b =? 128) && (c =? 128))
   || ((a =? 239) && (b =? 187) && (c =? 191)))%N.

(** One white-space character at the head of [l], if there is one; with
    [rev = true] the list is read backwards (the head is the last byte of
    the string). *)
Definition strip_one (rev : bool) (l : list N) : option (list N) :=
  match l with
  | a :: r1 =>
      if ws1 a then Some r1
      else
        match r1 with
        | b :: r2 =>
            if (if rev then ws2 b a else ws2 a b) then Some r2
            else
              match r2 with
              | c :: r3 =>
                  if (if rev then ws3 c b a else ws3 a b c) then Some r3
                  else None
              | [] => None
              end
        | [] => None
        end
  | [] => None
  end.

Fixpoint strip (fuel : nat) (rev : bool) (l : list N) : list N :=
  match fuel with
  | O => l
  | S fuel' =>
      match strip_one rev l with
      | Some r => strip fuel' rev r
      | None => l
      end
  end.

(** [s.trim()]: white space removed at both ends. *)
Definition trim (s : string) : string :=
  let l := code_units s in
  let l1 := strip (length l) false l in
  let l2 := strip (length l1) true (reverse l1) in
  of_code_units (reverse l2).

(** The number of characters of a string (its code points). *)
Definition characters (s : string) : nat :=
  length (filter (fun b => negb (N.land b 192 =? 128)%N) (code_units s)).

(** [if (v) v = f(v)] on a nullable string attribute, as the
    [beforeValidate] hooks write it. *)
Definition normalise (f : string -> string) (v : option string) : option string :=
  match v with
  | Some s => if negb (String.eqb s "") then Some (f s) else v
  | None => None
  end.

(** The same on a string attribute that is not null. *)
Definition when_truthy (f : string -> string) (s : string) : string :=
  if negb (String.eqb s "") then f s else s.

(** [a || b] where [b] is a string. *)
Definition or_string (a : option string) (b : string) : string :=
  match a with
  | Some s => if negb (String.eqb s "") then s else b
  | None => b
  end.

(** The names an object literal inherits from [Object.prototype]. *)
Definition Object_prototype : list string :=
  [ "constructor"; "__defineGetter__"; "__defineSetter__"; "hasOwnProperty";
    "__lookupGetter__"; "__lookupSetter__"; "isPrototypeOf";
    "propertyIsEnumerable"; "toString"; "valueOf"; "__proto__";
    "toLocaleString" ].

(** What [o[key]] finds in an object literal [o]: a property of its own,
    a member of [Object.prototype] (a function, or for [__proto__] the
    prototype itself: truthy, and neither a string nor a value of an
    ENUM), or [undefined]. *)
Inductive Property (A : Type) :=
| Own (a : A)
| Inherited
| Undefined.

Arguments Own {A} a.
Arguments Inherited {A}.
Arguments Undefined {A}.

(** [o[key]], where [own] holds the properties the literal lists. *)
Definition get {A} (own : gmap string A) (key : string) : Property A :=
  match own !! key with
  | Some a => Own a
  | None =>
      if bool_decide (key ∈ Object_prototype) then Inherited else Undefined
  end.

(** An inherited member in a template literal: the text of a built-in
    function, and [[object Object]] for the prototype. *)
Definition inherited_text (key : string) : string :=
  if String.eqb key "__proto__" then "[object Object]"
  else "function " +:+ (if String.eqb key "constructor" then "Object" else key)
       +:+ "() { [native code] }".

End JS.

(** ** validator.js, [isLength]

    The validator behind [isLength] of the request chains and behind the
    [len] validators of the models. *)

Module Validator.

(** The variation selectors U+FE0E and U+FE0F of a string, which in
    UTF-8 are the bytes EF B8 8E and EF B8 8F. *)
Fixpoint selectors (units : list N) : nat :=
  match units with
  | [] => 0
  | a :: rest =>
      ((match rest with
        | b :: c :: _ =>
            if ((a =? 239) && (b =? 184) && ((c =? 142) || (c =? 143)))%N
            then 1 else 0
        | _ => 0
        end) + selectors rest)%nat
  end.

(** [str.length - presentationSequences.length - surrogatePairs.length]:
    every character counts once, a variation selector not at all. *)
Definition len (s : string) : nat :=
  (JS.characters s - selectors (JS.code_units s))%nat.

(** [isLength(str, { min, max })] *)
Definition isLength (min : nat) (max : option nat) (s : string) : bool :=
  (min <=? len s)%nat
  && match max with
     | Some m => (len s <=? m)%nat
     | None => true
     end.

End Validator.

(** ** Column types *)

(** Primary keys are UUIDs, 128-bit values. *)
Abbreviation UUID := N.

(** A JavaScript [Date] / SQL timestamp in civil form. *)
Module Date.

Record t := mk {
  getFullYear : Z;
  getMonth : Z;
  getDate : Z;
  millisOfDay : Z
}.

#[global] Instance eq_dec : EqDecision t.
Proof. solve_decision. Defined.

(** What a DATEONLY column makes of a [Date]: the day, without the time
    of day. *)
Definition DATEONLY (d : t) : t :=
  mk (getFullYear d) (getMonth d) (getDate d) 0.

End Date.

(** [user_role] *)
Inductive Role :=
| director | manager | supervisor | measurer | delivery_person | installer | client.

#[global] Instance Role_eq_dec : EqDecision Role.
Proof. solve_decision. Defined.

(** [order_status]: the 15 values of the ENUM, in declaration order.  The
    last two are the values ['completed'] and ['cancelled']; the job ENUM
    below has values of the same names. *)
Inductive OrderStatus :=
| pending
| measuring_scheduled
| measuring_in_progress
| measuring_completed
| production_scheduled
| in_production
| production_completed
| delivery_scheduled
| in_delivery
| delivered
| installation_scheduled
| installation_in_progress
| installation_completed
| order_completed
| order_cancelled.

#[global] Instance OrderStatus_eq_dec : EqDecision OrderStatus.
Proof. solve_decision. Defined.

(** [job_status]: the 6 values of the ENUM. *)
Inductive JobStatus :=
| assigned | en_route | arrived | in_progress | completed | cancelled.

#[global] Instance JobStatus_eq_dec : EqDecision JobStatus.
Proof. solve_decision. Defined.

(** The literal of each ENUM value. *)
Definition OrderStatus_literal (s : OrderStatus) : string :=
  match s with
  | pending => "pending"
  | measuring_scheduled => "measuring_scheduled"
  | measuring_in_progress => "measuring_in_progress"
  | measuring_completed => "measuring_completed"
  | production_scheduled => "production_scheduled"
  | in_production => "in_production"
  | production_completed => "production_completed"
  | delivery_scheduled => "delivery_scheduled"
  | in_delivery => "in_delivery"
  | delivered => "delivered"
  | installation_scheduled => "installation_scheduled"
  | installation_in_progress => "installation_in_progress"
  | installation_completed => "installation_completed"
  | order_completed => "completed"
  | order_cancelled => "cancelled"
  end.

Definition JobStatus_literal (s : JobStatus) : string :=
  match s with
  | assigned => "assigned"
  | en_route => "en_route"
  | arrived => "arrived"
  | in_progress => "in_progress"
  | completed => "completed"
  | cancelled => "cancelled"
  end.

Definition all_order_statuses : list OrderStatus :=
  [ pending; measuring_scheduled; measuring_in_progress; measuring_completed;
    production_scheduled; in_production; production_completed;
    delivery_scheduled; in_delivery; delivered;
    installation_scheduled; installation_in_progress; installation_completed;
    order_completed; order_cancelled ].

Definition all_job_statuses : list JobStatus :=
  [ assigned; en_route; arrived; in_progress; completed; cancelled ].

(** [body('status').isIn([...])]: the request value passes when it is the
    literal of one of the listed values, which is then the status the
    handler works with. *)
Definition isIn_order_status (v : string) : option OrderStatus :=
  find (fun s => String.eqb (OrderStatus_literal s) v) all_order_statuses.

Definition isIn_job_status (v : string) : option JobStatus :=
  find (fun s => String.eqb (JobStatus_literal s) v) all_job_statuses.

(** ** Models *)

(** models/User.js *)
Module User.

Record t := mk {
  id : UUID;
  role : Role;
  email : option string;
  email_verified : bool;
  phone_number : option string;
  phone_verified : bool;
  is_active : bool
}.

Definition canManageUsers (this : t) : bool :=
  bool_decide (role this ∈ [director; manager]).

Definition canViewAllProjects (this : t) : bool :=
  bool_decide (role this ∈ [director; manager; supervisor]).

End User.

(** models/Client.js, the columns the status routes read. *)
Module Client.

Record t := mk {
  id : UUID;
  user_id : UUID;
  assigned_manager_id : option UUID
}.

End Client.

(** models/Order.js *)
Module Order.

Record t := mk {
  id : UUID;
  order_number : option string;
  client_id : UUID;
  assigned_manager_id : option UUID;
  status : OrderStatus;
  total_amount : option Z;  (* DECIMAL(10,2), in hundredths *)
  currency : option string;
  order_date : option Date.t;
  estimated_completion_date : option Date.t;
  actual_completion_date : option Date.t;
  notes : option string;
  crm_order_id : option string;
  created_at : Date.t
}.

Definition with_order_number (v : option string) (o : t) : t :=
  mk (id o) v (client_id o) (assigned_manager_id o) (status o)
     (total_amount o) (currency o) (order_date o)
     (estimated_completion_date o) (actual_completion_date o) (notes o)
     (crm_order_id o) (created_at o).

Definition with_status (v : OrderStatus) (o : t) : t :=
  mk (id o) (order_number o) (client_id o) (assigned_manager_id o) v
     (total_amount o) (currency o) (order_date o)
     (estimated_completion_date o) (actual_completion_date o) (notes o)
     (crm_order_id o) (created_at o).

Definition with_currency (v : option string) (o : t) : t :=
  mk (id o) (order_number o) (client_id o) (assigned_manager_id o) (status o)
     (total_amount o) v (order_date o)
     (estimated_completion_date o) (actual_completion_date o) (notes o)
     (crm_order_id o) (created_at o).

Definition with_actual_completion_date (v : option Date.t) (o : t) : t :=
  mk (id o) (order_number o) (client_id o) (assigned_manager_id o) (status o)
     (total_amount o) (currency o) (order_date o)
     (estimated_completion_date o) v (notes o)
     (crm_order_id o) (created_at o).

Definition with_notes (v : option string) (o : t) : t :=
  mk (id o) (order_number o) (client_id o) (assigned_manager_id o) (status o)
     (total_amount o) (currency o) (order_date o)
     (estimated_completion_date o) (actual_completion_date o) v
     (crm_order_id o) (created_at o).

(** [Order.count({ where: EXTRACT(YEAR FROM created_at) = year })] *)
Definition count_created_in (year : Z) (orders : gmap UUID t) : nat :=
  size (filter (fun kv => Date.getFullYear (created_at kv.2) = year) orders).

(** hooks.beforeCreate; [now] is [new Date()]. *)
Definition beforeCreate (orders : gmap UUID t) (now : Date.t) (order : t) : t :=
  if negb (JS.truthy (order_number order)) then
    let year := Date.getFullYear now in
    let count := count_created_in year orders in
    with_order_number
      (Some ("WM-" +:+ JS.String_of_Z year +:+ "-"
             +:+ JS.padStart 6 "0" (JS.String_of_nat (count + 1))))
      order
  else order.

(** hooks.beforeValidate *)
Definition beforeValidate (order : t) : t :=
  let order := with_notes (JS.normalise JS.trim (notes order)) order in
  with_currency (JS.normalise JS.toUpperCase (currency order)) order.

(** The validation of an instance that is created: [allowNull: false] on
    [order_number] and [min: 0] on [total_amount] ([client_id] is there by
    its type). *)
Definition validate (order : t) : bool :=
  bool_decide (is_Some (order_number order))
  && match total_amount order with
     | Some amount => 0 <=? amount
     | None => true
     end.

Definition statusMap (s : OrderStatus) : option string :=
  match s with
  | pending => Some "Pending"
  | measuring_scheduled => Some "Measuring Scheduled"
  | measuring_in_progress => Some "Measuring in Progress"
  | measuring_completed => Some "Measuring Completed"
  | production_scheduled => Some "Production Scheduled"
  | in_production => Some "In Production"
  | production_completed => Some "Production Completed"
  | delivery_scheduled => Some "Delivery Scheduled"
  | in_delivery => Some "In Delivery"
  | delivered => Some "Delivered"
  | installation_scheduled => Some "Installation Scheduled"
  | installation_in_progress => Some "Installation in Progress"
  | installation_completed => Some "Installation Completed"
  | order_completed => Some "Completed"
  | order_cancelled => Some "Cancelled"
  end.

Definition getStatusDisplay (this : t) : string :=
  JS.or_string (statusMap (status this)) (OrderStatus_literal (status this)).

Definition isActive (this : t) : bool :=
  negb (bool_decide (status this ∈ [order_completed; order_cancelled])).

Definition canBeCancelled (this : t) : bool :=
  negb (bool_decide
          (status this ∈ [order_completed; order_cancelled; installation_completed])).

Definition statusProgress (s : OrderStatus) : option Z :=
  match s with
  | pending => Some 5
  | measuring_scheduled => Some 10
  | measuring_in_progress => Some 15
  | measuring_completed => Some 25
  | production_scheduled => Some 30
  | in_production => Some 50
  | production_completed => Some 70
  | delivery_scheduled => Some 75
  | in_delivery => Some 80
  | delivered => Some 85
  | installation_scheduled => Some 90
  | installation_in_progress => Some 95
  | installation_completed => Some 98
  | order_completed => Some 100
  | order_cancelled => Some 0
  end.

(** [statusProgress[this.status] || 0]: a missing entry and the number 0
    are both falsy. *)
Definition getProgressPercentage (this : t) : Z :=
  match statusProgress (status this) with
  | Some p => if p =? 0 then 0 else p
  | None => 0
  end.

(** The attributes an [update] call assigns. *)
Inductive assignment :=
| set_status (v : OrderStatus)
| set_notes (v : option string)
| set_actual_completion_date (v : option Date.t).

Inductive column := col_status | col_notes | col_actual_completion_date.

Definition column_of (a : assignment) : column :=
  match a with
  | set_status _ => col_status
  | set_notes _ => col_notes
  | set_actual_completion_date _ => col_actual_completion_date
  end.

Definition assign (a : assignment) (o : t) : t :=
  match a with
  | set_status v => with_status v o
  | set_notes v => with_notes v o
  | set_actual_completion_date v => with_actual_completion_date v o
  end.

(** [instance.set(values)] *)
Definition set (values : list assignment) (o : t) : t :=
  foldl (fun acc a => assign a acc) o values.

(** The UPDATE statement of [instance.save({ fields })]: the listed
    columns of the stored row take the instance's values. *)
Definition write_column (inst : t) (row : t) (c : column) : t :=
  match c with
  | col_status => with_status (status inst) row
  | col_notes => with_notes (notes inst) row
  | col_actual_completion_date =>
      with_actual_completion_date (actual_completion_date inst) row
  end.

Definition write (cols : list column) (inst row : t) : t :=
  foldl (write_column inst) row cols.

End Order.

(** models/Job.js *)
Module Job.

Record t := mk {
  id : UUID;
  order_id : UUID;
  assigned_worker_id : option UUID;
  job_type : string;
  status : JobStatus;
  scheduled_date : option Date.t;
  scheduled_time : option string;
  location_address : string;
  location_coordinates : option string;
  estimated_duration : option Z;
  actual_start_time : option Date.t;
  actual_end_time : option Date.t;
  notes : option string
}.

Definition with_job_type (v : string) (j : t) : t :=
  mk (id j) (order_id j) (assigned_worker_id j) v (status j)
     (scheduled_date j) (scheduled_time j) (location_address j)
     (location_coordinates j) (estimated_duration j)
     (actual_start_time j) (actual_end_time j) (notes j).

Definition with_status (v : JobStatus) (j : t) : t :=
  mk (id j) (order_id j) (assigned_worker_id j) (job_type j) v
     (scheduled_date j) (scheduled_time j) (location_address j)
     (location_coordinates j) (estimated_duration j)
     (actual_start_time j) (actual_end_time j) (notes j).

Definition with_location_address (v : string) (j : t) : t :=
  mk (id j) (order_id j) (assigned_worker_id j) (job_type j) (status j)
     (scheduled_date j) (scheduled_time j) v
     (location_coordinates j) (estimated_duration j)
     (actual_start_time j) (actual_end_time j) (notes j).

Definition with_actual_start_time (v : option Date.t) (j : t) : t :=
  mk (id j) (order_id j) (assigned_worker_id j) (job_type j) (status j)
     (scheduled_date j) (scheduled_time j) (location_address j)
     (location_coordinates j) (estimated_duration j)
     v (actual_end_time j) (notes j).

Definition with_actual_end_time (v : option Date.t) (j : t) : t :=
  mk (id j) (order_id j) (assigned_worker_id j) (job_type j) (status j)
     (scheduled_date j) (scheduled_time j) (location_address j)
     (location_coordinates j) (estimated_duration j)
     (actual_start_time j) v (notes j).

Definition with_notes (v : option string) (j : t) : t :=
  mk (id j) (order_id j) (assigned_worker_id j) (job_type j) (status j)
     (scheduled_date j) (scheduled_time j) (location_address j)
     (location_coordinates j) (estimated_duration j)
     (actual_start_time j) (actual_end_time j) v.

(** hooks.beforeValidate *)
Definition beforeValidate (job : t) : t :=
  let job := with_location_address (JS.when_truthy JS.trim (location_address job)) job in
  let job := with_notes (JS.normalise JS.trim (notes job)) job in
  with_job_type (JS.when_truthy JS.toLowerCase (job_type job)) job.

(** What the TIME column makes of a time of day as the routes accept it
    ([H:MM] or [HH:MM]): [HH:MM:SS]. *)
Definition TIME (time : string) : string :=
  match time with
  | String h (String ":" minutes) =>
      String "0" (String h (String ":" minutes)) +:+ ":00"
  | _ => time +:+ ":00"
  end.

(** The row an INSERT or UPDATE stores for an instance. *)
Definition stored (job : t) : t :=
  mk (id job) (order_id job) (assigned_worker_id job) (job_type job) (status job)
     (scheduled_date job) (TIME <$> scheduled_time job) (location_address job)
     (location_coordinates job) (estimated_duration job)
     (actual_start_time job) (actual_end_time job) (notes job).

(** The own properties of [typeMap]. *)
Definition typeMap : gmap string string :=
  list_to_map
    [ ("measuring", "Measuring");
      ("delivery", "Delivery");
      ("installation", "Installation") ].

(** [typeMap[this.job_type] || this.job_type], as the template literals
    of the routes render it. *)
Definition getJobTypeDisplay (this : t) : string :=
  match JS.get typeMap (job_type this) with
  | JS.Own display => JS.or_string (Some display) (job_type this)
  | JS.Inherited => JS.inherited_text (job_type this)
  | JS.Undefined => job_type this
  end.

Definition statusMap (s : JobStatus) : option string :=
  match s with
  | assigned => Some "Assigned"
  | en_route => Some "En Route"
  | arrived => Some "Arrived"
  | in_progress => Some "In Progress"
  | completed => Some "Completed"
  | cancelled => Some "Cancelled"
  end.

Definition getStatusDisplay (this : t) : string :=
  JS.or_string (statusMap (status this)) (JobStatus_literal (status this)).

Definition isActive (this : t) : bool :=
  negb (bool_decide (status this ∈ [completed; cancelled])).

Definition canStart (this : t) : bool :=
  bool_decide (status this ∈ [assigned; en_route; arrived]).

Definition canComplete (this : t) : bool :=
  bool_decide (status this ∈ [in_progress]).

Definition statusFlow (s : JobStatus) : option (list JobStatus) :=
  match s with
  | assigned => Some [en_route; cancelled]
  | en_route => Some [arrived; cancelled]
  | arrived => Some [in_progress; cancelled]
  | in_progress => Some [completed; cancelled]
  | completed => Some []
  | cancelled => Some []
  end.

(** [statusFlow[this.status] || []] *)
Definition getNextValidStatuses (this : t) : list JobStatus :=
  default [] (statusFlow (status this)).

Definition canUpdateStatus (this : t) (newStatus : JobStatus) : bool :=
  bool_decide (newStatus ∈ getNextValidStatuses this).

Inductive assignment :=
| set_status (v : JobStatus)
| set_actual_start_time (v : option Date.t)
| set_actual_end_time (v : option Date.t).

Inductive column := col_status | col_actual_start_time | col_actual_end_time.

Definition column_of (a : assignment) : column :=
  match a with
  | set_status _ => col_status
  | set_actual_start_time _ => col_actual_start_time
  | set_actual_end_time _ => col_actual_end_time
  end.

Definition assign (a : assignment) (j : t) : t :=
  match a with
  | set_status v => with_status v j
  | set_actual_start_time v => with_actual_start_time v j
  | set_actual_end_time v => with_actual_end_time v j
  end.

Definition set (values : list assignment) (j : t) : t :=
  foldl (fun acc a => assign a acc) j values.

Definition write_column (inst : t) (row : t) (c : column) : t :=
  match c with
  | col_status => with_status (status inst) row
  | col_actual_start_time => with_actual_start_time (actual_start_time inst) row
  | col_actual_end_time => with_actual_end_time (actual_end_time inst) row
  end.

Definition write (cols : list column) (inst row : t) : t :=
  foldl (write_column inst) row cols.

End Job.

(** models/JobStatusUpdate.js *)
Module JobStatusUpdate.

Record t := mk {
  job_id : UUID;
  previous_status : option JobStatus;
  new_status : JobStatus;
  updated_by : option UUID;
  notes : option string;
  location_coordinates : option string
}.

(** hooks.beforeValidate *)
Definition beforeValidate (update : t) : t :=
  mk (job_id update) (previous_status update) (new_status update)
     (updated_by update) (JS.normalise JS.trim (notes update))
     (location_coordinates update).

End JobStatusUpdate.

(** models/Notification.js *)
Module Notification.

Record t := mk {
  user_id : UUID;
  title : string;
  message : string;
  type : string;
  is_read : bool;
  related_job_id : option UUID;
  related_order_id : option UUID
}.

(** hooks.beforeValidate *)
Definition beforeValidate (n : t) : t :=
  mk (user_id n)
     (JS.when_truthy JS.trim (title n))
     (JS.when_truthy JS.trim (message n))
     (JS.when_truthy JS.toLowerCase (type n))
     (is_read n) (related_job_id n) (related_order_id n).

End Notification.

(** ** The database *)

Module Db.

Record t := mk {
  users : gmap UUID User.t;
  clients : gmap UUID Client.t;
  orders : gmap UUID Order.t;
  jobs : gmap UUID Job.t;
  job_status_updates : list JobStatusUpdate.t;
  notifications : list Notification.t
}.

Definition with_orders (v : gmap UUID Order.t) (db : t) : t :=
  mk (users db) (clients db) v (jobs db) (job_status_updates db) (notifications db).

Definition with_jobs (v : gmap UUID Job.t) (db : t) : t :=
  mk (users db) (clients db) (orders db) v (job_status_updates db) (notifications db).

Definition with_job_status_updates (v : list JobStatusUpdate.t) (db : t) : t :=
  mk (users db) (clients db) (orders db) (jobs db) v (notifications db).

Definition with_notifications (v : list Notification.t) (db : t) : t :=
  mk (users db) (clients db) (orders db) (jobs db) (job_status_updates db) v.

End Db.

(** Instances as [findByPk] returns them with [include]: an association
    whose row is missing is [null]. *)
Record ClientInstance := {
  client_row : Client.t;
  client_user : option User.t
}.

Record OrderInstance := {
  order_row : Order.t;
  order_client : option ClientInstance
}.

Record JobInstance := {
  job_row : Job.t;
  job_order : option OrderInstance
}.

(** What a route answers. *)
Inductive Response :=
| ValidationErrors                                    (* 400 { errors } *)
| InsufficientPermissions (required : list Role) (current : Role)   (* 403 *)
| AccessDenied                                        (* 403 *)
| NotFound (error : string)                           (* 404 *)
| InvalidTransition (current_status : JobStatus)
                    (valid_next_statuses : list JobStatus)          (* 400 *)
| JobStatusUpdated (job : JobInstance) (old_status new_status : JobStatus)
| OrderStatusUpdated (order : OrderInstance) (old_status new_status : OrderStatus)
| ServerError (error : string).                       (* 500 *)

(** Which of the awaited writes of a request is rejected by the
    database (a persistence failure).  Each route performs each kind of
    write at most once.  Queries are taken to succeed. *)
Record Faults := {
  job_update_rejects : bool;
  status_update_create_rejects : bool;
  notification_create_rejects : bool;
  order_update_rejects : bool
}.

Definition no_faults : Faults :=
  {| job_update_rejects := false;
     status_update_create_rejects := false;
     notification_create_rejects := false;
     order_update_rejects := false |}.

(** A handler body: it reads and writes the database and either goes on
    with a value, has sent its response ([return res...json(..)]), or has
    thrown. *)
Inductive Flow (A : Type) :=
| Next (a : A)
| Sent (r : Response)
| Thrown.

Arguments Next {A} a.
Arguments Sent {A} r.
Arguments Thrown {A}.

Definition Route (A : Type) : Type := Db.t -> Db.t * Flow A.

#[global] Instance Route_ret : MRet Route :=
  fun A a db => (db, Next a).

#[global] Instance Route_bind : MBind Route :=
  fun A B f m db =>
    match m db with
    | (db', Next a) => f a db'
    | (db', Sent r) => (db', Sent r)
    | (db', Thrown) => (db', Thrown)
    end.

Definition respond {A} (r : Response) : Route A :=
  fun db => (db, Sent r).

Definition throw {A} : Route A :=
  fun db => (db, Thrown).

(** Reading a property of [null] throws a TypeError. *)
Definition deref {A} (v : option A) : Route A :=
  match v with
  | Some a => mret a
  | None => throw
  end.

(** [try { body } catch (error) { res.status(500).json({ error }) }] *)
Definition try_catch (body : Route Response) (error : string)
  : Db.t -> Db.t * Response :=
  fun db =>
    match body db with
    | (db', Next r) => (db', r)
    | (db', Sent r) => (db', r)
    | (db', Thrown) => (db', ServerError error)
    end.

(** *** Queries *)

Definition load_client (db : Db.t) (clientId : UUID) : option ClientInstance :=
  c ← Db.clients db !! clientId;
  Some {| client_row := c; client_user := Db.users db !! Client.user_id c |}.

Definition load_order (db : Db.t) (orderId : UUID) : option OrderInstance :=
  o ← Db.orders db !! orderId;
  Some {| order_row := o; order_client := load_client db (Order.client_id o) |}.

Definition load_job (db : Db.t) (jobId : UUID) : option JobInstance :=
  j ← Db.jobs db !! jobId;
  Some {| job_row := j; job_order := load_order db (Job.order_id j) |}.

(** [Order.findByPk(orderId, { include: client -> user })] *)
Definition Order_findByPk (orderId : UUID) : Route (option OrderInstance) :=
  fun db => (db, Next (load_order db orderId)).

(** [Job.findByPk(jobId, { include: order -> client -> user })] *)
Definition Job_findByPk (jobId : UUID) : Route (option JobInstance) :=
  fun db => (db, Next (load_job db jobId)).

(** *** Writes *)

(** [job.update(values)]: the values are set on the instance, the
    [beforeValidate] hook runs on it, and the assigned columns of the
    stored row are written.  The updated instance is returned. *)
Definition Job_update (flt : Faults) (values : list Job.assignment) (job : Job.t)
  : Route Job.t :=
  fun db =>
    if job_update_rejects flt then (db, Thrown)
    else
      let job' := Job.beforeValidate (Job.set values job) in
      let cols := map Job.column_of values in
      (Db.with_jobs (alter (Job.write cols job') (Job.id job) (Db.jobs db)) db,
       Next job').

(** [order.update(values)] *)
Definition Order_update (flt : Faults) (values : list Order.assignment) (order : Order.t)
  : Route Order.t :=
  fun db =>
    if order_update_rejects flt then (db, Thrown)
    else
      let order' := Order.beforeValidate (Order.set values order) in
      let cols := map Order.column_of values in
      (Db.with_orders (alter (Order.write cols order') (Order.id order) (Db.orders db)) db,
       Next order').

(** [JobStatusUpdate.create(values)] *)
Definition JobStatusUpdate_create (flt : Faults) (values : JobStatusUpdate.t)
  : Route unit :=
  fun db =>
    if status_update_create_rejects flt then (db, Thrown)
    else
      (Db.with_job_status_updates
         (Db.job_status_updates db ++ [JobStatusUpdate.beforeValidate values]) db,
       Next tt).

(** [Notification.create(values)].  The rows of the two status routes
    have a fixed title and type and a message made of a job type or an
    order number and a status display, which the validators of the model
    let through for every value the columns can hold. *)
Definition Notification_create (flt : Faults) (values : Notification.t)
  : Route unit :=
  fun db =>
    if notification_create_rejects flt then (db, Thrown)
    else
      (Db.with_notifications
         (Db.notifications db ++ [Notification.beforeValidate values]) db,
       Next tt).

(** ** Middleware (middleware/auth.js) *)

(** The routes run behind [authenticateToken], which has put the
    authenticated user in [req.user].  [requireRole] either answers 403
    or calls [next()]. *)
Definition requireRole (allowedRoles : list Role) (user : User.t) : option Response :=
  if bool_decide (User.role user ∈ allowedRoles) then None
  else Some (InsufficientPermissions allowedRoles (User.role user)).

Definition requireAdmin : User.t -> option Response :=
  requireRole [director; manager].

Definition requireManagement : User.t -> option Response :=
  requireRole [director; manager; supervisor].

(** ** routes/jobs.js *)

Module Jobs.

(** [req.body] of [PUT /:jobId/status] *)
Record StatusBody := {
  status : string;
  notes : option string;
  location_coordinates : option string   (* a JSON object *)
}.

(** The validation chain: [status] is one of the six literals, [notes],
    when present, passes [isLength({ max: 500 })]. *)
Definition validationResult (body : StatusBody) : option JobStatus :=
  match notes body with
  | Some n =>
      if Validator.isLength 0 (Some 500%nat) n then isIn_job_status (status body)
      else None
  | None => isIn_job_status (status body)
  end.

(** The own properties of [orderStatusMap]. *)
Definition orderStatusMap : gmap string OrderStatus :=
  list_to_map
    [ ("measuring", measuring_completed);
      ("delivery", delivered);
      ("installation", installation_completed) ].

(** The handler of [PUT /:jobId/status]; [now] is [new Date()]. *)
Definition put_status_handler (flt : Faults) (now : Date.t) (user : User.t)
    (jobId : UUID) (body : StatusBody) : Route Response :=
  match validationResult body with
  | None => respond ValidationErrors
  | Some status =>
      found ← Job_findByPk jobId;
      match found with
      | None => respond (NotFound "Job not found")
      | Some job =>
          (* Check permissions *)
          let isAssignedWorker :=
            bool_decide (Job.assigned_worker_id (job_row job) = Some (User.id user)) in
          let canManageJobs := User.canViewAllProjects user in
          if negb canManageJobs && negb isAssignedWorker then respond AccessDenied
          (* Validate status transition *)
          else if negb (Job.canUpdateStatus (job_row job) status) then
            respond (InvalidTransition (Job.status (job_row job))
                                       (Job.getNextValidStatuses (job_row job)))
          else
            let oldStatus := Job.status (job_row job) in
            (* Update job status *)
            row ← Job_update flt
                    [ Job.set_status status;
                      Job.set_actual_start_time
                        (if bool_decide (status = in_progress)
                            && negb (bool_decide (is_Some (Job.actual_start_time (job_row job))))
                         then Some now
                         else Job.actual_start_time (job_row job));
                      Job.set_actual_end_time
                        (if bool_decide (status = completed) then Some now
                         else Job.actual_end_time (job_row job)) ]
                    (job_row job);
            (* Create status update record *)
            _ ← JobStatusUpdate_create flt
                  {| JobStatusUpdate.job_id := Job.id row;
                     JobStatusUpdate.previous_status := Some oldStatus;
                     JobStatusUpdate.new_status := status;
                     JobStatusUpdate.updated_by := Some (User.id user);
                     JobStatusUpdate.notes := notes body;
                     JobStatusUpdate.location_coordinates := location_coordinates body |};
            (* Send notification to client and manager *)
            order ← deref (job_order job);
            client ← deref (order_client order);
            _ ← match client_user client with
                | Some clientUser =>
                    Notification_create flt
                      {| Notification.user_id := User.id clientUser;
                         Notification.title := "Job Status Update";
                         Notification.message :=
                           "Your " +:+ Job.getJobTypeDisplay row
                           +:+ " job status has been updated to "
                           +:+ Job.getStatusDisplay row;
                         Notification.type := "status_update";
                         Notification.is_read := false;
                         Notification.related_job_id := Some (Job.id row);
                         Notification.related_order_id := Some (Job.order_id row) |}
                | None => mret tt
                end;
            (* Update order status based on job completion *)
            order ← (if bool_decide (status = completed) then
                       match JS.get orderStatusMap (Job.job_type row) with
                       | JS.Own newOrderStatus =>
                           o ← Order_update flt [Order.set_status newOrderStatus]
                                 (order_row order);
                           mret {| order_row := o; order_client := order_client order |}
                       | JS.Inherited =>
                           (* a truthy value that is no status: the update throws *)
                           throw
                       | JS.Undefined => mret order
                       end
                     else mret order);
            mret (JobStatusUpdated {| job_row := row; job_order := Some order |}
                                   oldStatus status)
      end
  end.

(** [router.put('/:jobId/status', authenticateToken, [...], handler)] *)
Definition put_status (flt : Faults) (now : Date.t) (user : User.t)
    (jobId : UUID) (body : StatusBody) : Db.t -> Db.t * Response :=
  try_catch (put_status_handler flt now user jobId body)
            "Failed to update job status".

End Jobs.

(** ** routes/orders.js *)

Module Orders.

(** [req.body] of [PUT /:orderId/status] *)
Record StatusBody := {
  status : string;
  notes : option string
}.

Definition validationResult (body : StatusBody) : option OrderStatus :=
  isIn_order_status (status body).

(** The handler of [PUT /:orderId/status]; [now] is [new Date()], of
    which the DATEONLY column [actual_completion_date] takes the day.
    [sendOrderStatusNotification] hands the message to the e-mail, SMS and
    push providers, catches its own errors and leaves the database alone:
    it is the identity on the state kept here. *)
Definition put_status_handler (flt : Faults) (now : Date.t)
    (orderId : UUID) (body : StatusBody) : Route Response :=
  match validationResult body with
  | None => respond ValidationErrors
  | Some status =>
      found ← Order_findByPk orderId;
      match found with
      | None => respond (NotFound "Order not found")
      | Some order =>
          let oldStatus := Order.status (order_row order) in
          row ← Order_update flt
                  [ Order.set_status status;
                    Order.set_notes
                      (JS.or_else (notes body) (Order.notes (order_row order)));
                    Order.set_actual_completion_date
                      (if bool_decide (status = order_completed)
                       then Some (Date.DATEONLY now)
                       else Order.actual_completion_date (order_row order)) ]
                  (order_row order);
          (* Send notification to client *)
          client ← deref (order_client order);
          _ ← match client_user client with
              | Some clientUser =>
                  Notification_create flt
                    {| Notification.user_id := User.id clientUser;
                       Notification.title := "Order Status Update";
                       Notification.message :=
                         "Your order " +:+ JS.interpolate (Order.order_number row)
                         +:+ " status has been updated to "
                         +:+ Order.getStatusDisplay row;
                       Notification.type := "status_update";
                       Notification.is_read := false;
                       Notification.related_job_id := None;
                       Notification.related_order_id := Some (Order.id row) |}
              | None => mret tt
              end;
          mret (OrderStatusUpdated
                  {| order_row := row; order_client := order_client order |}
                  oldStatus status)
      end
  end.

(** [router.put('/:orderId/status', authenticateToken, requireManagement,
    logUserAction('update_order_status'), [...], handler)] *)
Definition put_status (flt : Faults) (now : Date.t) (user : User.t)
    (orderId : UUID) (body : StatusBody) : Db.t -> Db.t * Response :=
  fun db =>
    match requireManagement user with
    | Some r => (db, r)
    | None =>
        try_catch (put_status_handler flt now orderId body)
                  "Failed to update order status" db
    end.

End Orders.

(** ** Integrity constraints of the schema *)

(** Rows are stored under their primary key, and the NOT NULL foreign keys
    of jobs, orders and clients ([references], [allowNull: false]) point
    to existing rows. *)
Definition consistent (db : Db.t) : Prop :=
  map_Forall (fun k j => Job.id j = k /\ is_Some (Db.orders db !! Job.order_id j))
             (Db.jobs db)
  /\ map_Forall (fun k o => Order.id o = k /\ is_Some (Db.clients db !! Order.client_id o))
                (Db.orders db)
  /\ map_Forall (fun k c => is_Some (Db.users db !! Client.user_id c))
                (Db.clients db).

#[global] Instance consistent_dec (db : Db.t) : Decision (consistent db).
Proof. unfold consistent. apply _. Defined.


(** The permission check of [PUT /jobs/:jobId/status]: the assigned worker
    or a management role. *)
Definition may_update_job (user : User.t) (j : Job.t) : Prop :=
  Job.assigned_worker_id j = Some (User.id user)
  \/ User.role user ∈ [director; manager; supervisor].

(** ** Effects of an accepted request, in closed form *)

(** The job row after a transition: the new status, the start time
    stamped when the job goes to [in_progress] without one, the end time
    stamped when it goes to [completed]. *)
Definition job_after (now : Date.t) (requested : JobStatus) (j : Job.t) : Job.t :=
  Job.with_actual_end_time
    (if bool_decide (requested = completed) then Some now else Job.actual_end_time j)
    (Job.with_actual_start_time
       (match Job.actual_start_time j with
        | Some t => Some t
        | None => if bool_decide (requested = in_progress) then Some now else None
        end)
       (Job.with_status requested j)).

(** The audit record of a transition, as it is stored. *)
Definition audit_record (user : User.t) (body : Jobs.StatusBody)
    (requested : JobStatus) (j : Job.t) : JobStatusUpdate.t :=
  {| JobStatusUpdate.job_id := Job.id j;
     JobStatusUpdate.previous_status := Some (Job.status j);
     JobStatusUpdate.new_status := requested;
     JobStatusUpdate.updated_by := Some (User.id user);
     JobStatusUpdate.notes := JS.normalise JS.trim (Jobs.notes body);
     JobStatusUpdate.location_coordinates := Jobs.location_coordinates body |}.

(** The order row after a job of type [job_type] went to [requested]. *)
Definition order_after_job (requested : JobStatus) (job_type : string)
    (o : Order.t) : Order.t :=
  if bool_decide (requested = completed) then
    match JS.get Jobs.orderStatusMap (JS.when_truthy JS.toLowerCase job_type) with
    | JS.Own newOrderStatus => Order.with_status newOrderStatus o
    | JS.Inherited => o
    | JS.Undefined => o
    end
  else o.

(** The order row after a direct status update. *)
Definition order_after (now : Date.t) (newStatus : OrderStatus)
    (notes : option string) (o : Order.t) : Order.t :=
  Order.with_actual_completion_date
    (if bool_decide (newStatus = order_completed) then Some (Date.DATEONLY now)
     else Order.actual_completion_date o)
    (Order.with_notes
       (JS.normalise JS.trim (JS.or_else notes (Order.notes o)))
       (Order.with_status newStatus o)).

(** The notification row of a direct status update, before the model's
    hook. *)
Definition order_notification (clientUser : User.t) (row : Order.t) : Notification.t :=
  {| Notification.user_id := User.id clientUser;
     Notification.title := "Order Status Update";
     Notification.message :=
       "Your order " +:+ JS.interpolate (Order.order_number row)
       +:+ " status has been updated to " +:+ Order.getStatusDisplay row;
     Notification.type := "status_update";
     Notification.is_read := false;
     Notification.related_job_id := None;
     Notification.related_order_id := Some (Order.id row) |}.

(** ** The specification's words *)

Module Spec.

(** Section 4.1, the transition table (current, allowed next). *)
Inductive allowed_next : JobStatus -> JobStatus -> Prop :=
| assigned_en_route : allowed_next assigned en_route
| assigned_cancelled : allowed_next assigned cancelled
| en_route_arrived : allowed_next en_route arrived
| en_route_cancelled : allowed_next en_route cancelled
| arrived_in_progress : allowed_next arrived in_progress
| arrived_cancelled : allowed_next arrived cancelled
| in_progress_completed : allowed_next in_progress completed
| in_progress_cancelled : allowed_next in_progress cancelled.

Definition terminal (s : JobStatus) : Prop :=
  s = completed \/ s = cancelled.


(** Section 4.4, the canonical happy path of an order. *)
Definition happy_path : list OrderStatus :=
  [ pending; measuring_scheduled; measuring_in_progress; measuring_completed;
    production_scheduled; in_production; production_completed;
    delivery_scheduled; in_delivery; delivered;
    installation_scheduled; installation_in_progress; installation_completed;
    order_completed ].

(** [k] zero digits. *)
Fixpoint zeros (k : nat) : string :=
  match k with
  | O => ""
  | S k' => String "0" (zeros k')
  end.

(** Section 4.1, atomicity of the status write and its audit record:
    after the request either both are in the database or neither is. *)
Definition status_and_audit_atomic (jobId : UUID) (requested : JobStatus)
    (before after : Db.t) : Prop :=
  (Job.status <$> Db.jobs after !! jobId = Some requested
   /\ exists u, Db.job_status_updates after = Db.job_status_updates before ++ [u]
                /\ JobStatusUpdate.new_status u = requested)
  \/ (Db.jobs after = Db.jobs before
      /\ Db.job_status_updates after = Db.job_status_updates before).

End Spec.

(** ** A small database used to run the routes *)

Module Sample.

Definition noon : Date.t := Date.mk 2024 5 17 43200000.

Definition later : Date.t := Date.mk 2024 5 18 36000000.

Definition the_manager : User.t :=
  User.mk 1 manager (Some "olga@windows.example") true None false true.

Definition the_installer : User.t :=
  User.mk 2 installer None false (Some "+15550101") true true.

Definition the_client_user : User.t :=
  User.mk 3 client (Some "ivan@mail.example") true None false true.

Definition the_client : Client.t := Client.mk 10 3 (Some 1%N).

Definition the_order (s : OrderStatus) : Order.t :=
  Order.mk 100 (Some "WM-2024-000001") 10 (Some 1%N) s (Some 125000)
           (Some "USD") (Some noon) None None (Some "call before delivery")
           None noon.

Definition the_job (s : JobStatus) : Job.t :=
  Job.mk 1000 100 (Some 2%N) "installation" s None None
         "12 Glass Street" None (Some 90) None None None.

Definition db (js : JobStatus) (os : OrderStatus) : Db.t :=
  Db.mk (list_to_map [(1%N, the_manager); (2%N, the_installer); (3%N, the_client_user)])
        {[ 10%N := the_client ]}
        {[ 100%N := the_order os ]}
        {[ 1000%N := the_job js ]}
        [] [].

Definition job_body (s : string) : Jobs.StatusBody :=
  {| Jobs.status := s; Jobs.notes := Some " on my way "; Jobs.location_coordinates := None |}.

Definition order_body (s : string) : Orders.StatusBody :=
  {| Orders.status := s; Orders.notes := None |}.

(** The installer reports a status for job 1000 at time [now]. *)
Definition report (now : Date.t) (s : string) (before : Db.t) : Db.t * Response :=
  Jobs.put_status no_faults now the_installer 1000 (job_body s) before.

(** The scenario of section 8: [en_route], then [in_progress] (too
    early), then [arrived], [in_progress], [completed]. *)
Definition scenario : list (Db.t * Response) :=
  let r1 := report noon "en_route" (db assigned installation_scheduled) in
  let r2 := report noon "in_progress" r1.1 in
  let r3 := report noon "arrived" r2.1 in
  let r4 := report noon "in_progress" r3.1 in
  let r5 := report later "completed" r4.1 in
  [r1; r2; r3; r4; r5].

Definition audit_insert_fails : Faults :=
  {| job_update_rejects := false;
     status_update_create_rejects := true;
     notification_create_rejects := false;
     order_update_rejects := false |}.

End Sample.

(** * Further code of the models and routes

    The management routes for jobs (create, update, view, delete), the
    creation and the removal of orders, and what a DELETE takes with it
    under database/schema.sql; the gates of middleware/auth.js and its
    rate limiter; the models of sessions, reset tokens and verification
    codes with the routes that use them; the bulk routes for
    notifications; the route tables of the routers; the signing of
    contracts; the role and the removal of a user. *)

(** ** Sequences of status reports *)

(** [path] is a sequence of statuses each of which [canUpdateStatus]
    accepts in turn, starting from the job [j]. *)
Fixpoint accepted_path (j : Job.t) (path : list JobStatus) : bool :=
  match path with
  | [] => true
  | s :: rest => Job.canUpdateStatus j s && accepted_path (Job.with_status s j) rest
  end.

(** How far a status is along the life of a job. *)
Definition stage (s : JobStatus) : nat :=
  match s with
  | assigned => 0
  | en_route => 1
  | arrived => 2
  | in_progress => 3
  | completed => 4
  | cancelled => 4
  end.

(** The audit records of one job, oldest first. *)
Definition audit_trail (db : Db.t) (jobId : UUID) : list JobStatusUpdate.t :=
  filter (fun u => JobStatusUpdate.job_id u = jobId) (Db.job_status_updates db).

(** Each record of the trail starts from the status the record before it
    ended in; [prev] is the status before the first record. *)
Fixpoint linked (prev : option JobStatus) (trail : list JobStatusUpdate.t) : Prop :=
  match trail with
  | [] => True
  | u :: rest =>
      JobStatusUpdate.previous_status u = prev
      /\ linked (Some (JobStatusUpdate.new_status u)) rest
  end.

(** The status a trail ends in. *)
Definition trail_end (prev : option JobStatus) (trail : list JobStatusUpdate.t)
  : option JobStatus :=
  foldl (fun _ u => Some (JobStatusUpdate.new_status u)) prev trail.

(** The audit trail of a job accounts for its stored status: it starts
    from no status, its records link up, and it ends in the status the job
    row has. *)
Definition audit_complete (db : Db.t) (jobId : UUID) : Prop :=
  linked None (audit_trail db jobId)
  /\ trail_end None (audit_trail db jobId) = Job.status <$> Db.jobs db !! jobId.

(** ** Handlers of the other routes *)

(** What a route answers: the JSON payload of a success, the validation
    errors ([400 { errors }]), [res.status(status).json({ error })], or
    the 403 of [requireRole]. *)
Inductive Reply (P : Type) :=
| Ok (payload : P)
| Errors
| Error (status : Z) (error : string)
| Insufficient (required : list Role) (current : Role).

Arguments Ok {P} payload.
Arguments Errors {P}.
Arguments Error {P} status error.
Arguments Insufficient {P} required current.

Module Handler.

(** A handler body over the answer type [R]: it goes on with a value, has
    answered, or has thrown. *)
Inductive Step (R A : Type) :=
| Go (a : A)
| Answer (r : R)
| Throw.

Arguments Go {R A} a.
Arguments Answer {R A} r.
Arguments Throw {R A}.

(** [S] is the state the handler works on: the tables it reads and
    writes. *)
Definition t (S R A : Type) : Type := S -> S * Step R A.

#[global] Instance ret {S R} : MRet (t S R) :=
  fun A a db => (db, Go a).

#[global] Instance bind {S R} : MBind (t S R) :=
  fun A B f m db =>
    match m db with
    | (db', Go a) => f a db'
    | (db', Answer r) => (db', Answer r)
    | (db', Throw) => (db', Throw)
    end.

(** [return res.status(..).json(..)] *)
Definition answer {S R A} (r : R) : t S R A :=
  fun db => (db, Answer r).

(** An awaited query. *)
Definition query {S R A} (f : S -> A) : t S R A :=
  fun db => (db, Go (f db)).

(** An awaited write, which the database rejects when [rejects] holds. *)
Definition write {S R} (rejects : bool) (f : S -> S) : t S R unit :=
  fun db => if rejects then (db, Throw) else (f db, Go tt).

Definition throw {S R A} : t S R A :=
  fun db => (db, Throw).

(** An awaited statement that the database carries out ([Some], the
    state after it) or rejects. *)
Definition attempt {S R} (statement : S -> option S) : t S R unit :=
  fun db =>
    match statement db with
    | Some db' => (db', Go tt)
    | None => (db, Throw)
    end.

(** [try { body } catch (error) { res.status(500).json({ error }) }] *)
Definition run {S P} (body : t S (Reply P) (Reply P)) (error : string)
  : S -> S * Reply P :=
  fun db =>
    match body db with
    | (db', Go r) => (db', r)
    | (db', Answer r) => (db', r)
    | (db', Throw) => (db', Error 500 error)
    end.

(** A route behind [requireRole(allowedRoles)]. *)
Definition behind {S P} (allowedRoles : list Role) (user : User.t)
    (route : S -> S * Reply P) : S -> S * Reply P :=
  fun db =>
    if bool_decide (User.role user ∈ allowedRoles) then route db
    else (db, Insufficient allowedRoles (User.role user)).

End Handler.

(** models/User.js, the other role predicates. *)
Definition isWorker (this : User.t) : bool :=
  bool_decide (User.role this ∈ [measurer; delivery_person; installer]).

Definition isClient (this : User.t) : bool :=
  bool_decide (User.role this = client).

(** middleware/auth.js, the other role gates. *)
Definition requireWorker : User.t -> option Response :=
  requireRole [measurer; delivery_person; installer].

Definition requireClient : User.t -> option Response :=
  requireRole [client].

(** ** routes/jobs.js, the management routes *)

Module JobsAdmin.

(** [req.body] of [POST /]; the identifiers and the date are taken as
    parsed ([isUUID], [isISO8601]). *)
Record CreateBody := {
  order_id : UUID;
  job_type : string;
  location_address : string;
  scheduled_date : option Date.t;
  scheduled_time : option string;
  assigned_worker_id : option UUID;
  estimated_duration : option Z;
  notes : option string;
  location_coordinates : option string
}.

Definition digit (c : ascii) : bool :=
  ((48 <=? N_of_ascii c) && (N_of_ascii c <=? 57))%N.

Definition digit_upto (top : N) (c : ascii) : bool :=
  ((48 <=? N_of_ascii c) && (N_of_ascii c <=? 48 + top))%N.

(** [/^([0-1]?[0-9]|2[0-3]):[0-5][0-9]$/] *)
Definition matches_time (s : string) : bool :=
  match list_ascii_of_string s with
  | [h; c; m1; m2] =>
      digit h && Ascii.eqb c ":" && digit_upto 5 m1 && digit m2
  | [h1; h2; c; m1; m2] =>
      ((digit_upto 1 h1 && digit h2) || (Ascii.eqb h1 "2" && digit_upto 3 h2))
      && Ascii.eqb c ":" && digit_upto 5 m1 && digit m2
  | _ => false
  end.

Definition job_types : list string := ["measuring"; "delivery"; "installation"].

(** The validation chain of [POST /]. *)
Definition valid (body : CreateBody) : bool :=
  bool_decide (job_type body ∈ job_types)
  && negb (String.eqb (location_address body) "")
  && match scheduled_time body with Some t => matches_time t | None => true end
  && match estimated_duration body with Some d => 1 <=? d | None => true end.

Definition workerRoleMap : gmap string Role :=
  list_to_map
    [ ("measuring", measurer);
      ("delivery", delivery_person);
      ("installation", installer) ].

(** [User.findOne({ where: { id, role } })] *)
Definition find_worker (db : Db.t) (id : UUID) (role : Role) : option User.t :=
  match Db.users db !! id with
  | Some u => if bool_decide (User.role u = role) then Some u else None
  | None => None
  end.

(** The instance [Job.create(values)] builds: the generated id, the
    default status, the day of the date (the attribute is DATEONLY), and
    the [beforeValidate] hook. *)
Definition built (newId : UUID) (body : CreateBody) : Job.t :=
  Job.beforeValidate
    {| Job.id := newId;
       Job.order_id := order_id body;
       Job.assigned_worker_id := assigned_worker_id body;
       Job.job_type := job_type body;
       Job.status := assigned;
       Job.scheduled_date := Date.DATEONLY <$> scheduled_date body;
       Job.scheduled_time := scheduled_time body;
       Job.location_address := location_address body;
       Job.location_coordinates := location_coordinates body;
       Job.estimated_duration := estimated_duration body;
       Job.actual_start_time := None;
       Job.actual_end_time := None;
       Job.notes := notes body |}.

(** [Job.create(values)]: the model's [isIn] validator on [job_type], then
    the INSERT, which fails on a primary key that is taken.  The instance
    is returned as it was built; the row is what the columns make of it. *)
Definition Job_create {R} (rejects : bool) (newId : UUID) (body : CreateBody)
  : Handler.t Db.t R Job.t :=
  let job := built newId body in
  if negb (bool_decide (Job.job_type job ∈ job_types)) then Handler.throw
  else
    taken ← Handler.query (fun db => bool_decide (is_Some (Db.jobs db !! newId)));
    if (taken : bool) then Handler.throw
    else
      _ ← Handler.write rejects
            (fun db => Db.with_jobs (<[newId := Job.stored job]> (Db.jobs db)) db);
      mret job.

(** [JobStatusUpdate.create(values)] *)
Definition JobStatusUpdate_insert {R} (rejects : bool) (values : JobStatusUpdate.t)
  : Handler.t Db.t R unit :=
  Handler.write rejects
    (fun db =>
       Db.with_job_status_updates
         (Db.job_status_updates db ++ [JobStatusUpdate.beforeValidate values]) db).

(** [Notification.create(values)] with the model's [len] validators on
    the title (1 to 255 characters) and the message (1 to 1000). *)
Definition Notification_insert {R} (rejects : bool) (values : Notification.t)
  : Handler.t Db.t R unit :=
  let n := Notification.beforeValidate values in
  if Validator.isLength 1 (Some 255%nat) (Notification.title n)
     && Validator.isLength 1 (Some 1000%nat) (Notification.message n)
  then
    Handler.write rejects
      (fun db => Db.with_notifications (Db.notifications db ++ [n]) db)
  else Handler.throw.

(** [Notification.createJobAssignment(userId, jobId, jobType, location)] *)
Definition createJobAssignment (userId jobId : UUID) (jobType location : string)
  : Notification.t :=
  {| Notification.user_id := userId;
     Notification.title := "New Job Assignment";
     Notification.message :=
       "You have been assigned a new " +:+ jobType +:+ " job at " +:+ location;
     Notification.type := "job_assignment";
     Notification.is_read := false;
     Notification.related_job_id := Some jobId;
     Notification.related_order_id := None |}.

(** Which writes of [POST /] the database rejects. *)
Record CreateFaults := {
  job_create_rejects : bool;
  first_update_rejects : bool;
  assignment_rejects : bool
}.

Definition none_rejected : CreateFaults :=
  {| job_create_rejects := false;
     first_update_rejects := false;
     assignment_rejects := false |}.

(** The payload of [201]: the job fetched again with its order and its
    assigned worker. *)
Record Created := {
  job : option JobInstance;
  assignedWorker : option User.t
}.

(** The handler of [POST /]; [newId] is the UUID the model generates.
    [sendJobAssignmentNotification] catches its own errors and leaves the
    database alone. *)
Definition create_handler (flt : CreateFaults) (newId : UUID) (user : User.t)
    (body : CreateBody) : Handler.t Db.t (Reply Created) (Reply Created) :=
  if negb (valid body) then Handler.answer Errors
  else
    (* Verify order exists *)
    order ← Handler.query (fun db => Db.orders db !! order_id body);
    match order with
    | None => Handler.answer (Error 404 "Order not found")
    | Some _ =>
        (* Verify worker exists and has correct role if provided *)
        checked ←
          match assigned_worker_id body with
          | Some workerId =>
              (* [job_type] passed [isIn]: it is an own key of the map *)
              match workerRoleMap !! job_type body with
              | Some role =>
                  worker ← Handler.query (fun db => find_worker db workerId role);
                  match worker with
                  | None =>
                      Handler.answer
                        (Error 404 ("Worker not found or incorrect role for "
                                    +:+ job_type body +:+ " job"))
                  | Some _ => mret tt
                  end
              | None => Handler.throw
              end
          | None => mret tt
          end;
        (* Create job *)
        job ← Job_create (job_create_rejects flt) newId body;
        (* Create initial status update *)
        _ ← JobStatusUpdate_insert (first_update_rejects flt)
              {| JobStatusUpdate.job_id := Job.id job;
                 JobStatusUpdate.previous_status := None;
                 JobStatusUpdate.new_status := assigned;
                 JobStatusUpdate.updated_by := Some (User.id user);
                 JobStatusUpdate.notes := Some "Job created and assigned";
                 JobStatusUpdate.location_coordinates := None |};
        (* Send notification to worker if assigned *)
        _ ← match assigned_worker_id body with
            | Some workerId =>
                worker ← Handler.query (fun db => Db.users db !! workerId);
                match worker with
                | Some w =>
                    Notification_insert (assignment_rejects flt)
                      (createJobAssignment (User.id w) (Job.id job)
                         (Job.getJobTypeDisplay job) (Job.location_address job))
                | None => mret tt
                end
            | None => mret tt
            end;
        (* Fetch complete job data *)
        complete ← Handler.query
                     (fun db =>
                        {| job := load_job db (Job.id job);
                           assignedWorker :=
                             j ← Db.jobs db !! Job.id job;
                             w ← Job.assigned_worker_id j;
                             Db.users db !! w |});
        mret (Ok complete)
    end.

(** [router.post('/', authenticateToken, requireManagement,
    logUserAction('create_job'), [...], handler)] *)
Definition create (flt : CreateFaults) (newId : UUID) (user : User.t)
    (body : CreateBody) : Db.t -> Db.t * Reply Created :=
  Handler.behind [director; manager; supervisor] user
    (Handler.run (create_handler flt newId user body) "Failed to create job").

(** [job.destroy()] is the DELETE statement with whatever the schema
    cascades or refuses; it is a parameter of the route: [None] when the
    database rejects the statement, the database after it otherwise. *)
Definition Destroy (A : Type) : Type := A -> Db.t -> option Db.t.

Definition destroy_with {R A} (destroy : Destroy A) (row : A)
  : Handler.t Db.t R unit :=
  Handler.attempt (destroy row).

(** The handler of [DELETE /:jobId]. *)
Definition delete_handler (destroy : Destroy Job.t) (jobId : UUID)
  : Handler.t Db.t (Reply string) (Reply string) :=
  found ← Handler.query (fun db => Db.jobs db !! jobId);
  match found with
  | None => Handler.answer (Error 404 "Job not found")
  | Some job =>
      (* Check if job can be deleted (only assigned jobs) *)
      if negb (bool_decide (Job.status job = assigned)) then
        Handler.answer (Error 400 "Only assigned jobs can be deleted")
      else
        _ ← destroy_with destroy job;
        mret (Ok "Job deleted successfully")
  end.

(** [router.delete('/:jobId', authenticateToken, requireManagement,
    logUserAction('delete_job'), handler)] *)
Definition delete (destroy : Destroy Job.t) (user : User.t) (jobId : UUID)
  : Db.t -> Db.t * Reply string :=
  Handler.behind [director; manager; supervisor] user
    (Handler.run (delete_handler destroy jobId) "Failed to delete job").

(** The permission check of [GET /:jobId], on the job as loaded; reading
    [job.order.client.user_id] throws when the order or its client is
    missing. *)
Definition may_view (user : User.t) (job : JobInstance) : option bool :=
  let isWorker' :=
    isWorker user
    && bool_decide (Job.assigned_worker_id (job_row job) = Some (User.id user)) in
  let canViewAllJobs := User.canViewAllProjects user in
  isClient' ←
    (if bool_decide (User.role user = client) then
       order ← job_order job;
       c ← order_client order;
       Some (bool_decide (Client.user_id (client_row c) = User.id user))
     else Some false);
  Some (canViewAllJobs || isWorker' || isClient').

(** The handler of [GET /:jobId] (the included status updates and users
    are left out of the payload). *)
Definition get (user : User.t) (jobId : UUID) : Db.t -> Db.t * Reply JobInstance :=
  Handler.run
    (found ← Handler.query (fun db => load_job db jobId);
     match found with
     | None => Handler.answer (Error 404 "Job not found")
     | Some job =>
         match may_view user job with
         | None => Handler.throw
         | Some false => Handler.answer (Error 403 "Access denied")
         | Some true => mret (Ok job)
         end
     end)
    "Failed to fetch job".

End JobsAdmin.

(** ** routes/orders.js, deleting an order *)

Module OrdersAdmin.

(** The handler of [DELETE /:orderId]. *)
Definition delete_handler (destroy : JobsAdmin.Destroy Order.t) (orderId : UUID)
  : Handler.t Db.t (Reply string) (Reply string) :=
  found ← Handler.query (fun db => Db.orders db !! orderId);
  match found with
  | None => Handler.answer (Error 404 "Order not found")
  | Some order =>
      (* Check if order can be deleted (only pending orders) *)
      if negb (bool_decide (Order.status order = pending)) then
        Handler.answer (Error 400 "Only pending orders can be deleted")
      else
        _ ← JobsAdmin.destroy_with destroy order;
        mret (Ok "Order deleted successfully")
  end.

(** [router.delete('/:orderId', authenticateToken, requireAdmin,
    logUserAction('delete_order'), handler)] *)
Definition delete (destroy : JobsAdmin.Destroy Order.t) (user : User.t)
    (orderId : UUID) : Db.t -> Db.t * Reply string :=
  Handler.behind [director; manager] user
    (Handler.run (delete_handler destroy orderId) "Failed to delete order").

End OrdersAdmin.

(** ** database/schema.sql, what a DELETE takes with it

    Of the tables kept here.  The order items and the contracts of an
    order go with it ([ON DELETE CASCADE]) and hold nothing back. *)

Module Schema.

(** Whether a notification names the job [jobId]
    ([related_job_id UUID REFERENCES jobs(id)]). *)
Definition names_job (jobId : UUID) (n : Notification.t) : bool :=
  bool_decide (Notification.related_job_id n = Some jobId).

(** [DELETE FROM jobs WHERE id = ...]: the audit records of the job go
    with it ([job_id UUID REFERENCES jobs(id) ON DELETE CASCADE]); a
    notification that names the job has no ON DELETE action, so the
    statement is refused while there is one. *)
Definition delete_job : JobsAdmin.Destroy Job.t :=
  fun job db =>
    if existsb (names_job (Job.id job)) (Db.notifications db) then None
    else
      Some (Db.with_job_status_updates
              (filter (fun u => JobStatusUpdate.job_id u <> Job.id job)
                      (Db.job_status_updates db))
              (Db.with_jobs (delete (Job.id job) (Db.jobs db)) db)).

(** The jobs of an order. *)
Definition jobs_of (orderId : UUID) (jobs : gmap UUID Job.t) : gmap UUID Job.t :=
  filter (fun kv => Job.order_id kv.2 = orderId) jobs.

(** [DELETE FROM orders WHERE id = ...]: the jobs of the order go with it
    ([order_id UUID REFERENCES orders(id) ON DELETE CASCADE]), and with
    them their audit records; a notification that names the order
    ([related_order_id UUID REFERENCES orders(id)]) or one of these jobs
    has no ON DELETE action, so the statement is refused while there is
    one. *)
Definition delete_order : JobsAdmin.Destroy Order.t :=
  fun order db =>
    let gone := jobs_of (Order.id order) (Db.jobs db) in
    if existsb
         (fun n =>
            bool_decide (Notification.related_order_id n = Some (Order.id order))
            || match Notification.related_job_id n with
               | Some k => bool_decide (is_Some (gone !! k))
               | None => false
               end)
         (Db.notifications db)
    then None
    else
      Some (Db.with_job_status_updates
              (filter (fun u => gone !! JobStatusUpdate.job_id u = None)
                      (Db.job_status_updates db))
              (Db.with_jobs
                 (filter (fun kv => Job.order_id kv.2 <> Order.id order) (Db.jobs db))
                 (Db.with_orders (delete (Order.id order) (Db.orders db)) db))).

End Schema.

(** ** routes/orders.js, creating an order *)

Module OrdersCreate.

(** An element of [items] in [req.body] of [POST /]; the price is taken
    as parsed. *)
Record Item := {
  product_name : string;
  product_type : option string;
  quantity : Z;
  unit_price : option Z
}.

(** [req.body] of [POST /]; the identifiers, the amount and the date are
    taken as parsed ([isUUID], [isDecimal], [isISO8601]). *)
Record Body := {
  client_id : UUID;
  assigned_manager_id : option UUID;
  total_amount : option Z;
  estimated_completion_date : option Date.t;
  notes : option string;
  items : list Item
}.

(** The validation chain of [POST /]. *)
Definition valid (body : Body) : bool :=
  negb (bool_decide (items body = []))
  && forallb (fun item => negb (String.eqb (product_name item) "")
                          && (1 <=? quantity item))
             (items body).

(** The instance [Order.create(values)] builds from the values the route
    passes: the generated id, the defaults of the model, and no
    [order_number]. *)
Definition built (newId : UUID) (now : Date.t) (body : Body) : Order.t :=
  {| Order.id := newId;
     Order.order_number := None;
     Order.client_id := client_id body;
     Order.assigned_manager_id := assigned_manager_id body;
     Order.status := pending;
     Order.total_amount := total_amount body;
     Order.currency := Some "USD";
     Order.order_date := Some now;
     Order.estimated_completion_date := Date.DATEONLY <$> estimated_completion_date body;
     Order.actual_completion_date := None;
     Order.notes := notes body;
     Order.crm_order_id := None;
     Order.created_at := now |}.

(** The INSERT fails on a primary key or an order number that is taken
    and on a client that does not exist. *)
Definition conflicts (order : Order.t) (db : Db.t) : bool :=
  bool_decide (is_Some (Db.orders db !! Order.id order))
  || negb (bool_decide
             (map_Forall (fun _ o => Order.order_number o <> Order.order_number order)
                         (Db.orders db)))
  || negb (bool_decide (is_Some (Db.clients db !! Order.client_id order))).

(** [Order.create]: [beforeValidate] and the validation of the instance
    come first, [beforeCreate] runs on an instance that passed them, then
    the INSERT. *)
Definition Order_create {R} (rejects : bool) (now : Date.t) (instance : Order.t)
  : Handler.t Db.t R Order.t :=
  let order := Order.beforeValidate instance in
  if negb (Order.validate order) then Handler.throw
  else
    order ← Handler.query (fun db => Order.beforeCreate (Db.orders db) now order);
    refused ← Handler.query (conflicts order);
    if (refused : bool) then Handler.throw
    else
      _ ← Handler.write rejects
            (fun db => Db.with_orders (<[Order.id order := order]> (Db.orders db)) db);
      mret order.

(** [User.findOne({ where: { id, role: { [Op.in]: ['director', 'manager'] } } })] *)
Definition find_manager (db : Db.t) (id : UUID) : option User.t :=
  match Db.users db !! id with
  | Some u => if bool_decide (User.role u ∈ [director; manager]) then Some u else None
  | None => None
  end.

(** The handler of [POST /]; [newId] is the UUID the model generates and
    [rest] stands for the statements after [Order.create]: the order
    items, the notification of the client and the reload of the order. *)
Definition create_handler {P} (rejects : bool) (newId : UUID) (now : Date.t)
    (body : Body) (rest : Order.t -> Handler.t Db.t (Reply P) (Reply P))
  : Handler.t Db.t (Reply P) (Reply P) :=
  if negb (valid body) then Handler.answer Errors
  else
    (* Verify client exists *)
    client ← Handler.query (fun db => Db.clients db !! client_id body);
    match client with
    | None => Handler.answer (Error 404 "Client not found")
    | Some _ =>
        (* Verify manager exists if provided *)
        _ ← match assigned_manager_id body with
            | Some managerId =>
                manager ← Handler.query (fun db => find_manager db managerId);
                match manager with
                | None => Handler.answer (Error 404 "Manager not found")
                | Some _ => mret tt
                end
            | None => mret tt
            end;
        (* Create order *)
        order ← Order_create rejects now (built newId now body);
        rest order
    end.

(** [router.post('/', authenticateToken, requireAdmin,
    logUserAction('create_order'), [...], handler)] *)
Definition create {P} (rejects : bool) (newId : UUID) (now : Date.t)
    (user : User.t) (body : Body)
    (rest : Order.t -> Handler.t Db.t (Reply P) (Reply P))
  : Db.t -> Db.t * Reply P :=
  Handler.behind [director; manager] user
    (Handler.run (create_handler rejects newId now body rest)
                 "Failed to create order").

End OrdersCreate.

(** The assignment notification of a created job passes the model's
    length validators. *)
Definition assignment_fits (job : Job.t) (workerId : UUID) : bool :=
  let n := Notification.beforeValidate
             (JobsAdmin.createJobAssignment workerId (Job.id job)
                (Job.getJobTypeDisplay job) (Job.location_address job)) in
  Validator.isLength 1 (Some 255%nat) (Notification.title n)
  && Validator.isLength 1 (Some 1000%nat) (Notification.message n).

(** The audit record written when a job is created. *)
Definition first_audit_record (user : User.t) (newId : UUID) : JobStatusUpdate.t :=
  {| JobStatusUpdate.job_id := newId;
     JobStatusUpdate.previous_status := None;
     JobStatusUpdate.new_status := assigned;
     JobStatusUpdate.updated_by := Some (User.id user);
     JobStatusUpdate.notes := Some "Job created and assigned";
     JobStatusUpdate.location_coordinates := None |}.

(** Every audit record belongs to a stored job (the foreign key of
    [job_status_updates.job_id]). *)
Definition audit_references_jobs (db : Db.t) : Prop :=
  Forall (fun u => is_Some (Db.jobs db !! JobStatusUpdate.job_id u))
         (Db.job_status_updates db).

#[global] Instance audit_references_jobs_dec (db : Db.t) :
  Decision (audit_references_jobs db).
Proof. unfold audit_references_jobs. apply _. Defined.

Module Sample2.

Definition create_body (worker : option UUID) (address : string)
  : JobsAdmin.CreateBody :=
  {| JobsAdmin.order_id := 100;
     JobsAdmin.job_type := "installation";
     JobsAdmin.location_address := address;
     JobsAdmin.scheduled_date := Some Sample.later;
     JobsAdmin.scheduled_time := Some "9:30";
     JobsAdmin.assigned_worker_id := worker;
     JobsAdmin.estimated_duration := Some 120;
     JobsAdmin.notes := None;
     JobsAdmin.location_coordinates := None |}.

(** An address of a thousand characters. *)
Definition long_address : string := JS.fill 1000 "x" "".

(** The sample order as a row whose notes were stored with white space
    round them. *)
Definition padded_order : Order.t :=
  Order.with_notes (Some "  call before delivery ")
                   (Sample.the_order production_scheduled).

Definition padded_db : Db.t :=
  Db.with_orders {[ 100%N := padded_order ]}
                 (Sample.db assigned production_scheduled).

(** The sample database with job 1000 in progress and its type a name
    that object literals inherit; the column is a VARCHAR(50) and no route
    validates the stored type. *)
Definition inherited_type_db : Db.t :=
  Db.with_jobs {[ 1000%N := Job.with_job_type "constructor" (Sample.the_job in_progress) ]}
               (Sample.db in_progress installation_in_progress).

(** Notes of 501 characters, the last of which is the variation selector
    U+FE0F. *)
Definition notes_with_selector : string :=
  JS.fill 500 "x" "" +:+ JS.of_code_units [239; 184; 143]%N.

(** An order of two windows for the sample client. *)
Definition order_body : OrdersCreate.Body :=
  {| OrdersCreate.client_id := 10;
     OrdersCreate.assigned_manager_id := Some 1%N;
     OrdersCreate.total_amount := Some 84000;
     OrdersCreate.estimated_completion_date := None;
     OrdersCreate.notes := None;
     OrdersCreate.items :=
       [ {| OrdersCreate.product_name := "Casement window";
            OrdersCreate.product_type := None;
            OrdersCreate.quantity := 2;
            OrdersCreate.unit_price := Some 42000 |} ] |}.

(** The sample database after the manager created job 2000 for the
    installer. *)
Definition db_with_created_job : Db.t :=
  (JobsAdmin.create JobsAdmin.none_rejected 2000 Sample.the_manager
     (create_body (Some 2%N) " 7 Pane Road ")
     (Sample.db assigned installation_scheduled)).1.

End Sample2.

(** ** middleware/auth.js, the gates on the caller *)

Definition requireUserManagement (user : User.t) : option (Reply unit) :=
  if negb (User.canManageUsers user)
  then Some (Error 403 "User management permissions required")
  else None.

Definition requireProjectView (user : User.t) : option (Reply unit) :=
  if negb (User.canViewAllProjects user)
  then Some (Error 403 "Project view permissions required")
  else None.

(** ** middleware/auth.js, [createRateLimiter] *)

Module RateLimiter.

(** The [attempts] map of one limiter: per key, the times (milliseconds)
    of the attempts it let through. *)
Abbreviation t := (gmap string (list Z)).

(** [next()], or the 429 with its [retry_after]; [None] stands for the
    [NaN] that [recentAttempts[0]] gives on an empty array. *)
Inductive Verdict :=
| Next
| TooMany (retry_after : option Z).

(** [Math.ceil(x / 1000)] on an integer [x]. *)
Definition ceil_seconds (x : Z) : Z := - ((- x) / 1000).

(** The middleware [createRateLimiter(windowMs, max)] returns, on a
    request with key [key] ([req.ip + (req.user ? req.user.id : '')]) at
    [now] ([Date.now()]). *)
Definition limit (windowMs max : Z) (key : string) (now : Z) (attempts : t)
  : t * Verdict :=
  let windowStart := now - windowMs in
  let attempts :=
    if bool_decide (is_Some (attempts !! key)) then attempts
    else <[key := []]> attempts in
  let userAttempts := default [] (attempts !! key) in
  let recentAttempts := filter (fun time => windowStart < time) userAttempts in
  if bool_decide (max <= Z.of_nat (length recentAttempts)) then
    (attempts,
     TooMany ((fun first => ceil_seconds (first + windowMs - now))
                <$> head recentAttempts))
  else
    (<[key := recentAttempts ++ [now]]> attempts, Next).

(** A series of requests, oldest first; the result lists the requests
    that were let through. *)
Fixpoint serve (windowMs max : Z) (requests : list (string * Z)) (attempts : t)
  : t * list (string * Z) :=
  match requests with
  | [] => (attempts, [])
  | (key, now) :: rest =>
      match limit windowMs max key now attempts with
      | (attempts', Next) =>
          let (final, passed) := serve windowMs max rest attempts' in
          (final, (key, now) :: passed)
      | (attempts', TooMany _) => serve windowMs max rest attempts'
      end
  end.

(** The clock does not run backwards over a series of requests. *)
Fixpoint in_order (last : Z) (requests : list (string * Z)) : Prop :=
  match requests with
  | [] => True
  | (_, now) :: rest => last <= now /\ in_order now rest
  end.

(** The times of the requests of [passed] that have key [key]. *)
Definition times_of (key : string) (passed : list (string * Z)) : list Z :=
  (filter (fun r => r.1 = key) passed).*2.

(** How many of [passed] have key [key] and a time in the window that
    ends at [t]. *)
Definition passed_in_window (windowMs : Z) (key : string) (t : Z)
    (passed : list (string * Z)) : nat :=
  length (filter (fun time => t - windowMs < time <= t) (times_of key passed)).

End RateLimiter.

(** ** The tables behind the authentication routes *)

(** Times are milliseconds since the epoch, as [Date] compares them. *)

(** models/UserSession.js *)
Module UserSession.

Record t := mk {
  id : UUID;
  user_id : UUID;
  token_hash : string;
  expires_at : Z
}.

Definition isExpired (now : Z) (this : t) : bool :=
  bool_decide (expires_at this < now).

Definition isValid (now : Z) (this : t) : bool :=
  negb (isExpired now this).

(** [findOne({ where: { token_hash, expires_at: { [Op.gt]: new Date() } } })] *)
Definition findByTokenHash (now : Z) (tokenHash : string) (table : list t)
  : option t :=
  head (filter (fun s => token_hash s = tokenHash /\ now < expires_at s) table).

(** [destroy({ where: whereClause })] *)
Definition revokeAllForUser (userId : UUID) (exceptSessionId : option UUID)
    (table : list t) : list t :=
  match exceptSessionId with
  | Some except => filter (fun s => ~ (user_id s = userId /\ id s <> except)) table
  | None => filter (fun s => user_id s <> userId) table
  end.

(** [this.destroy()] *)
Definition revoke (this : t) (table : list t) : list t :=
  filter (fun s => id s <> id this) table.

End UserSession.

(** models/PasswordResetToken.js *)
Module PasswordResetToken.

Record t := mk {
  id : UUID;
  user_id : UUID;
  token : string;
  expires_at : Z;
  used : bool
}.

(** [this.used = true; return this.save()] *)
Definition markAsUsed (this : t) (table : list t) : list t :=
  (fun r => if bool_decide (id r = id this)
            then mk (id r) (user_id r) (token r) (expires_at r) true
            else r) <$> table.

(** [findOne({ where: { token, used: false,
                        expires_at: { [Op.gt]: new Date() } } })] *)
Definition findValidToken (now : Z) (token' : string) (table : list t) : option t :=
  head (filter (fun r => token r = token' /\ used r = false /\ now < expires_at r)
               table).

End PasswordResetToken.

(** models/VerificationCode.js *)
Module VerificationCode.

Record t := mk {
  id : UUID;
  user_id : UUID;
  code : string;
  type : string;
  expires_at : Z;
  used : bool;
  created_at : Z
}.

Definition isExpired (now : Z) (this : t) : bool :=
  bool_decide (expires_at this < now).

Definition isValid (now : Z) (this : t) : bool :=
  negb (used this) && negb (isExpired now this).

Definition with_used (v : bool) (r : t) : t :=
  mk (id r) (user_id r) (code r) (type r) (expires_at r) v (created_at r).

(** [this.used = true; return this.save()] *)
Definition markAsUsed (this : t) (table : list t) : list t :=
  (fun r => if bool_decide (id r = id this) then with_used true r else r) <$> table.

(** [findOne({ where: { user_id, code, type, used: false,
                        expires_at: { [Op.gt]: new Date() } } })] *)
Definition findValidCode (now : Z) (userId : UUID) (code' type' : string)
    (table : list t) : option t :=
  head (filter (fun r => user_id r = userId /\ code r = code' /\ type r = type'
                         /\ used r = false /\ now < expires_at r)
               table).

End VerificationCode.

(** ** routes/auth.js and [authenticateToken] *)

Module Auth.

(** A row of [users] with the columns the order and job routes do not
    read. *)
Record Account := {
  user : User.t;
  username : option string;
  password_hash : string
}.

Record Store := mk {
  users : gmap UUID Account;
  sessions : list UserSession.t;
  reset_tokens : list PasswordResetToken.t;
  verification_codes : list VerificationCode.t
}.

Definition with_users (v : gmap UUID Account) (s : Store) : Store :=
  mk v (sessions s) (reset_tokens s) (verification_codes s).

Definition with_sessions (v : list UserSession.t) (s : Store) : Store :=
  mk (users s) v (reset_tokens s) (verification_codes s).

Definition with_reset_tokens (v : list PasswordResetToken.t) (s : Store) : Store :=
  mk (users s) (sessions s) v (verification_codes s).

Definition with_verification_codes (v : list VerificationCode.t) (s : Store) : Store :=
  mk (users s) (sessions s) (reset_tokens s) v.

(** models/User.js, [hooks.beforeValidate] on the columns kept here. *)
Definition beforeValidate (a : Account) : Account :=
  let u := user a in
  {| user :=
       User.mk (User.id u) (User.role u)
               (JS.normalise (fun e => JS.toLowerCase (JS.trim e)) (User.email u))
               (User.email_verified u)
               (JS.normalise JS.trim (User.phone_number u))
               (User.phone_verified u) (User.is_active u);
     username := JS.normalise (fun n => JS.toLowerCase (JS.trim n)) (username a);
     password_hash := password_hash a |}.

(** models/User.js, the model validator [hasLoginMethod]. *)
Definition hasLoginMethod (this : Account) : bool :=
  JS.truthy (User.email (user this))
  || JS.truthy (User.phone_number (user this))
  || JS.truthy (username this).

(** [user.update(values)] on a loaded user: the values are set, the hook
    and the model validator run on the instance, and the assigned columns
    are written to the row; [set] assigns them. *)
Definition User_update {R} (rejects : bool) (loaded : Account)
    (set : Account -> Account) : Handler.t Store R unit :=
  if negb (hasLoginMethod (beforeValidate (set loaded))) then Handler.throw
  else
    Handler.write rejects
      (fun s => with_users (alter set (User.id (user loaded)) (users s)) s).

Definition set_password_hash (v : string) (a : Account) : Account :=
  {| user := user a; username := username a; password_hash := v |}.

Definition set_email_verified (v : bool) (a : Account) : Account :=
  let u := user a in
  {| user := User.mk (User.id u) (User.role u) (User.email u) v
                     (User.phone_number u) (User.phone_verified u)
                     (User.is_active u);
     username := username a;
     password_hash := password_hash a |}.

Definition set_phone_verified (v : bool) (a : Account) : Account :=
  let u := user a in
  {| user := User.mk (User.id u) (User.role u) (User.email u)
                     (User.email_verified u) (User.phone_number u) v
                     (User.is_active u);
     username := username a;
     password_hash := password_hash a |}.

(** What [jwt.verify] makes of a token: the payload's [userId], or the
    error it throws. *)
Inductive Verified :=
| Decoded (userId : option UUID)
| JsonWebTokenError
| TokenExpiredError
| OtherError.

(** [authenticateToken]: [token] is the second word of the authorization
    header, [now] and [later] are the clock when the session is looked up
    and when [isValid] reads it again.  [Ok] is [next()] with [req.user]
    and [req.session]. *)
Definition authenticateToken (verify : string -> Verified)
    (hashToken : string -> string) (token : option string) (now later : Z)
    (s : Store) : Reply (User.t * UserSession.t) :=
  match token with
  | None => Error 401 "Access token required"
  | Some token =>
      if String.eqb token "" then Error 401 "Access token required"
      else
        match verify token with
        | JsonWebTokenError => Error 401 "Invalid token"
        | TokenExpiredError => Error 401 "Token expired"
        | OtherError => Error 500 "Authentication error"
        | Decoded userId =>
            match UserSession.findByTokenHash now (hashToken token) (sessions s) with
            | None => Error 401 "Invalid or expired session"
            | Some session =>
                if negb (UserSession.isValid later session)
                then Error 401 "Invalid or expired session"
                else
                  match userId ≫= (fun id => users s !! id) with
                  | None => Error 401 "User not found or inactive"
                  | Some a =>
                      if negb (User.is_active (user a))
                      then Error 401 "User not found or inactive"
                      else Ok (user a, session)
                  end
            end
        end
  end.

(** Which writes of the routes the database rejects. *)
Record Rejects := {
  sessions_reject : bool;
  user_update_rejects : bool;
  token_save_rejects : bool;
  code_save_rejects : bool
}.

Definition accepts_all : Rejects :=
  {| sessions_reject := false;
     user_update_rejects := false;
     token_save_rejects := false;
     code_save_rejects := false |}.

(** [router.post('/logout', authenticateToken, handler)], after the
    middleware let the request through with [session]. *)
Definition logout (flt : Rejects) (session : UserSession.t)
  : Store -> Store * Reply string :=
  Handler.run
    (_ ← Handler.write (sessions_reject flt)
           (fun s => with_sessions (UserSession.revoke session (sessions s)) s);
     mret (Ok "Logout successful"))
    "Logout failed".

(** [router.post('/logout-all', authenticateToken, handler)] *)
Definition logout_all (flt : Rejects) (user : User.t)
  : Store -> Store * Reply string :=
  Handler.run
    (_ ← Handler.write (sessions_reject flt)
           (fun s => with_sessions
                       (UserSession.revokeAllForUser (User.id user) None (sessions s))
                       s);
     mret (Ok "Logged out from all devices"))
    "Logout failed".

(** The characters of [s] before its first line terminator, which is as
    far as [.*] reaches. *)
Fixpoint first_line (units : list N) : list N :=
  match units with
  | [] => []
  | 10%N :: _ => []
  | 13%N :: _ => []
  | 226%N :: 128%N :: 168%N :: _ => []
  | 226%N :: 128%N :: 169%N :: _ => []
  | u :: rest => u :: first_line rest
  end.

(** [isLength({ min: 8 }).matches(/^(?=.*[a-z])(?=.*[A-Z])(?=.*\d)/)] *)
Definition strong_password (password : string) : bool :=
  let line := first_line (JS.code_units password) in
  Validator.isLength 8 None password
  && existsb (fun u => (97 <=? u) && (u <=? 122))%N line
  && existsb (fun u => (65 <=? u) && (u <=? 90))%N line
  && existsb (fun u => (48 <=? u) && (u <=? 57))%N line.

(** [req.body] of [POST /reset-password] *)
Record ResetBody := {
  token : string;
  password : string
}.

(** The handler of [POST /reset-password]; [hash] is
    [bcrypt.hash(_, 12)]. *)
Definition reset_password (flt : Rejects) (hash : string -> string) (now : Z)
    (body : ResetBody) : Store -> Store * Reply string :=
  Handler.run
    (if negb (negb (String.eqb (token body) "") && strong_password (password body))
     then Handler.answer Errors
     else
       (* Find valid reset token *)
       resetToken ← Handler.query
                      (fun s => PasswordResetToken.findValidToken now (token body)
                                  (reset_tokens s));
       match resetToken with
       | None => Handler.answer (Error 400 "Invalid or expired reset token")
       | Some resetToken =>
           owner ← Handler.query
                     (fun s => users s !! PasswordResetToken.user_id resetToken);
           match owner with
           | None => Handler.throw
           | Some owner =>
               (* Update user password *)
               _ ← User_update (user_update_rejects flt) owner
                     (set_password_hash (hash (password body)));
               (* Mark token as used *)
               _ ← Handler.write (token_save_rejects flt)
                     (fun s => with_reset_tokens
                                 (PasswordResetToken.markAsUsed resetToken
                                    (reset_tokens s)) s);
               (* Revoke all user sessions *)
               _ ← Handler.write (sessions_reject flt)
                     (fun s => with_sessions
                                 (UserSession.revokeAllForUser
                                    (User.id (user owner)) None (sessions s)) s);
               mret (Ok "Password reset successful")
           end
       end)
    "Password reset failed".

(** A token as [hooks.beforeCreate] of the model makes it:
    [crypto.randomBytes(32).toString('hex')], 64 hexadecimal digits. *)
Definition generated_token (token : string) : bool :=
  (String.length token =? 64)%nat
  && forallb (fun c => JobsAdmin.digit c
                       || ((97 <=? N_of_ascii c) && (N_of_ascii c <=? 102))%N)
             (list_ascii_of_string token).

(** The code [POST /forgot-password] sends for a generated token:
    [resetToken.token.substring(0, 8).toUpperCase()]. *)
Definition reset_code (token : string) : string :=
  JS.toUpperCase (String.substring 0 8 token).

(** [isNumeric()]: [/^[+-]?([0-9]*[.])?[0-9]+$/] *)
Definition digits (l : list ascii) : bool :=
  forallb JobsAdmin.digit l.

Definition unsigned_numeric (l : list ascii) : bool :=
  (negb (bool_decide (l = [])) && digits l)
  || existsb
       (fun k => digits (take k l)
                 && bool_decide (l !! k = Some "."%char)
                 && negb (bool_decide (drop (S k) l = []))
                 && digits (drop (S k) l))
       (seq 0 (length l)).

Definition isNumeric (s : string) : bool :=
  match list_ascii_of_string s with
  | "+"%char :: rest => unsigned_numeric rest
  | "-"%char :: rest => unsigned_numeric rest
  | l => unsigned_numeric l
  end.

(** [req.body] of [POST /verify]; [user_id] is absent when the body has
    none that is a UUID. *)
Record VerifyBody := {
  code : string;
  type : string;
  user_id : option UUID
}.

Definition verify_valid (body : VerifyBody) : bool :=
  Validator.isLength 6 (Some 6%nat) (code body)
  && isNumeric (code body)
  && bool_decide (type body ∈ ["email"; "sms"]).

(** The handler of [POST /verify]. *)
Definition verify (flt : Rejects) (now : Z) (body : VerifyBody)
  : Store -> Store * Reply string :=
  Handler.run
    (if negb (verify_valid body) then Handler.answer Errors
     else
       match user_id body with
       | None => Handler.throw
       | Some userId =>
           (* Find valid verification code *)
           found ← Handler.query
                     (fun s => VerificationCode.findValidCode now userId (code body)
                                 (type body) (verification_codes s));
           match found with
           | None => Handler.answer (Error 400 "Invalid or expired verification code")
           | Some verificationCode =>
               owner ← Handler.query
                         (fun s => users s !! VerificationCode.user_id verificationCode);
               (* Mark code as used *)
               _ ← Handler.write (code_save_rejects flt)
                     (fun s => with_verification_codes
                                 (VerificationCode.markAsUsed verificationCode
                                    (verification_codes s)) s);
               (* Update user verification status *)
               match owner with
               | None => Handler.throw
               | Some owner =>
                   _ ← User_update (user_update_rejects flt) owner
                         (if String.eqb (type body) "email"
                          then set_email_verified true
                          else if String.eqb (type body) "sms"
                               then set_phone_verified true
                               else id);
                   mret (Ok ((if String.eqb (type body) "email" then "Email"
                              else "Phone") +:+ " verified successfully"))
               end
           end
       end)
    "Verification failed".

End Auth.

Module Sample3.

Definition olga : Auth.Account :=
  {| Auth.user := Sample.the_manager;
     Auth.username := Some "olga";
     Auth.password_hash := "$2a$12$old" |}.

Definition pavel : Auth.Account :=
  {| Auth.user := Sample.the_installer;
     Auth.username := None;
     Auth.password_hash := "$2a$12$pavel" |}.

(** A token as [randomBytes(32).toString('hex')] gives it. *)
Definition a_token : string :=
  "9f86d081884c7d659a2feaa0c55ad015a3bf4f1b2b0b822cd15d6c15b0f00a08".

Definition store : Auth.Store :=
  Auth.mk
    (list_to_map [(1%N, olga); (2%N, pavel)])
    [ UserSession.mk 50 1 "hash-phone" 2000000;
      UserSession.mk 51 1 "hash-laptop" 3000000;
      UserSession.mk 52 2 "hash-van" 3000000 ]
    [ PasswordResetToken.mk 60 1 a_token 1500000 false ]
    [ VerificationCode.mk 70 2 "493817" "sms" 1200000 false 300000 ].

(** [jwt.verify] and [hashToken] of the sample: the token names its user
    and its hash. *)
Definition verify (token : string) : Auth.Verified :=
  if String.eqb token "phone" then Auth.Decoded (Some 1%N)
  else if String.eqb token "laptop" then Auth.Decoded (Some 1%N)
  else if String.eqb token "van" then Auth.Decoded (Some 2%N)
  else Auth.JsonWebTokenError.

Definition hashToken (token : string) : string := "hash-" +:+ token.

Definition bcrypt (password : string) : string := "$2a$12$" +:+ password.

End Sample3.

(** ** routes/jobs.js, the general update *)

Module JobsUpdate.

(** [req.body] of [PUT /:jobId], for bodies that have these keys at most,
    none of them null; the identifier and the date are taken as parsed. *)
Record Body := {
  status : option string;
  assigned_worker_id : option UUID;
  scheduled_date : option Date.t;
  scheduled_time : option string;
  estimated_duration : option Z;
  location_address : option string;
  notes : option string
}.

(** The validation chain of [PUT /:jobId]. *)
Definition valid (body : Body) : bool :=
  match scheduled_time body with Some t => JobsAdmin.matches_time t | None => true end
  && match estimated_duration body with Some d => 1 <=? d | None => true end.

(** [this.set(values)] of [job.update(updateData)], with the status as
    the column type reads it. *)
Definition assign (body : Body) (status' : option JobStatus) (job : Job.t) : Job.t :=
  {| Job.id := Job.id job;
     Job.order_id := Job.order_id job;
     Job.assigned_worker_id :=
       match assigned_worker_id body with
       | Some w => Some w
       | None => Job.assigned_worker_id job
       end;
     Job.job_type := Job.job_type job;
     Job.status := default (Job.status job) status';
     Job.scheduled_date :=
       match scheduled_date body with
       | Some d => Some (Date.DATEONLY d)
       | None => Job.scheduled_date job
       end;
     Job.scheduled_time :=
       match scheduled_time body with
       | Some t => Some t
       | None => Job.scheduled_time job
       end;
     Job.location_address := default (Job.location_address job) (location_address body);
     Job.location_coordinates := Job.location_coordinates job;
     Job.estimated_duration :=
       match estimated_duration body with
       | Some d => Some d
       | None => Job.estimated_duration job
       end;
     Job.actual_start_time := Job.actual_start_time job;
     Job.actual_end_time := Job.actual_end_time job;
     Job.notes :=
       match notes body with
       | Some n => Some n
       | None => Job.notes job
       end |}.

(** The column of the instance where the body names it, the stored one
    otherwise. *)
Definition named {K A} (key : option K) (of_instance of_stored : A) : A :=
  match key with
  | Some _ => of_instance
  | None => of_stored
  end.

(** The row after the UPDATE: the columns the body names are written as
    the instance has them after [beforeValidate] (the time as the TIME
    column takes it); the other columns stay as stored. *)
Definition written (body : Body) (instance stored : Job.t) : Job.t :=
  {| Job.id := Job.id stored;
     Job.order_id := Job.order_id stored;
     Job.assigned_worker_id :=
       named (assigned_worker_id body)
             (Job.assigned_worker_id instance) (Job.assigned_worker_id stored);
     Job.job_type := Job.job_type stored;
     Job.status :=
       named (status body) (Job.status instance) (Job.status stored);
     Job.scheduled_date :=
       named (scheduled_date body)
             (Job.scheduled_date instance) (Job.scheduled_date stored);
     Job.scheduled_time :=
       named (scheduled_time body)
             (Job.TIME <$> Job.scheduled_time instance) (Job.scheduled_time stored);
     Job.location_address :=
       named (location_address body)
             (Job.location_address instance) (Job.location_address stored);
     Job.location_coordinates := Job.location_coordinates stored;
     Job.estimated_duration :=
       named (estimated_duration body)
             (Job.estimated_duration instance) (Job.estimated_duration stored);
     Job.actual_start_time := Job.actual_start_time stored;
     Job.actual_end_time := Job.actual_end_time stored;
     Job.notes := named (notes body) (Job.notes instance) (Job.notes stored) |}.

(** [job.update(updateData)]: a status that is none of the values of the
    ENUM column makes the statement fail. *)
Definition Job_update {R} (rejects : bool) (body : Body) (job : Job.t)
  : Handler.t Db.t R Job.t :=
  match status body, status body ≫= isIn_job_status with
  | Some _, None => Handler.throw
  | _, status' =>
      let instance := Job.beforeValidate (assign body status' job) in
      _ ← Handler.write rejects
            (fun db => Db.with_jobs
                         (alter (written body instance) (Job.id job) (Db.jobs db)) db);
      mret instance
  end.

(** Which writes of [PUT /:jobId] the database rejects. *)
Record Faults := {
  assignment_rejects : bool;
  job_update_rejects : bool
}.

Definition none_rejected : Faults :=
  {| assignment_rejects := false; job_update_rejects := false |}.

(** The handler of [PUT /:jobId]. *)
Definition update_handler (flt : Faults) (jobId : UUID) (body : Body)
  : Handler.t Db.t (Reply Job.t) (Reply Job.t) :=
  if negb (valid body) then Handler.answer Errors
  else
    found ← Handler.query (fun db => Db.jobs db !! jobId);
    match found with
    | None => Handler.answer (Error 404 "Job not found")
    | Some job =>
        (* Verify worker exists and has correct role if provided *)
        _ ← match assigned_worker_id body with
            | Some workerId =>
                (* for a stored type that is no own key of the map the role
                   of the query is [undefined] or an inherited function, and
                   the query throws either way *)
                match JobsAdmin.workerRoleMap !! Job.job_type job with
                | Some role =>
                    worker ← Handler.query
                               (fun db => JobsAdmin.find_worker db workerId role);
                    match worker with
                    | None =>
                        Handler.answer
                          (Error 404 ("Worker not found or incorrect role for "
                                      +:+ Job.job_type job +:+ " job"))
                    | Some worker =>
                        (* Send notification if worker changed *)
                        if negb (bool_decide (Job.assigned_worker_id job
                                              = Some workerId))
                        then
                          JobsAdmin.Notification_insert (assignment_rejects flt)
                            (JobsAdmin.createJobAssignment (User.id worker)
                               (Job.id job) (Job.getJobTypeDisplay job)
                               (Job.location_address job))
                        else mret tt
                    end
                | None => Handler.throw
                end
            | None => mret tt
            end;
        instance ← Job_update (job_update_rejects flt) body job;
        mret (Ok instance)
    end.

(** [router.put('/:jobId', authenticateToken, requireManagement,
    logUserAction('update_job'), [...], handler)] *)
Definition update (flt : Faults) (user : User.t) (jobId : UUID) (body : Body)
  : Db.t -> Db.t * Reply Job.t :=
  Handler.behind [director; manager; supervisor] user
    (Handler.run (update_handler flt jobId body) "Failed to update job").

(** A body that names the status only. *)
Definition status_only (s : string) : Body :=
  {| status := Some s;
     assigned_worker_id := None;
     scheduled_date := None;
     scheduled_time := None;
     estimated_duration := None;
     location_address := None;
     notes := None |}.

End JobsUpdate.

(** ** routes/notifications.js, the bulk routes *)

Module Notifications.

(** The notifications of [userId] that are read ([is_read = read]). *)
Definition of_user (userId : UUID) (read : bool) (table : list Notification.t)
  : list Notification.t :=
  filter (fun n => Notification.user_id n = userId /\ Notification.is_read n = read)
         table.

Definition with_is_read (v : bool) (n : Notification.t) : Notification.t :=
  Notification.mk (Notification.user_id n) (Notification.title n)
                  (Notification.message n) (Notification.type n) v
                  (Notification.related_job_id n) (Notification.related_order_id n).

(** [router.put('/mark-all-read', authenticateToken, handler)]: the
    payload is [updated_count]. *)
Definition mark_all_read (rejects : bool) (user : User.t)
  : Db.t -> Db.t * Reply nat :=
  Handler.run
    (updatedCount ← Handler.query
                      (fun db => length (of_user (User.id user) false
                                           (Db.notifications db)));
     _ ← Handler.write rejects
           (fun db =>
              Db.with_notifications
                ((fun n => if bool_decide (Notification.user_id n = User.id user
                                           /\ Notification.is_read n = false)
                           then with_is_read true n
                           else n) <$> Db.notifications db)
                db);
     mret (Ok updatedCount))
    "Failed to mark all notifications as read".

(** [router.delete('/read/all', authenticateToken, handler)]: the payload
    is [deleted_count]. *)
Definition delete_read (rejects : bool) (user : User.t)
  : Db.t -> Db.t * Reply nat :=
  Handler.run
    (deletedCount ← Handler.query
                      (fun db => length (of_user (User.id user) true
                                           (Db.notifications db)));
     _ ← Handler.write rejects
           (fun db =>
              Db.with_notifications
                (filter (fun n => ~ (Notification.user_id n = User.id user
                                     /\ Notification.is_read n = true))
                        (Db.notifications db))
                db);
     mret (Ok deletedCount))
    "Failed to delete read notifications".

End Notifications.

(** ** The routers *)

Module Express.

Inductive Method := GET | POST | PUT | DELETE.

#[global] Instance Method_eq_dec : EqDecision Method.
Proof. solve_decision. Defined.

(** A segment of a route path: a literal, or a parameter [:name]. *)
Inductive Segment :=
| Lit (text : string)
| Param (name : string).

(** A route as the router keeps it: the line of the source that declares
    it, its method and the segments of its path. *)
Record Route := {
  line : nat;
  method : Method;
  path : list Segment
}.

#[global] Instance Segment_eq_dec : EqDecision Segment.
Proof. solve_decision. Defined.

#[global] Instance Route_eq_dec : EqDecision Route.
Proof. solve_decision. Defined.

(** Whether a segment of the requested path matches: a literal matches
    without regard to case, a parameter matches any segment that is not
    empty. *)
Definition segment_matches (seg : Segment) (requested : string) : bool :=
  match seg with
  | Lit text => String.eqb (JS.toLowerCase text) (JS.toLowerCase requested)
  | Param _ => negb (String.eqb requested "")
  end.

(** Whether a route path matches the segments of the requested path (the
    path below the mount point, split at the slashes, a trailing slash
    left out). *)
Fixpoint matches (path : list Segment) (requested : list string) : bool :=
  match path, requested with
  | [], [] => true
  | seg :: path', r :: requested' => segment_matches seg r && matches path' requested'
  | _, _ => false
  end.

(** The route that handles a request: the first one, in the order of
    declaration, with the method and a matching path.  The handlers of
    this backend answer and never pass the request on. *)
Definition dispatch (routes : list Route) (m : Method) (requested : list string)
  : option Route :=
  find (fun r => bool_decide (method r = m) && matches (path r) requested) routes.

(** A path that a route is meant for: its literals, and [x] for every
    parameter. *)
Definition sample_path (r : Route) : list string :=
  (fun seg => match seg with Lit text => text | Param _ => "x" end) <$> path r.

Definition route (line : nat) (m : Method) (path : list Segment) : Route :=
  {| line := line; method := m; path := path |}.

(** routes/auth.js, mounted at [/api/auth] *)
Definition auth : list Route :=
  [ route 1198 POST [Lit "register"];
    route 1306 POST [Lit "login"];
    route 1374 POST [Lit "logout"];
    route 1387 POST [Lit "logout-all"];
    route 1400 POST [Lit "forgot-password"];
    route 1456 POST [Lit "reset-password"];
    route 1495 POST [Lit "verify"];
    route 1538 POST [Lit "resend-verification"];
    route 1586 GET [Lit "me"];
    route 1604 GET [Lit "sessions"];
    route 1625 DELETE [Lit "sessions"; Param "sessionId"] ].

(** routes/users.js, mounted at [/api/users] *)
Definition users : list Route :=
  [ route 16 GET [];
    route 63 GET [Param "userId"];
    route 93 POST [];
    route 199 PUT [Param "userId"];
    route 257 PUT [Param "userId"; Lit "password"];
    route 296 PUT [Param "userId"; Lit "role"];
    route 327 PUT [Param "userId"; Lit "status"];
    route 358 GET [Param "userId"; Lit "orders"];
    route 406 GET [Param "userId"; Lit "jobs"];
    route 463 GET [Param "userId"; Lit "notifications"];
    route 498 DELETE [Param "userId"] ].

(** routes/orders.js, mounted at [/api/orders] *)
Definition orders : list Route :=
  [ route 15 GET [];
    route 97 GET [Param "orderId"];
    route 163 POST [];
    route 276 PUT [Param "orderId"];
    route 323 PUT [Param "orderId"; Lit "status"];
    route 394 POST [Param "orderId"; Lit "items"];
    route 434 PUT [Param "orderId"; Lit "items"; Param "itemId"];
    route 470 DELETE [Param "orderId"; Lit "items"; Param "itemId"];
    route 493 GET [Lit "stats"; Lit "overview"];
    route 558 DELETE [Param "orderId"] ].

(** routes/jobs.js, mounted at [/api/jobs] *)
Definition jobs : list Route :=
  [ route 540 GET [];
    route 616 GET [Param "jobId"];
    route 679 POST [];
    route 805 PUT [Param "jobId"];
    route 872 PUT [Param "jobId"; Lit "status"];
    route 984 GET [Lit "worker"; Param "workerId"];
    route 1046 GET [Lit "stats"; Lit "overview"];
    route 1122 DELETE [Param "jobId"] ].

(** routes/contracts.js, mounted at [/api/contracts] *)
Definition contracts : list Route :=
  [ route 18 GET [];
    route 87 GET [Param "contractId"];
    route 138 POST [];
    route 441 GET [Param "contractId"; Lit "download"];
    route 495 POST [Param "contractId"; Lit "send-email"];
    route 559 PUT [Param "contractId"; Lit "sign"];
    route 610 GET [Lit "order"; Param "orderId"];
    route 653 DELETE [Param "contractId"] ].

(** routes/notifications.js, mounted at [/api/notifications] *)
Definition notifications : list Route :=
  [ route 14 GET [];
    route 93 GET [Param "notificationId"];
    route 135 PUT [Param "notificationId"; Lit "read"];
    route 166 PUT [Lit "mark-all-read"];
    route 190 POST [];
    route 267 POST [Lit "broadcast"];
    route 354 GET [Lit "stats"; Lit "overview"];
    route 419 DELETE [Param "notificationId"];
    route 445 DELETE [Lit "read"; Lit "all"];
    route 466 GET [Lit "preferences"];
    route 497 PUT [Lit "preferences"] ].

(** routes/company.js, mounted at [/api/company] *)
Definition company : list Route :=
  [ route 590 GET [Lit "info"];
    route 601 PUT [Lit "info"];
    route 631 GET [Lit "videos"];
    route 644 POST [Lit "videos"];
    route 687 PUT [Lit "videos"; Param "videoId"];
    route 721 PUT [Lit "videos"; Lit "reorder"];
    route 745 PUT [Lit "videos"; Param "videoId"; Lit "status"];
    route 780 DELETE [Lit "videos"; Param "videoId"];
    route 800 GET [Lit "about"];
    route 840 GET [Lit "contact"];
    route 872 GET [Lit "search"] ].

(** routes/crm.js, mounted at [/api/crm] *)
Definition crm : list Route :=
  [ route 1035 GET [Lit "customers"];
    route 1083 GET [Lit "orders"];
    route 1127 POST [Lit "sync"];
    route 1162 GET [Lit "customers"; Param "customerId"];
    route 1199 PUT [Lit "orders"; Param "crmOrderId"; Lit "status"];
    route 1234 POST [Lit "customers"; Param "customerId"; Lit "import"];
    route 1293 GET [Lit "status"];
    route 1321 GET [Lit "sync"; Lit "history"];
    route 1378 PUT [Lit "settings"] ].

(** The routers of the backend. *)
Definition routers : list (list Route) :=
  [auth; users; orders; jobs; contracts; notifications; company; crm].

(** [earlier] answers every request that [later] is declared for. *)
Definition covers (earlier later : Route) : bool :=
  bool_decide (method earlier = method later)
  && bool_decide (length (path earlier) = length (path later))
  && forallb (fun '(e, l) =>
                match e, l with
                | Param _, Lit text => negb (String.eqb text "")
                | Param _, Param _ => true
                | Lit a, Lit b => String.eqb (JS.toLowerCase a) (JS.toLowerCase b)
                | Lit _, Param _ => false
                end)
             (zip (path earlier) (path later)).

End Express.

(** ** models/Contract.js and routes/contracts.js *)

Module Contract.

Record t := mk {
  id : UUID;
  order_id : UUID;
  contract_number : string;
  contract_type : string;
  file_path : option string;
  file_url : option string;
  signed_date : option Date.t;
  is_signed : bool
}.

Definition hasFile (this : t) : bool :=
  JS.truthy (JS.or_else (file_path this) (file_url this)).

Definition canBeSigned (this : t) : bool :=
  hasFile this && negb (is_signed this).

(** A DATEONLY column keeps the day. *)
Definition date_only (d : Date.t) : Date.t :=
  Date.mk (Date.getFullYear d) (Date.getMonth d) (Date.getDate d) 0.

Definition markAsSigned (now : Date.t) (this : t) : t :=
  mk (id this) (order_id this) (contract_number this) (contract_type this)
     (file_path this) (file_url this) (Some (date_only now)) true.

(** hooks.beforeValidate *)
Definition beforeValidate (contract : t) : t :=
  mk (id contract) (order_id contract) (contract_number contract)
     (JS.when_truthy JS.toLowerCase (contract_type contract))
     (file_path contract) (file_url contract) (signed_date contract)
     (is_signed contract).

(** What [getStatusDisplay] tells apart. *)
Inductive Display := Signed (on : option Date.t) | PendingSignature | Draft.

Definition getStatusDisplay (this : t) : Display :=
  if is_signed this then Signed (signed_date this)
  else if hasFile this then PendingSignature
  else Draft.

End Contract.

Module Contracts.

(** The contracts beside the tables of the order routes. *)
Record Store := mk {
  db : Db.t;
  contracts : gmap UUID Contract.t
}.

Definition with_contracts (v : gmap UUID Contract.t) (s : Store) : Store :=
  mk (db s) v.

(** The permission check of [GET /:contractId] and [PUT /:contractId/sign],
    on the contract as loaded with its order and client; reading
    [contract.order.client.user_id] throws when one of them is missing. *)
Definition may_access (user : User.t) (s : Store) (contract : Contract.t)
  : option bool :=
  isClientOwner ←
    (if bool_decide (User.role user = client) then
       order ← load_order (db s) (Contract.order_id contract);
       c ← order_client order;
       Some (bool_decide (Client.user_id (client_row c) = User.id user))
     else Some false);
  Some (User.canViewAllProjects user || isClientOwner).

(** [router.put('/:contractId/sign', authenticateToken, handler)] *)
Definition sign (rejects : bool) (now : Date.t) (user : User.t) (contractId : UUID)
  : Store -> Store * Reply Contract.t :=
  Handler.run
    (found ← Handler.query (fun s => contracts s !! contractId);
     match found with
     | None => Handler.answer (Error 404 "Contract not found")
     | Some contract =>
         (* Check permissions - only client owner or management can sign *)
         allowed ← Handler.query (fun s => may_access user s contract);
         match allowed with
         | None => Handler.throw
         | Some false => Handler.answer (Error 403 "Access denied")
         | Some true =>
             if Contract.is_signed contract then
               Handler.answer (Error 400 "Contract is already signed")
             else
               _ ← Handler.write rejects
                     (fun s => with_contracts
                                 (alter (Contract.markAsSigned now)
                                        (Contract.id contract) (contracts s)) s);
               mret (Ok (Contract.beforeValidate (Contract.markAsSigned now contract)))
         end
     end)
    "Failed to sign contract".

(** The handler of [DELETE /:contractId]; removing the file does not
    touch the tables, and its errors are caught. *)
Definition delete_handler (destroy : Contract.t -> Store -> option Store)
    (contractId : UUID) : Handler.t Store (Reply string) (Reply string) :=
  found ← Handler.query (fun s => contracts s !! contractId);
  match found with
  | None => Handler.answer (Error 404 "Contract not found")
  | Some contract =>
      (* Check if contract can be deleted (only unsigned contracts) *)
      if Contract.is_signed contract then
        Handler.answer (Error 400 "Signed contracts cannot be deleted")
      else
        _ ← Handler.attempt (destroy contract);
        mret (Ok "Contract deleted successfully")
  end.

(** [router.delete('/:contractId', authenticateToken, requireAdmin,
    logUserAction('delete_contract'), handler)] *)
Definition delete (destroy : Contract.t -> Store -> option Store) (user : User.t)
    (contractId : UUID) : Store -> Store * Reply string :=
  Handler.behind [director; manager] user
    (Handler.run (delete_handler destroy contractId) "Failed to delete contract").

End Contracts.

Module Sample4.

(** A contract for order 100 that has no file yet. *)
Definition draft : Contract.t :=
  Contract.mk 500 100 "CT-2024-000001" "installation_contract" None None None false.

Definition store : Contracts.Store :=
  Contracts.mk (Sample.db assigned installation_scheduled) {[ 500%N := draft ]}.

Definition destroy_contract : Contract.t -> Contracts.Store -> option Contracts.Store :=
  fun c s =>
    Some (Contracts.with_contracts (delete (Contract.id c) (Contracts.contracts s)) s).

End Sample4.

(** ** routes/users.js, the role and the removal of a user *)

Module Users.

(** The values of the [role] ENUM as the bodies spell them. *)
Definition roles : list (string * Role) :=
  [ ("director", director); ("manager", manager); ("supervisor", supervisor);
    ("measurer", measurer); ("delivery_person", delivery_person);
    ("installer", installer); ("client", client) ].

(** [body('role').isIn([...])] *)
Definition isIn_role (v : string) : option Role :=
  snd <$> find (fun r => String.eqb (fst r) v) roles.

Definition set_role (v : Role) (a : Auth.Account) : Auth.Account :=
  let u := Auth.user a in
  {| Auth.user := User.mk (User.id u) v (User.email u) (User.email_verified u)
                          (User.phone_number u) (User.phone_verified u)
                          (User.is_active u);
     Auth.username := Auth.username a;
     Auth.password_hash := Auth.password_hash a |}.

(** A route behind [requireUserManagement]. *)
Definition behind_user_management {P} (caller : User.t)
    (route : Auth.Store -> Auth.Store * Reply P) : Auth.Store -> Auth.Store * Reply P :=
  fun s =>
    if negb (User.canManageUsers caller)
    then (s, Error 403 "User management permissions required")
    else route s.

(** [router.put('/:userId/role', authenticateToken, requireUserManagement,
    logUserAction('update_user_role'), [...], handler)]; the payload is
    the user as [toSafeJSON] gives it. *)
Definition put_role (rejects : bool) (caller : User.t) (userId : UUID)
    (role : string) : Auth.Store -> Auth.Store * Reply User.t :=
  behind_user_management caller
    (Handler.run
       (match isIn_role role with
        | None => Handler.answer Errors
        | Some role =>
            found ← Handler.query (fun s => Auth.users s !! userId);
            match found with
            | None => Handler.answer (Error 404 "User not found")
            | Some user =>
                _ ← Auth.User_update rejects user (set_role role);
                mret (Ok (Auth.user (Auth.beforeValidate (set_role role user))))
            end
        end)
       "Failed to update user role").

(** [router.delete('/:userId', authenticateToken, requireUserManagement,
    logUserAction('delete_user'), handler)]; [destroy] is the DELETE
    statement with what the schema cascades. *)
Definition delete (destroy : Auth.Account -> Auth.Store -> option Auth.Store)
    (caller : User.t) (userId : UUID) : Auth.Store -> Auth.Store * Reply string :=
  behind_user_management caller
    (Handler.run
       (if bool_decide (User.id caller = userId) then
          Handler.answer (Error 400 "Cannot delete your own account")
        else
          found ← Handler.query (fun s => Auth.users s !! userId);
          match found with
          | None => Handler.answer (Error 404 "User not found")
          | Some user =>
              _ ← Handler.attempt (destroy user);
              mret (Ok "User deleted successfully")
          end)
       "Failed to delete user").

End Users.

(** * Verification *)

(** ** Facts about the models *)

Lemma canUpdateStatus_allowed (j : Job.t) (s : JobStatus) :
  Job.canUpdateStatus j s = true <-> Spec.allowed_next (Job.status j) s.
Proof.
  unfold Job.canUpdateStatus, Job.getNextValidStatuses.
  split.
  - intros H. apply bool_decide_eq_true in H.
    destruct (Job.status j); simpl in H;
      repeat (apply elem_of_cons in H as [-> | H]); try constructor;
      by apply elem_of_nil in H.
  - intros H. apply bool_decide_eq_true.
    inversion H; simpl; set_solver.
Qed.

Lemma canUpdateStatus_refused (j : Job.t) (s : JobStatus) :
  Job.canUpdateStatus j s = false <-> ~ Spec.allowed_next (Job.status j) s.
Proof.
  rewrite <- canUpdateStatus_allowed.
  destruct (Job.canUpdateStatus j s); split; congruence.
Qed.

Lemma getNextValidStatuses_allowed (j : Job.t) (s : JobStatus) :
  s ∈ Job.getNextValidStatuses j <-> Spec.allowed_next (Job.status j) s.
Proof.
  rewrite <- canUpdateStatus_allowed. unfold Job.canUpdateStatus.
  by rewrite bool_decide_eq_true.
Qed.

Lemma isIn_job_status_literal (s : JobStatus) :
  isIn_job_status (JobStatus_literal s) = Some s.
Proof. by destruct s. Qed.




Lemma orderStatusMap_of_job_type (t : string) :
  t ∈ JobsAdmin.job_types ->
  exists s, JS.get Jobs.orderStatusMap (JS.when_truthy JS.toLowerCase t) = JS.Own s.
Proof.
  unfold JobsAdmin.job_types. intros H.
  repeat (apply elem_of_cons in H as [-> | H]; [eexists; reflexivity|]).
  by apply elem_of_nil in H.
Qed.

Lemma alter_found `{Countable K} {A} (f : A -> A) (m : gmap K A) (k : K) (x : A) :
  m !! k = Some x -> alter f k m = <[k := f x]> m.
Proof.
  intros Hk. apply map_eq. intros i. rewrite lookup_alter, lookup_insert.
  case_decide; subst; by rewrite ?Hk.
Qed.

Lemma job_write_transition (now : Date.t) (requested : JobStatus) (j : Job.t) :
  Job.write [Job.col_status; Job.col_actual_start_time; Job.col_actual_end_time]
    (Job.beforeValidate
       (Job.set
          [ Job.set_status requested;
            Job.set_actual_start_time
              (if bool_decide (requested = in_progress)
                  && negb (bool_decide (is_Some (Job.actual_start_time j)))
               then Some now else Job.actual_start_time j);
            Job.set_actual_end_time
              (if bool_decide (requested = completed) then Some now
               else Job.actual_end_time j) ] j)) j
  = job_after now requested j.
Proof.
  unfold job_after. destruct j as [? ? ? ? ? ? ? ? ? ? st en ?]. cbn.
  unfold Job.with_actual_end_time, Job.with_actual_start_time, Job.with_status. cbn.
  f_equal. destruct st; cbn; [by rewrite andb_false_r|].
  by rewrite andb_true_r.
Qed.

Lemma order_write_status (s : OrderStatus) (o : Order.t) :
  Order.write [Order.col_status]
    (Order.beforeValidate (Order.set [Order.set_status s] o)) o
  = Order.with_status s o.
Proof. reflexivity. Qed.

Lemma order_write_update (now : Date.t) (s : OrderStatus) (notes : option string)
    (o : Order.t) :
  Order.write [Order.col_status; Order.col_notes; Order.col_actual_completion_date]
    (Order.beforeValidate
       (Order.set
          [ Order.set_status s;
            Order.set_notes (JS.or_else notes (Order.notes o));
            Order.set_actual_completion_date
              (if bool_decide (s = order_completed) then Some (Date.DATEONLY now)
               else Order.actual_completion_date o) ] o)) o
  = order_after now s notes o.
Proof. reflexivity. Qed.

(** ** Facts about the database *)

Lemma load_job_found (db : Db.t) (jobId : UUID) (j : Job.t) :
  Db.jobs db !! jobId = Some j ->
  load_job db jobId
  = Some {| job_row := j; job_order := load_order db (Job.order_id j) |}.
Proof. intros H. unfold load_job. by rewrite H. Qed.

Lemma consistent_order (db : Db.t) (orderId : UUID) (o : Order.t) :
  consistent db ->
  Db.orders db !! orderId = Some o ->
  Order.id o = orderId
  /\ exists c u,
       Db.clients db !! Order.client_id o = Some c
       /\ Db.users db !! Client.user_id c = Some u
       /\ load_order db orderId
          = Some {| order_row := o;
                    order_client :=
                      Some {| client_row := c; client_user := Some u |} |}.
Proof.
  intros (_ & Ho & Hc) Hf.
  destruct (Ho _ _ Hf) as [Hid [c Hcl]].
  destruct (Hc _ _ Hcl) as [u Hu].
  split; [done|]. exists c, u. repeat split; try done.
  unfold load_order, load_client. rewrite Hf. cbn. rewrite Hcl. cbn. by rewrite Hu.
Qed.

Lemma consistent_job (db : Db.t) (jobId : UUID) (j : Job.t) :
  consistent db ->
  Db.jobs db !! jobId = Some j ->
  Job.id j = jobId /\ is_Some (Db.orders db !! Job.order_id j).
Proof. intros (Hj & _) Hf. exact (Hj _ _ Hf). Qed.

Lemma may_update_job_check (user : User.t) (j : Job.t) :
  may_update_job user j ->
  negb (User.canViewAllProjects user)
  && negb (bool_decide (Job.assigned_worker_id j = Some (User.id user))) = false.
Proof.
  intros [H | H]; unfold User.canViewAllProjects.
  - rewrite (bool_decide_eq_true_2 _ H). simpl. by rewrite andb_false_r.
  - by rewrite (bool_decide_eq_true_2 _ H).
Qed.

(** ** The job route on an accepted request *)

Ltac enter_transition Hv Hj Hp Ha :=
  unfold Jobs.put_status, try_catch, Jobs.put_status_handler;
  rewrite Hv; unfold mbind, Route_bind, Job_findByPk;
  rewrite (load_job_found _ _ _ Hj); cbn [job_row job_order];
  rewrite (may_update_job_check _ _ Hp);
  rewrite (proj2 (canUpdateStatus_allowed _ _) Ha); cbn [negb];
  unfold Job_update, JobStatusUpdate_create, deref, Notification_create,
    Order_update, mret, Route_ret, throw.

Ltac split_faults flt :=
  destruct flt as [[] [] [] []];
  cbn [job_update_rejects status_update_create_rejects
       notification_create_rejects order_update_rejects orb].

Ltac split_route db j :=
  destruct (load_order db (Job.order_id j)) as [[? [[? [?|]]|]]|];
  cbn -[Jobs.orderStatusMap Job.beforeValidate Order.beforeValidate];
  try (destruct (bool_decide (_ = completed));
       [destruct (JS.get Jobs.orderStatusMap _)|];
       cbn -[Jobs.orderStatusMap Job.beforeValidate Order.beforeValidate]).

Section Accepted.

Context (flt : Faults) (now : Date.t) (user : User.t) (jobId : UUID)
  (body : Jobs.StatusBody) (db : Db.t) (j : Job.t) (requested : JobStatus).
Hypothesis Hv : Jobs.validationResult body = Some requested.
Hypothesis Hj : Db.jobs db !! jobId = Some j.
Hypothesis Hid : Job.id j = jobId.
Hypothesis Hp : may_update_job user j.
Hypothesis Ha : Spec.allowed_next (Job.status j) requested.

Lemma transition_jobs_table :
  Db.jobs (Jobs.put_status flt now user jobId body db).1
  = if job_update_rejects flt then Db.jobs db
    else <[jobId := job_after now requested j]> (Db.jobs db).
Proof.
  enter_transition Hv Hj Hp Ha. cbn [map Job.column_of].
  rewrite Hid, (alter_found _ _ _ _ Hj), job_write_transition.
  split_faults flt; try reflexivity.
  all: split_route db j; reflexivity.
Qed.

Lemma transition_audit_table :
  Db.job_status_updates (Jobs.put_status flt now user jobId body db).1
  = if job_update_rejects flt || status_update_create_rejects flt
    then Db.job_status_updates db
    else Db.job_status_updates db ++ [audit_record user body requested j].
Proof.
  enter_transition Hv Hj Hp Ha.
  split_faults flt; try reflexivity.
  all: split_route db j; reflexivity.
Qed.

Lemma transition_response :
  (exists inst, (Jobs.put_status flt now user jobId body db).2
                = JobStatusUpdated inst (Job.status j) requested)
  \/ (exists e, (Jobs.put_status flt now user jobId body db).2 = ServerError e).
Proof.
  enter_transition Hv Hj Hp Ha.
  split_faults flt; try (right; eexists; reflexivity).
  all: split_route db j; try (right; eexists; reflexivity); left; eexists; reflexivity.
Qed.

Lemma transition_failed_write :
  job_update_rejects flt || status_update_create_rejects flt = true ->
  exists e, (Jobs.put_status flt now user jobId body db).2 = ServerError e.
Proof.
  enter_transition Hv Hj Hp Ha.
  split_faults flt; intros ?; try discriminate; eexists; reflexivity.
Qed.

Lemma transition_other_tables :
  Db.users (Jobs.put_status flt now user jobId body db).1 = Db.users db
  /\ Db.clients (Jobs.put_status flt now user jobId body db).1 = Db.clients db.
Proof.
  enter_transition Hv Hj Hp Ha.
  split_faults flt; try (split; reflexivity).
  all: split_route db j; split; reflexivity.
Qed.

Hypothesis Hc : consistent db.

Lemma transition_orders_table (o : Order.t) :
  Db.orders db !! Job.order_id j = Some o ->
  Db.orders (Jobs.put_status flt now user jobId body db).1
  = if job_update_rejects flt || status_update_create_rejects flt
       || notification_create_rejects flt || order_update_rejects flt
    then Db.orders db
    else <[Job.order_id j := order_after_job requested (Job.job_type j) o]> (Db.orders db).
Proof.
  intros Ho.
  destruct (consistent_order _ _ _ Hc Ho) as (Hoid & c & u & _ & _ & Hl).
  enter_transition Hv Hj Hp Ha. rewrite Hl.
  unfold order_after_job.
  split_faults flt; try reflexivity.
  all: cbn -[Jobs.orderStatusMap Order.beforeValidate].
  all: destruct (bool_decide (requested = completed));
    [ destruct (JS.get Jobs.orderStatusMap _) | ];
    cbn -[Order.beforeValidate]; try reflexivity.
  all: try (symmetry; by apply insert_id).
  rewrite Hoid, (alter_found _ _ _ _ Ho). reflexivity.
Qed.

Lemma transition_succeeds :
  flt = no_faults ->
  Job.job_type j ∈ JobsAdmin.job_types ->
  exists inst,
    (Jobs.put_status flt now user jobId body db).2
    = JobStatusUpdated inst (Job.status j) requested
    /\ Job.status (job_row inst) = requested.
Proof.
  intros -> Ht.
  destruct (orderStatusMap_of_job_type _ Ht) as [s Hs].
  destruct (consistent_job _ _ _ Hc Hj) as [_ [o Ho]].
  destruct (consistent_order _ _ _ Hc Ho) as (Hoid & c & u & _ & _ & Hl).
  enter_transition Hv Hj Hp Ha. rewrite Hl.
  cbn -[Jobs.orderStatusMap JS.get Order.beforeValidate Job.beforeValidate].
  destruct (bool_decide (requested = completed)).
  - change (Job.job_type (Job.beforeValidate _))
      with (JS.when_truthy JS.toLowerCase (Job.job_type j)).
    rewrite Hs. cbn -[Order.beforeValidate Job.beforeValidate].
    eexists; split; reflexivity.
  - cbn -[Order.beforeValidate Job.beforeValidate].
    eexists; split; reflexivity.
Qed.

End Accepted.

(** ** The order route for a management user *)

Ltac enter_order_update Hr Hv Hl :=
  unfold Orders.put_status, requireManagement, requireRole;
  rewrite (bool_decide_eq_true_2 _ Hr);
  unfold try_catch, Orders.put_status_handler;
  rewrite Hv; unfold mbind, Route_bind, Order_findByPk;
  rewrite Hl; cbn [order_row order_client client_user];
  unfold Order_update, deref, Notification_create, mret, Route_ret, throw.

Section Management.

Context (flt : Faults) (now : Date.t) (user : User.t) (orderId : UUID)
  (body : Orders.StatusBody) (db : Db.t) (o : Order.t) (newStatus : OrderStatus).
Hypothesis Hr : User.role user ∈ [director; manager; supervisor].
Hypothesis Hv : Orders.validationResult body = Some newStatus.
Hypothesis Ho : Db.orders db !! orderId = Some o.
Hypothesis Hc : consistent db.

Lemma order_update_orders_table :
  Db.orders (Orders.put_status flt now user orderId body db).1
  = if order_update_rejects flt then Db.orders db
    else <[orderId := order_after now newStatus (Orders.notes body) o]> (Db.orders db).
Proof.
  destruct (consistent_order _ _ _ Hc Ho) as (Hid & c & u & _ & _ & Hl).
  enter_order_update Hr Hv Hl. cbn [map Order.column_of].
  rewrite Hid, (alter_found _ _ _ _ Ho), order_write_update.
  split_faults flt; reflexivity.
Qed.

Lemma order_update_notifications (c : Client.t) (u : User.t) :
  Db.clients db !! Order.client_id o = Some c ->
  Db.users db !! Client.user_id c = Some u ->
  Db.notifications (Orders.put_status flt now user orderId body db).1
  = if order_update_rejects flt || notification_create_rejects flt
    then Db.notifications db
    else Db.notifications db
         ++ [Notification.beforeValidate
               (order_notification u (order_after now newStatus (Orders.notes body) o))].
Proof.
  intros Hcl Hu.
  destruct (consistent_order _ _ _ Hc Ho) as (Hid & c' & u' & Hcl' & Hu' & Hl).
  assert (c' = c) as -> by congruence. assert (u' = u) as -> by congruence.
  enter_order_update Hr Hv Hl.
  split_faults flt; reflexivity.
Qed.

Lemma order_update_other_tables :
  Db.users (Orders.put_status flt now user orderId body db).1 = Db.users db
  /\ Db.clients (Orders.put_status flt now user orderId body db).1 = Db.clients db
  /\ Db.jobs (Orders.put_status flt now user orderId body db).1 = Db.jobs db
  /\ Db.job_status_updates (Orders.put_status flt now user orderId body db).1
     = Db.job_status_updates db.
Proof.
  destruct (consistent_order _ _ _ Hc Ho) as (Hid & c & u & _ & _ & Hl).
  enter_order_update Hr Hv Hl.
  split_faults flt; repeat split; reflexivity.
Qed.


End Management.

(** ** Order numbers *)

Lemma fill_zeros (k : nat) :
  JS.fill k "0" "0" = Spec.zeros k /\ JS.fill k "0" "" = Spec.zeros k.
Proof.
  induction k as [|k [_ IH]]; [done|].
  cbn. by rewrite IH.
Qed.

Lemma padStart_zeros (s : string) :
  JS.padStart 6 "0" s = Spec.zeros (6 - String.length s) +:+ s.
Proof.
  unfold JS.padStart.
  destruct (6 <=? String.length s)%nat eqn:E.
  - apply Nat.leb_le in E. by replace (6 - String.length s)%nat with 0%nat by lia.
  - by rewrite (proj1 (fill_zeros _)).
Qed.

Lemma to_uint_not_Nil (n : nat) : Nat.to_uint n <> Nil.
Proof.
  intros H.
  assert (n = 0%nat) as -> by (rewrite <- (Unsigned.of_to n), H; reflexivity).
  discriminate H.
Qed.

Lemma count_created_in_none (year : Z) (orders : gmap UUID Order.t) :
  map_Forall (fun _ o => Date.getFullYear (Order.created_at o) <> year) orders ->
  Order.count_created_in year orders = 0%nat.
Proof.
  intros H. unfold Order.count_created_in.
  apply map_size_empty_iff, map_empty_filter.
  intros k o Hk. exact (H k o Hk).
Qed.

(** ** The scenario of section 8, run *)

Example scenario_responses :
  match Sample.scenario with
  | [ (_, JobStatusUpdated _ assigned en_route);
      (_, InvalidTransition en_route [arrived; cancelled]);
      (_, JobStatusUpdated _ en_route arrived);
      (_, JobStatusUpdated _ arrived in_progress);
      (_, JobStatusUpdated _ in_progress completed) ] => True
  | _ => False
  end.
Proof. vm_compute. exact I. Qed.

Example scenario_final_state :
  forall final r, last Sample.scenario = Some (final, r) ->
    map (fun u => (JobStatusUpdate.previous_status u, JobStatusUpdate.new_status u))
        (Db.job_status_updates final)
    = [ (Some assigned, en_route); (Some en_route, arrived);
        (Some arrived, in_progress); (Some in_progress, completed) ]
    /\ (fun j => (Job.status j, Job.actual_start_time j, Job.actual_end_time j))
         <$> Db.jobs final !! 1000%N
       = Some (completed, Some Sample.noon, Some Sample.later)
    /\ Order.status <$> Db.orders final !! 100%N = Some installation_completed
    /\ length (Db.notifications final) = 4%nat.
Proof.
  intros final r H. vm_compute in H. injection H as <- _.
  repeat split; reflexivity.
Qed.

(** The status route on a job whose type is [constructor]: the job, its
    audit record and the notification are written, with the text of the
    inherited function in the message; the update of the order throws and
    the request is answered 500. *)
Example inherited_job_type_run :
  (Jobs.put_status no_faults Sample.later Sample.the_installer 1000
     (Sample.job_body "completed") Sample2.inherited_type_db).2
  = ServerError "Failed to update job status"
  /\ Job.status
       <$> Db.jobs (Jobs.put_status no_faults Sample.later Sample.the_installer 1000
                      (Sample.job_body "completed") Sample2.inherited_type_db).1
             !! 1000%N
     = Some completed
  /\ length (Db.job_status_updates
               (Jobs.put_status no_faults Sample.later Sample.the_installer 1000
                  (Sample.job_body "completed") Sample2.inherited_type_db).1)
     = 1%nat
  /\ Notification.message
       <$> Db.notifications
             (Jobs.put_status no_faults Sample.later Sample.the_installer 1000
                (Sample.job_body "completed") Sample2.inherited_type_db).1
     = [ "Your function Object() { [native code] } job status has been updated to Completed" ]
  /\ Db.orders (Jobs.put_status no_faults Sample.later Sample.the_installer 1000
                  (Sample.job_body "completed") Sample2.inherited_type_db).1
     = Db.orders Sample2.inherited_type_db.
Proof. repeat split; vm_compute; reflexivity. Qed.

(** [isLength({ max: 500 })] does not count a variation selector: notes of
    500 characters and one selector pass, notes of 501 characters do
    not. *)
Example notes_length_run :
  JS.characters Sample2.notes_with_selector = 501%nat
  /\ Jobs.validationResult
       {| Jobs.status := "en_route";
          Jobs.notes := Some Sample2.notes_with_selector;
          Jobs.location_coordinates := None |}
     = Some en_route
  /\ Jobs.validationResult
       {| Jobs.status := "en_route";
          Jobs.notes := Some (JS.fill 501 "x" "");
          Jobs.location_coordinates := None |}
     = None.
Proof. repeat split; vm_compute; reflexivity. Qed.

(** The schedule of the job the manager created for 18 May 2024 at 9:30
    (the body gives the date with a time of day): the row holds the day
    and the time as [HH:MM:SS]. *)
Example created_job_schedule :
  (fun j => (Job.scheduled_date j, Job.scheduled_time j))
    <$> Db.jobs Sample2.db_with_created_job !! 2000%N
  = Some (Some (Date.mk 2024 5 18 0), Some "09:30:00")
  /\ Job.TIME "14:05" = "14:05:00".
Proof. split; vm_compute; reflexivity. Qed.

(** A caller outside the management roles does not reach the order
    handler. *)
Lemma order_status_update_requires_management (flt : Faults) (now : Date.t)
    (user : User.t) (orderId : UUID) (body : Orders.StatusBody) (db : Db.t) :
  User.role user ∉ [director; manager; supervisor] ->
  Orders.put_status flt now user orderId body db
  = (db, InsufficientPermissions [director; manager; supervisor] (User.role user)).
Proof.
  intros H. unfold Orders.put_status, requireManagement, requireRole.
  by rewrite (bool_decide_eq_false_2 _ H).
Qed.

(** ** The claims *)

(** C1.  A requested job status is accepted exactly when it is in the
    allowed-next set of the job's current status, as the table of section
    4.1 gives it; nothing is accepted from [completed] or [cancelled]; and
    the route answers "Invalid status transition" exactly for the requests
    that are not in the table. *)
Theorem job_transition_accepted_iff_allowed (j : Job.t) (requested : JobStatus) :
  (Job.canUpdateStatus j requested = true
   <-> Spec.allowed_next (Job.status j) requested)
  /\ (Spec.terminal (Job.status j) -> Job.canUpdateStatus j requested = false)
  /\ (forall flt now user jobId body db,
        Jobs.validationResult body = Some requested ->
        Db.jobs db !! jobId = Some j ->
        may_update_job user j ->
        (Jobs.put_status flt now user jobId body db).2
        = InvalidTransition (Job.status j) (Job.getNextValidStatuses j)
        <-> ~ Spec.allowed_next (Job.status j) requested).
Proof.
  split; [apply canUpdateStatus_allowed|]. split.
  - intros Ht. apply canUpdateStatus_refused. intros Ha.
    destruct Ht as [Ht | Ht]; rewrite Ht in Ha; inversion Ha.
  - intros flt now user jobId body db Hv Hj Hp. split.
    + intros Hr Ha.
      destruct (transition_response flt now user jobId body db j requested
                  Hv Hj Hp Ha) as [[inst Hi] | [e He]]; congruence.
    + intros Hn.
      unfold Jobs.put_status, try_catch, Jobs.put_status_handler.
      rewrite Hv. unfold mbind, Route_bind, Job_findByPk.
      rewrite (load_job_found _ _ _ Hj). cbn [job_row].
      rewrite (may_update_job_check _ _ Hp).
      apply canUpdateStatus_refused in Hn. by rewrite Hn.
Qed.

Lemma transition_table_witness :
  Job.canUpdateStatus (Sample.the_job completed) in_progress = false
  /\ (Jobs.put_status no_faults Sample.later Sample.the_installer 1000
        (Sample.job_body "in_progress") (Sample.db en_route pending)).2
     = InvalidTransition en_route [arrived; cancelled].
Proof.
  split.
  - apply (proj1 (proj2 (job_transition_accepted_iff_allowed
                           (Sample.the_job completed) in_progress))).
    left. reflexivity.
  - apply (proj2 (proj2 (job_transition_accepted_iff_allowed
                           (Sample.the_job en_route) in_progress))
             no_faults Sample.later Sample.the_installer 1000%N
             (Sample.job_body "in_progress") (Sample.db en_route pending)).
    + reflexivity.
    + reflexivity.
    + left. reflexivity.
    + intros H. inversion H.
Defined.

(** C2.  A request whose (current, requested) pair is not in the table
    is answered with the invalid-transition error, which carries the
    job's current status and exactly the statuses the table allows next;
    the database, and with it the job's status and [actual_start_time],
    is left as it was. *)
Theorem invalid_transition_rejected_without_effect (flt : Faults) (now : Date.t)
    (user : User.t) (jobId : UUID) (body : Jobs.StatusBody) (db : Db.t)
    (j : Job.t) (requested : JobStatus) :
  Jobs.validationResult body = Some requested ->
  Db.jobs db !! jobId = Some j ->
  may_update_job user j ->
  ~ Spec.allowed_next (Job.status j) requested ->
  Jobs.put_status flt now user jobId body db
  = (db, InvalidTransition (Job.status j) (Job.getNextValidStatuses j))
  /\ (forall s, s ∈ Job.getNextValidStatuses j <-> Spec.allowed_next (Job.status j) s)
  /\ (exists j', Db.jobs (Jobs.put_status flt now user jobId body db).1 !! jobId = Some j'
                 /\ Job.status j' = Job.status j
                 /\ Job.actual_start_time j' = Job.actual_start_time j).
Proof.
  intros Hv Hj Hp Hn.
  assert (Jobs.put_status flt now user jobId body db
          = (db, InvalidTransition (Job.status j) (Job.getNextValidStatuses j))) as Hr.
  { unfold Jobs.put_status, try_catch, Jobs.put_status_handler.
    rewrite Hv. unfold mbind, Route_bind, Job_findByPk.
    rewrite (load_job_found _ _ _ Hj). cbn [job_row].
    rewrite (may_update_job_check _ _ Hp).
    apply canUpdateStatus_refused in Hn. by rewrite Hn. }
  split; [exact Hr|]. split; [apply getNextValidStatuses_allowed|].
  exists j. rewrite Hr. by cbn.
Qed.

Lemma rejected_transition_witness :
  Jobs.put_status no_faults Sample.later Sample.the_installer 1000
    (Sample.job_body "in_progress") (Sample.db in_progress pending)
  = (Sample.db in_progress pending, InvalidTransition in_progress [completed; cancelled]).
Proof.
  apply (invalid_transition_rejected_without_effect no_faults Sample.later
           Sample.the_installer 1000%N (Sample.job_body "in_progress")
           (Sample.db in_progress pending) (Sample.the_job in_progress) in_progress).
  - reflexivity.
  - reflexivity.
  - left. reflexivity.
  - intros H. inversion H.
Defined.

(** C3.  A request whose (current, requested) pair is in the table
    succeeds when no write is rejected: the response is the updated job,
    the stored status is the requested one, and the audit log has grown by
    exactly one record, with the old status as [previous_status] and the
    requested one as [new_status].  The job is one the model admits: its
    type is one of the three that the [isIn] validator of [job_type]
    lets through. *)
Theorem valid_transition_persists_status_and_audit (now : Date.t) (user : User.t)
    (jobId : UUID) (body : Jobs.StatusBody) (db : Db.t) (j : Job.t)
    (requested : JobStatus) :
  consistent db ->
  Jobs.validationResult body = Some requested ->
  Db.jobs db !! jobId = Some j ->
  Job.job_type j ∈ JobsAdmin.job_types ->
  may_update_job user j ->
  Spec.allowed_next (Job.status j) requested ->
  (exists inst,
      (Jobs.put_status no_faults now user jobId body db).2
      = JobStatusUpdated inst (Job.status j) requested
      /\ Job.status (job_row inst) = requested)
  /\ Job.status <$> Db.jobs (Jobs.put_status no_faults now user jobId body db).1 !! jobId
     = Some requested
  /\ (exists u,
        Db.job_status_updates (Jobs.put_status no_faults now user jobId body db).1
        = Db.job_status_updates db ++ [u]
        /\ JobStatusUpdate.job_id u = jobId
        /\ JobStatusUpdate.previous_status u = Some (Job.status j)
        /\ JobStatusUpdate.new_status u = requested).
Proof.
  intros Hc Hv Hj Ht Hp Ha.
  destruct (consistent_job _ _ _ Hc Hj) as [Hid _].
  split; [|split].
  - by apply transition_succeeds.
  - rewrite (transition_jobs_table no_faults now user jobId body db j requested
               Hv Hj Hid Hp Ha).
    cbn [job_update_rejects no_faults]. by rewrite lookup_insert_eq.
  - exists (audit_record user body requested j).
    rewrite (transition_audit_table no_faults now user jobId body db j requested
               Hv Hj Hp Ha).
    by cbn.
Qed.

Lemma persisted_transition_witness :
  (exists inst,
      (Jobs.put_status no_faults Sample.later Sample.the_installer 1000
         (Sample.job_body "completed") (Sample.db in_progress installation_in_progress)).2
      = JobStatusUpdated inst in_progress completed
      /\ Job.status (job_row inst) = completed)
  /\ Job.status
       <$> Db.jobs (Jobs.put_status no_faults Sample.later Sample.the_installer 1000
                      (Sample.job_body "completed")
                      (Sample.db in_progress installation_in_progress)).1 !! 1000%N
     = Some completed.
Proof.
  destruct (valid_transition_persists_status_and_audit Sample.later
              Sample.the_installer 1000%N (Sample.job_body "completed")
              (Sample.db in_progress installation_in_progress)
              (Sample.the_job in_progress) completed)
    as (Hreply & Hstored & _).
  - apply (bool_decide_unpack _). vm_compute. exact I.
  - reflexivity.
  - reflexivity.
  - apply (bool_decide_unpack _). vm_compute. exact I.
  - left. reflexivity.
  - constructor.
  - split; [exact Hreply | exact Hstored].
Defined.

(** C4, as the specification states it, fails: the status write and the
    audit insert are two awaited statements without a transaction.  Here
    the audit insert is rejected after the job was written: the request
    answers 500, the job is [en_route] in the database and the audit log is
    still empty. *)
Lemma status_write_survives_failed_audit_insert :
  (Jobs.put_status Sample.audit_insert_fails Sample.later Sample.the_installer 1000
     (Sample.job_body "en_route") (Sample.db assigned pending)).2
  = ServerError "Failed to update job status"
  /\ Job.status
       <$> Db.jobs (Jobs.put_status Sample.audit_insert_fails Sample.later
                      Sample.the_installer 1000 (Sample.job_body "en_route")
                      (Sample.db assigned pending)).1 !! 1000%N
     = Some en_route
  /\ Db.job_status_updates
       (Jobs.put_status Sample.audit_insert_fails Sample.later Sample.the_installer
          1000 (Sample.job_body "en_route") (Sample.db assigned pending)).1
     = []
  /\ ~ Spec.status_and_audit_atomic 1000 en_route (Sample.db assigned pending)
         (Jobs.put_status Sample.audit_insert_fails Sample.later Sample.the_installer
            1000 (Sample.job_body "en_route") (Sample.db assigned pending)).1.
Proof.
  split; [reflexivity|]. split; [reflexivity|]. split; [reflexivity|].
  intros [[_ (u & Hu & _)] | [Hjobs _]].
  - vm_compute in Hu. discriminate Hu.
  - apply (f_equal (fun m => Job.status <$> m !! 1000%N)) in Hjobs.
    vm_compute in Hjobs. discriminate Hjobs.
Qed.

(** C4, amended.  The two writes happen in sequence: when the status
    write is rejected nothing is persisted; when it succeeds the new row
    stays in the database whatever follows; the audit record is appended
    exactly when the status write and the audit insert both succeed, and
    when the insert is rejected the request answers 500 with the status
    change persisted and no audit record for it. *)
Theorem status_write_then_audit_insert (flt : Faults) (now : Date.t) (user : User.t)
    (jobId : UUID) (body : Jobs.StatusBody) (db : Db.t) (j : Job.t)
    (requested : JobStatus) :
  consistent db ->
  Jobs.validationResult body = Some requested ->
  Db.jobs db !! jobId = Some j ->
  may_update_job user j ->
  Spec.allowed_next (Job.status j) requested ->
  (job_update_rejects flt = true ->
     Db.jobs (Jobs.put_status flt now user jobId body db).1 = Db.jobs db
     /\ Db.job_status_updates (Jobs.put_status flt now user jobId body db).1
        = Db.job_status_updates db
     /\ exists e, (Jobs.put_status flt now user jobId body db).2 = ServerError e)
  /\ (job_update_rejects flt = false -> status_update_create_rejects flt = true ->
        Db.jobs (Jobs.put_status flt now user jobId body db).1 !! jobId
        = Some (job_after now requested j)
        /\ Db.job_status_updates (Jobs.put_status flt now user jobId body db).1
           = Db.job_status_updates db
        /\ exists e, (Jobs.put_status flt now user jobId body db).2 = ServerError e)
  /\ (job_update_rejects flt = false -> status_update_create_rejects flt = false ->
        Db.jobs (Jobs.put_status flt now user jobId body db).1 !! jobId
        = Some (job_after now requested j)
        /\ Db.job_status_updates (Jobs.put_status flt now user jobId body db).1
           = Db.job_status_updates db ++ [audit_record user body requested j]).
Proof.
  intros Hc Hv Hj Hp Ha.
  destruct (consistent_job _ _ _ Hc Hj) as [Hid _].
  pose proof (transition_jobs_table flt now user jobId body db j requested
                Hv Hj Hid Hp Ha) as Hjobs.
  pose proof (transition_audit_table flt now user jobId body db j requested
                Hv Hj Hp Ha) as Haudit.
  pose proof (transition_failed_write flt now user jobId body db j requested
                Hv Hj Hp Ha) as Hfail.
  split; [|split].
  - intros H1. rewrite H1 in *. auto.
  - intros H1 H2. rewrite H1, H2 in *. rewrite Hjobs, lookup_insert_eq. auto.
  - intros H1 H2. rewrite H1, H2 in *. rewrite Hjobs, lookup_insert_eq. auto.
Qed.

Lemma failed_audit_insert_witness :
  Db.jobs (Jobs.put_status Sample.audit_insert_fails Sample.later Sample.the_installer
             1000 (Sample.job_body "arrived") (Sample.db en_route pending)).1 !! 1000%N
  = Some (job_after Sample.later arrived (Sample.the_job en_route))
  /\ Db.job_status_updates
       (Jobs.put_status Sample.audit_insert_fails Sample.later Sample.the_installer
          1000 (Sample.job_body "arrived") (Sample.db en_route pending)).1
     = []
  /\ exists e,
       (Jobs.put_status Sample.audit_insert_fails Sample.later Sample.the_installer
          1000 (Sample.job_body "arrived") (Sample.db en_route pending)).2
       = ServerError e.
Proof.
  apply (status_write_then_audit_insert Sample.audit_insert_fails Sample.later
           Sample.the_installer 1000%N (Sample.job_body "arrived")
           (Sample.db en_route pending) (Sample.the_job en_route) arrived).
  - apply (bool_decide_unpack _). vm_compute. exact I.
  - reflexivity.
  - reflexivity.
  - left. reflexivity.
  - constructor.
  - reflexivity.
  - reflexivity.
Defined.

(** C5.  When the status write of a transition goes through, the stored
    job has the requested status; going to [in_progress] it gets
    [actual_start_time = now] if it had none and keeps the one it had
    otherwise; going to [completed] it gets [actual_end_time = now]; in
    every other transition the two timestamps stay as they were. *)
Theorem transition_stamps_start_and_end_time (flt : Faults) (now : Date.t)
    (user : User.t) (jobId : UUID) (body : Jobs.StatusBody) (db : Db.t)
    (j : Job.t) (requested : JobStatus) :
  consistent db ->
  Jobs.validationResult body = Some requested ->
  Db.jobs db !! jobId = Some j ->
  may_update_job user j ->
  Spec.allowed_next (Job.status j) requested ->
  job_update_rejects flt = false ->
  exists j',
    Db.jobs (Jobs.put_status flt now user jobId body db).1 !! jobId = Some j'
    /\ Job.status j' = requested
    /\ (requested = in_progress ->
          Job.actual_start_time j'
          = match Job.actual_start_time j with
            | Some t => Some t
            | None => Some now
            end)
    /\ (requested <> in_progress -> Job.actual_start_time j' = Job.actual_start_time j)
    /\ (requested = completed -> Job.actual_end_time j' = Some now)
    /\ (requested <> completed -> Job.actual_end_time j' = Job.actual_end_time j).
Proof.
  intros Hc Hv Hj Hp Ha Hf.
  destruct (consistent_job _ _ _ Hc Hj) as [Hid _].
  exists (job_after now requested j).
  rewrite (transition_jobs_table flt now user jobId body db j requested
             Hv Hj Hid Hp Ha), Hf, lookup_insert_eq.
  split; [done|]. split; [done|].
  unfold job_after; cbn. repeat split.
  - intros ->. by destruct (Job.actual_start_time j).
  - intros Hn. rewrite (bool_decide_eq_false_2 _ Hn).
    by destruct (Job.actual_start_time j).
  - intros ->. done.
  - intros Hn. by rewrite (bool_decide_eq_false_2 _ Hn).
Qed.

Lemma stamped_times_witness :
  exists j',
    Db.jobs (Jobs.put_status no_faults Sample.later Sample.the_installer 1000
               (Sample.job_body "in_progress") (Sample.db arrived pending)).1 !! 1000%N
    = Some j'
    /\ Job.status j' = in_progress
    /\ Job.actual_start_time j' = Some Sample.later.
Proof.
  destruct (transition_stamps_start_and_end_time no_faults Sample.later
              Sample.the_installer 1000%N (Sample.job_body "in_progress")
              (Sample.db arrived pending) (Sample.the_job arrived) in_progress)
    as (j' & Hj' & Hs & Hst & _).
  - apply (bool_decide_unpack _). vm_compute. exact I.
  - reflexivity.
  - reflexivity.
  - left. reflexivity.
  - constructor.
  - reflexivity.
  - exists j'. split; [exact Hj'|]. split; [exact Hs|]. apply Hst. reflexivity.
Defined.





Ltac cases_below i n :=
  match n with
  | O => exfalso; lia
  | S ?m => destruct i as [|i]; [ | cases_below i m ]
  end.

(** C8.  The progress percentage is between 0 and 100 for every order,
    0 for a cancelled order, 100 for a completed one, and does not
    decrease along the happy path from [pending] to [completed]. *)
Theorem progress_percentage_bounds_and_monotone :
  (forall o : Order.t, 0 <= Order.getProgressPercentage o <= 100)
  /\ (forall o : Order.t,
        Order.status o = order_cancelled -> Order.getProgressPercentage o = 0)
  /\ (forall o : Order.t,
        Order.status o = order_completed -> Order.getProgressPercentage o = 100)
  /\ (forall (i k : nat) (o1 o2 : Order.t),
        (i <= k)%nat ->
        Spec.happy_path !! i = Some (Order.status o1) ->
        Spec.happy_path !! k = Some (Order.status o2) ->
        Order.getProgressPercentage o1 <= Order.getProgressPercentage o2).
Proof.
  unfold Order.getProgressPercentage.
  split; [|split; [|split]].
  - intros o. destruct (Order.status o); cbn; lia.
  - intros o ->. reflexivity.
  - intros o ->. reflexivity.
  - intros i k o1 o2 Hik H1 H2.
    assert (i < 14)%nat as Hi by (apply lookup_lt_Some in H1; exact H1).
    assert (k < 14)%nat as Hk by (apply lookup_lt_Some in H2; exact H2).
    revert H1 H2. generalize (Order.status o1) (Order.status o2). intros s1 s2 H1 H2.
    cases_below i 14%nat; cases_below k 14%nat;
      try (exfalso; lia);
      injection H1 as <-; injection H2 as <-; cbn; lia.
Qed.

Lemma progress_percentage_witness :
  Order.getProgressPercentage (Sample.the_order order_cancelled) = 0
  /\ Order.getProgressPercentage (Sample.the_order in_production)
     <= Order.getProgressPercentage (Sample.the_order delivered).
Proof.
  split.
  - apply (proj1 (proj2 progress_percentage_bounds_and_monotone)). reflexivity.
  - apply (proj2 (proj2 (proj2 progress_percentage_bounds_and_monotone)) 5%nat 9%nat).
    + lia.
    + reflexivity.
    + reflexivity.
Defined.

(** The number the [beforeCreate] hook of the model computes when it
    runs on an instance whose order number is missing or empty:
    [WM-<year>-<sequence>], the year being the current year in decimal and
    the sequence the decimal numeral of the number of stored orders created
    in that year plus one, with zeros in front up to six characters; when
    no stored order was created in the current year the sequence is
    [000001]. *)
Lemma generated_order_number_format (orders : gmap UUID Order.t) (now : Date.t)
    (order : Order.t) :
  JS.truthy (Order.order_number order) = false ->
  let year := Date.getFullYear now in
  let count := Order.count_created_in year orders in
  let digits := JS.String_of_nat (count + 1) in
  Order.order_number (Order.beforeCreate orders now order)
  = Some ("WM-" +:+ JS.String_of_Z year +:+ "-"
          +:+ Spec.zeros (6 - String.length digits) +:+ digits)
  /\ (Nat.of_uint <$> NilZero.uint_of_string digits) = Some (count + 1)%nat
  /\ (map_Forall (fun _ o => Date.getFullYear (Order.created_at o) <> year) orders ->
      Order.order_number (Order.beforeCreate orders now order)
      = Some ("WM-" +:+ JS.String_of_Z year +:+ "-000001")).
Proof.
  intros Hn year count digits.
  unfold Order.beforeCreate. rewrite Hn. cbn [negb Order.order_number Order.with_order_number].
  split; [|split].
  - fold year. fold count. fold digits. by rewrite padStart_zeros.
  - unfold digits, JS.String_of_nat.
    rewrite NilZero.usu by apply to_uint_not_Nil.
    cbn. by rewrite Unsigned.of_to.
  - intros Hnone. fold year. rewrite (count_created_in_none _ _ Hnone). reflexivity.
Qed.

Example hook_numbers_second_order_of_the_year :
  Order.order_number
    (Order.beforeCreate (Db.orders (Sample.db assigned pending)) Sample.later
       (Order.with_order_number None (Sample.the_order pending)))
  = Some "WM-2024-000002".
Proof.
  apply (generated_order_number_format (Db.orders (Sample.db assigned pending))
           Sample.later (Order.with_order_number None (Sample.the_order pending))).
  reflexivity.
Qed.

(** [Order.create] on an instance without an order number: the
    validation of the instance refuses it before [beforeCreate] runs. *)
Lemma Order_create_needs_number {R} (rejects : bool) (now : Date.t)
    (instance : Order.t) (db : Db.t) :
  Order.order_number instance = None ->
  OrdersCreate.Order_create (R:=R) rejects now instance db = (db, Handler.Throw).
Proof.
  intros Hnone. unfold OrdersCreate.Order_create, Order.validate.
  cbn [Order.beforeValidate Order.order_number Order.with_currency Order.with_notes].
  rewrite Hnone.
  rewrite (bool_decide_eq_false_2 (is_Some None) (is_Some_None (A:=string))).
  reflexivity.
Qed.

(** C9.  The route that creates orders passes no order number to
    [Order.create], and [Order.create] validates the instance, whose
    [order_number] must not be null, before the [beforeCreate] hook could
    fill the number in.  So no request to create an order stores one:
    whatever the body and whatever follows [Order.create] in the handler,
    the database is left as it was and the answer is not a success; a
    request of a director or manager that passes the validation chain and
    names an existing client (and, if it names a manager, an existing
    one) is answered 500. *)
Theorem order_create_without_number_is_rejected {P : Type} (rejects : bool)
    (newId : UUID) (now : Date.t) (user : User.t) (body : OrdersCreate.Body)
    (rest : Order.t -> Handler.t Db.t (Reply P) (Reply P)) (db : Db.t) :
  (OrdersCreate.create rejects newId now user body rest db).1 = db
  /\ (forall payload,
        (OrdersCreate.create rejects newId now user body rest db).2 <> Ok payload)
  /\ (User.role user ∈ [director; manager] ->
      OrdersCreate.valid body = true ->
      is_Some (Db.clients db !! OrdersCreate.client_id body) ->
      match OrdersCreate.assigned_manager_id body with
      | Some managerId => is_Some (OrdersCreate.find_manager db managerId)
      | None => True
      end ->
      (OrdersCreate.create rejects newId now user body rest db).2
      = Error 500 "Failed to create order").
Proof.
  unfold OrdersCreate.create, Handler.behind.
  destruct (decide (User.role user ∈ [director; manager])) as [Hr|Hr].
  2: { rewrite (bool_decide_eq_false_2 _ Hr). repeat split; try done. }
  rewrite (bool_decide_eq_true_2 _ Hr).
  unfold Handler.run, OrdersCreate.create_handler.
  destruct (OrdersCreate.valid body); cbn [negb].
  2: { repeat split; try done. }
  unfold mbind, Handler.bind, Handler.query, Handler.answer, mret, Handler.ret.
  destruct (Db.clients db !! OrdersCreate.client_id body) as [c|].
  2: { by repeat split. }
  destruct (OrdersCreate.assigned_manager_id body) as [managerId|].
  - destruct (OrdersCreate.find_manager db managerId) as [m|].
    + rewrite Order_create_needs_number by reflexivity. by repeat split.
    + by repeat split.
  - rewrite Order_create_needs_number by reflexivity. by repeat split.
Qed.

Lemma order_create_witness :
  OrdersCreate.create false 101 Sample.later Sample.the_manager Sample2.order_body
    (fun order => mret (Ok order)) (Sample.db assigned pending)
  = (Sample.db assigned pending, Error 500 "Failed to create order").
Proof.
  destruct (order_create_without_number_is_rejected false 101%N Sample.later
              Sample.the_manager Sample2.order_body
              (fun order => mret (Ok order)) (Sample.db assigned pending))
    as (Hdb & _ & Hreply).
  apply injective_projections; [exact Hdb|].
  apply Hreply.
  - apply (bool_decide_unpack _). vm_compute. exact I.
  - reflexivity.
  - apply (bool_decide_unpack _). vm_compute. exact I.
  - apply (bool_decide_unpack _). vm_compute. exact I.
Defined.

(** C10, as the specification states it, fails for the notes.  The
    route writes the notes column on every request, with the stored notes
    when the request brings none, and the model's [beforeValidate] hook
    trims what is written: stored notes with white space round them come
    back without it. *)
Lemma unsupplied_notes_are_rewritten_trimmed :
  Orders.notes (Sample.order_body "in_production") = None
  /\ Order.notes <$> Db.orders Sample2.padded_db !! 100%N
     = Some (Some "  call before delivery ")
  /\ Order.notes
       <$> Db.orders (Orders.put_status no_faults Sample.later Sample.the_manager 100
                        (Sample.order_body "in_production") Sample2.padded_db).1
             !! 100%N
     = Some (Some "call before delivery")
  /\ Order.notes
       <$> Db.orders (Orders.put_status no_faults Sample.later Sample.the_manager 100
                        (Sample.order_body "in_production") Sample2.padded_db).1
             !! 100%N
     <> Order.notes <$> Db.orders Sample2.padded_db !! 100%N.
Proof.
  split; [reflexivity|]. split; [reflexivity|]. split; [reflexivity|].
  vm_compute. discriminate.
Qed.

(** C10, amended.  The direct status update touches one order row and,
    in it, only [status], [notes] and [actual_completion_date]: every
    other column of the row, every other order, and the users, clients,
    jobs and audit records are as before.  [actual_completion_date] is
    kept when the new status is not [completed].  When the request brings
    no notes, the stored notes are written back as the model's hook leaves
    them: trimmed when they are a string that is not empty, as they were
    otherwise; so notes that are null, empty or already trimmed are
    kept. *)
Theorem order_status_update_frame (flt : Faults) (now : Date.t) (user : User.t)
    (orderId : UUID) (body : Orders.StatusBody) (db : Db.t) (o : Order.t)
    (newStatus : OrderStatus) :
  consistent db ->
  User.role user ∈ [director; manager; supervisor] ->
  Orders.validationResult body = Some newStatus ->
  Db.orders db !! orderId = Some o ->
  (exists o',
      Db.orders (Orders.put_status flt now user orderId body db).1 !! orderId = Some o'
      /\ Order.id o' = Order.id o
      /\ Order.order_number o' = Order.order_number o
      /\ Order.client_id o' = Order.client_id o
      /\ Order.assigned_manager_id o' = Order.assigned_manager_id o
      /\ Order.total_amount o' = Order.total_amount o
      /\ Order.currency o' = Order.currency o
      /\ Order.order_date o' = Order.order_date o
      /\ Order.estimated_completion_date o' = Order.estimated_completion_date o
      /\ Order.crm_order_id o' = Order.crm_order_id o
      /\ Order.created_at o' = Order.created_at o
      /\ (newStatus <> order_completed ->
          Order.actual_completion_date o' = Order.actual_completion_date o)
      /\ (JS.truthy (Orders.notes body) = false ->
          Order.notes o'
          = if order_update_rejects flt then Order.notes o
            else match Order.notes o with
                 | Some stored =>
                     if String.eqb stored "" then Some stored
                     else Some (JS.trim stored)
                 | None => None
                 end)
      /\ (JS.truthy (Orders.notes body) = false ->
          (forall stored, Order.notes o = Some stored -> JS.trim stored = stored) ->
          Order.notes o' = Order.notes o))
  /\ (forall k, k <> orderId ->
        Db.orders (Orders.put_status flt now user orderId body db).1 !! k
        = Db.orders db !! k)
  /\ Db.users (Orders.put_status flt now user orderId body db).1 = Db.users db
  /\ Db.clients (Orders.put_status flt now user orderId body db).1 = Db.clients db
  /\ Db.jobs (Orders.put_status flt now user orderId body db).1 = Db.jobs db
  /\ Db.job_status_updates (Orders.put_status flt now user orderId body db).1
     = Db.job_status_updates db.
Proof.
  intros Hc Hr Hv Ho.
  pose proof (order_update_orders_table flt now user orderId body db o newStatus
                Hr Hv Ho Hc) as Ht.
  split; [|split].
  - rewrite Ht. destruct (order_update_rejects flt).
    + exists o. rewrite Ho. repeat split; done.
    + exists (order_after now newStatus (Orders.notes body) o).
      rewrite lookup_insert_eq. unfold order_after. cbn.
      repeat split; try done.
      * intros Hne. by rewrite (bool_decide_eq_false_2 _ Hne).
      * intros Hf. unfold JS.or_else. rewrite Hf. unfold JS.normalise.
        destruct (Order.notes o) as [stored|]; [|reflexivity].
        by destruct (String.eqb stored "").
      * intros Hf Htrimmed. unfold JS.or_else. rewrite Hf. unfold JS.normalise.
        destruct (Order.notes o) as [stored|]; [|reflexivity].
        destruct (String.eqb stored ""); cbn [negb]; [reflexivity|].
        by rewrite (Htrimmed stored eq_refl).
  - intros k Hk. rewrite Ht. destruct (order_update_rejects flt); [done|].
    by rewrite lookup_insert_ne.
  - apply (order_update_other_tables flt now user orderId body db o newStatus
             Hr Hv Ho Hc).
Qed.

Lemma order_update_frame_witness :
  exists o',
    Db.orders (Orders.put_status no_faults Sample.later Sample.the_manager 100
                 (Sample.order_body "in_production") Sample2.padded_db).1 !! 100%N
    = Some o'
    /\ Order.order_number o' = Some "WM-2024-000001"
    /\ Order.actual_completion_date o' = None
    /\ Order.notes o' = Some "call before delivery".
Proof.
  destruct (proj1 (order_status_update_frame no_faults Sample.later Sample.the_manager
                     100%N (Sample.order_body "in_production")
                     Sample2.padded_db Sample2.padded_order in_production
                     ltac:(apply (bool_decide_unpack _); vm_compute; exact I)
                     ltac:(apply (bool_decide_unpack _); vm_compute; exact I)
                     ltac:(reflexivity) ltac:(reflexivity)))
    as (o' & Ho' & _ & Hnum & _ & _ & _ & _ & _ & _ & _ & _ & Hacd & Hnotes & _).
  exists o'. split; [exact Ho'|]. split; [exact Hnum|]. split.
  - apply Hacd. discriminate.
  - rewrite Hnotes by reflexivity. vm_compute. reflexivity.
Defined.

(** * Further properties *)

(** ** The job state machine *)

Lemma accepted_step_advances (j : Job.t) (s : JobStatus) :
  Job.canUpdateStatus j s = true -> (stage (Job.status j) < stage s)%nat.
Proof.
  intros H. apply canUpdateStatus_allowed in H.
  destruct (Job.status j), s; cbn; try lia; inversion H.
Qed.

Lemma accepted_path_advances (path : list JobStatus) (j : Job.t) :
  accepted_path j path = true ->
  Forall (fun s => (stage (Job.status j) < stage s)%nat) path
  /\ (length path + stage (Job.status j) <= 4)%nat
  /\ NoDup (Job.status j :: path).
Proof.
  revert j. induction path as [|s rest IH]; intros j H.
  - split; [constructor|]. split; [destruct (Job.status j); cbn; lia|].
    apply NoDup_singleton.
  - cbn in H. apply andb_true_iff in H as [Hs Hr].
    pose proof (accepted_step_advances j s Hs) as Hlt.
    destruct (IH _ Hr) as (Hall & Hlen & Hnd). cbn [Job.status Job.with_status] in *.
    assert (Forall (fun s' => (stage (Job.status j) < stage s')%nat) (s :: rest))
      as Hall'.
    { constructor; [exact Hlt|].
      eapply Forall_impl; [exact Hall|]. cbn. intros; lia. }
    split; [exact Hall'|]. split; [cbn; lia|].
    apply NoDup_cons. split; [|exact Hnd].
    intros Hin. rewrite Forall_forall in Hall'.
    specialize (Hall' _ Hin). lia.
Qed.

(** X1.  Accepted status reports never lead back: along any sequence of
    reports that [canUpdateStatus] accepts one after the other, the
    statuses, the starting one included, are pairwise different, and there
    are at most four reports. *)
Theorem accepted_reports_never_revisit (j : Job.t) (path : list JobStatus) :
  accepted_path j path = true ->
  NoDup (Job.status j :: path) /\ (length path <= 4)%nat.
Proof.
  intros H. destruct (accepted_path_advances _ _ H) as (_ & Hlen & Hnd).
  split; [exact Hnd | lia].
Qed.

Lemma accepted_reports_witness :
  NoDup (assigned :: [en_route; arrived; in_progress; completed])
  /\ (length [en_route; arrived; in_progress; completed] <= 4)%nat.
Proof.
  apply (accepted_reports_never_revisit (Sample.the_job assigned)
           [en_route; arrived; in_progress; completed]).
  reflexivity.
Defined.

(** X2.  A job is active exactly when it can still be cancelled, and
    exactly when it has a valid next status at all; the jobs that are not
    active are the completed and the cancelled ones. *)
Theorem active_iff_cancellable (j : Job.t) :
  Job.isActive j = Job.canUpdateStatus j cancelled
  /\ (Job.isActive j = true <-> Job.getNextValidStatuses j <> [])
  /\ (Job.isActive j = false
      <-> Job.status j = completed \/ Job.status j = cancelled).
Proof.
  unfold Job.isActive, Job.canUpdateStatus, Job.getNextValidStatuses.
  destruct (Job.status j); cbn; (split; [reflexivity|]); split; split; intros H;
    try discriminate; try reflexivity; try congruence;
    try (left; reflexivity); try (right; reflexivity);
    destruct H as [H | H]; discriminate.
Qed.

Lemma active_iff_cancellable_witness :
  Job.isActive (Sample.the_job completed) = false.
Proof.
  apply (proj2 (proj2 (active_iff_cancellable (Sample.the_job completed)))).
  left. reflexivity.
Defined.

(** X3.  [canComplete] holds exactly when a report of [completed] would
    be accepted now, and [canStart] exactly when [in_progress] is still
    ahead: some sequence of accepted reports ends in [in_progress]. *)
Theorem canStart_canComplete_meaning (j : Job.t) :
  Job.canComplete j = Job.canUpdateStatus j completed
  /\ (Job.canStart j = true
      <-> exists path, accepted_path j (path ++ [in_progress]) = true).
Proof.
  split.
  - unfold Job.canComplete, Job.canUpdateStatus, Job.getNextValidStatuses.
    by destruct (Job.status j).
  - split.
    + unfold Job.canStart. intros H. apply bool_decide_eq_true in H.
      destruct j as [? ? ? ? st ? ? ? ? ? ? ? ?]. cbn in H.
      destruct st;
        try (exfalso; repeat (apply elem_of_cons in H as [H | H]; [discriminate|]);
             by apply elem_of_nil in H).
      * by exists [en_route; arrived].
      * by exists [arrived].
      * by exists [].
    + intros [path H].
      destruct (accepted_path_advances _ _ H) as (Hall & _ & _).
      rewrite Forall_forall in Hall.
      assert (in_progress ∈ path ++ [in_progress]) as Hin
        by (apply elem_of_app; right; apply list_elem_of_here).
      specialize (Hall _ Hin). unfold Job.canStart.
      apply bool_decide_eq_true.
      destruct (Job.status j); cbn in Hall; try lia;
        [apply list_elem_of_here | apply list_elem_of_further, list_elem_of_here
        | do 2 apply list_elem_of_further; apply list_elem_of_here].
Qed.

Lemma canStart_canComplete_witness :
  Job.canStart (Sample.the_job en_route) = true.
Proof.
  apply (proj2 (canStart_canComplete_meaning (Sample.the_job en_route))).
  exists [arrived]. reflexivity.
Defined.

(** ** The job status route, every request *)

Lemma put_status_refused_run (flt : Faults) (now : Date.t) (user : User.t)
    (jobId : UUID) (body : Jobs.StatusBody) (db : Db.t) (j : Job.t)
    (requested : JobStatus) :
  Jobs.validationResult body = Some requested ->
  Db.jobs db !! jobId = Some j ->
  may_update_job user j ->
  ~ Spec.allowed_next (Job.status j) requested ->
  Jobs.put_status flt now user jobId body db
  = (db, InvalidTransition (Job.status j) (Job.getNextValidStatuses j)).
Proof.
  intros Hv Hj Hp Hn.
  unfold Jobs.put_status, try_catch, Jobs.put_status_handler.
  rewrite Hv. unfold mbind, Route_bind, Job_findByPk.
  rewrite (load_job_found _ _ _ Hj). cbn [job_row].
  rewrite (may_update_job_check _ _ Hp).
  apply canUpdateStatus_refused in Hn. by rewrite Hn.
Qed.

Lemma may_update_job_refused (user : User.t) (j : Job.t) :
  ~ may_update_job user j ->
  negb (User.canViewAllProjects user)
  && negb (bool_decide (Job.assigned_worker_id j = Some (User.id user))) = true.
Proof.
  intros H. unfold may_update_job in H. unfold User.canViewAllProjects.
  rewrite (bool_decide_eq_false_2 (User.role user ∈ _))
    by (intros ?; apply H; by right).
  rewrite (bool_decide_eq_false_2 (Job.assigned_worker_id j = _))
    by (intros ?; apply H; by left).
  done.
Qed.

Lemma may_update_job_dec (user : User.t) (j : Job.t) :
  may_update_job user j \/ ~ may_update_job user j.
Proof.
  unfold may_update_job.
  destruct (decide (Job.assigned_worker_id j = Some (User.id user))) as [?|H1];
    [by left; left|].
  destruct (decide (User.role user ∈ [director; manager; supervisor])) as [?|H2];
    [by left; right|].
  right. by intros [?|?].
Qed.

(** The requests the handler turns away before its first write. *)
Lemma put_status_turned_away (flt : Faults) (now : Date.t) (user : User.t)
    (jobId : UUID) (body : Jobs.StatusBody) (db : Db.t) :
  (Jobs.validationResult body = None ->
   Jobs.put_status flt now user jobId body db = (db, ValidationErrors))
  /\ (forall requested,
        Jobs.validationResult body = Some requested ->
        Db.jobs db !! jobId = None ->
        Jobs.put_status flt now user jobId body db = (db, NotFound "Job not found"))
  /\ (forall requested j,
        Jobs.validationResult body = Some requested ->
        Db.jobs db !! jobId = Some j ->
        ~ may_update_job user j ->
        Jobs.put_status flt now user jobId body db = (db, AccessDenied)).
Proof.
  unfold Jobs.put_status, try_catch, Jobs.put_status_handler.
  split; [|split].
  - by intros ->.
  - intros requested -> Hj. unfold mbind, Route_bind, Job_findByPk, load_job.
    by rewrite Hj.
  - intros requested j -> Hj Hp. unfold mbind, Route_bind, Job_findByPk.
    rewrite (load_job_found _ _ _ Hj). cbn [job_row].
    by rewrite (may_update_job_refused _ _ Hp).
Qed.

(** Every request is either turned away with the database untouched, or
    it is a permitted, valid report on an existing job. *)
Lemma put_status_untouched_or_accepted (flt : Faults) (now : Date.t) (user : User.t)
    (jobId : UUID) (body : Jobs.StatusBody) (db : Db.t) :
  (Jobs.put_status flt now user jobId body db).1 = db
  \/ exists j requested,
       Jobs.validationResult body = Some requested
       /\ Db.jobs db !! jobId = Some j
       /\ may_update_job user j
       /\ Spec.allowed_next (Job.status j) requested.
Proof.
  destruct (put_status_turned_away flt now user jobId body db) as (H1 & H2 & H3).
  destruct (Jobs.validationResult body) as [requested|] eqn:Hv;
    [|left; by rewrite H1].
  destruct (Db.jobs db !! jobId) as [j|] eqn:Hj;
    [|left; by rewrite (H2 requested)].
  destruct (may_update_job_dec user j) as [Hp|Hp];
    [|left; by rewrite (H3 requested j)].
  destruct (Job.canUpdateStatus j requested) eqn:Hc.
  - right. exists j, requested. repeat split; try done.
    by apply canUpdateStatus_allowed.
  - left. apply canUpdateStatus_refused in Hc.
    by rewrite (put_status_refused_run flt now user jobId body db j requested).
Qed.

Section AcceptedMore.

Context (flt : Faults) (now : Date.t) (user : User.t) (jobId : UUID)
  (body : Jobs.StatusBody) (db : Db.t) (j : Job.t) (requested : JobStatus).
Hypothesis Hv : Jobs.validationResult body = Some requested.
Hypothesis Hj : Db.jobs db !! jobId = Some j.
Hypothesis Hp : may_update_job user j.
Hypothesis Ha : Spec.allowed_next (Job.status j) requested.
Hypothesis Hc : consistent db.

Lemma transition_notifications_table :
  exists l, Db.notifications (Jobs.put_status flt now user jobId body db).1
            = Db.notifications db ++ l
            /\ (length l <= 1)%nat.
Proof.
  destruct (consistent_job _ _ _ Hc Hj) as [_ [o Ho]].
  destruct (consistent_order _ _ _ Hc Ho) as (Hoid & c & u & _ & _ & Hl).
  enter_transition Hv Hj Hp Ha. rewrite Hl.
  split_faults flt; try (exists []; split; [by rewrite app_nil_r | cbn; lia]).
  all: cbn -[Jobs.orderStatusMap Order.beforeValidate Job.beforeValidate].
  all: destruct (bool_decide (requested = completed));
    [ destruct (JS.get Jobs.orderStatusMap _) | ];
    cbn -[Order.beforeValidate Job.beforeValidate Notification.beforeValidate];
    eexists; (split; [reflexivity | cbn; lia]).
Qed.

End AcceptedMore.

(** X4.  Whatever the request and whichever writes fail, the route
    changes no user and no client, no job other than the addressed one, no
    order other than the order of that job, and it only ever adds to the
    audit log and to the notifications: what was stored stays, in order,
    and at most one row is added to each. *)
Theorem put_status_touches_one_job_and_appends (flt : Faults) (now : Date.t)
    (user : User.t) (jobId : UUID) (body : Jobs.StatusBody) (db : Db.t) :
  consistent db ->
  Db.users (Jobs.put_status flt now user jobId body db).1 = Db.users db
  /\ Db.clients (Jobs.put_status flt now user jobId body db).1 = Db.clients db
  /\ (forall k, k <> jobId ->
        Db.jobs (Jobs.put_status flt now user jobId body db).1 !! k = Db.jobs db !! k)
  /\ (forall k, Job.order_id <$> Db.jobs db !! jobId <> Some k ->
        Db.orders (Jobs.put_status flt now user jobId body db).1 !! k
        = Db.orders db !! k)
  /\ (exists l, Db.job_status_updates (Jobs.put_status flt now user jobId body db).1
                = Db.job_status_updates db ++ l /\ (length l <= 1)%nat)
  /\ (exists l, Db.notifications (Jobs.put_status flt now user jobId body db).1
                = Db.notifications db ++ l /\ (length l <= 1)%nat).
Proof.
  intros Hc.
  destruct (put_status_untouched_or_accepted flt now user jobId body db)
    as [-> | (j & requested & Hv & Hj & Hp & Ha)].
  - do 4 (split; [done|]).
    split; exists []; (split; [by rewrite app_nil_r | cbn; lia]).
  - destruct (consistent_job _ _ _ Hc Hj) as [Hid [o Ho]].
    destruct (transition_other_tables flt now user jobId body db j requested
                Hv Hj Hp Ha) as [Hu Hcl].
    split; [exact Hu|]. split; [exact Hcl|]. split; [|split; [|split]].
    + intros k Hk.
      rewrite (transition_jobs_table flt now user jobId body db j requested
                 Hv Hj Hid Hp Ha).
      destruct (job_update_rejects flt); [done|]. by rewrite lookup_insert_ne.
    + intros k Hk. rewrite Hj in Hk. cbn in Hk.
      rewrite (transition_orders_table flt now user jobId body db j requested
                 Hv Hj Hp Ha Hc o Ho).
      destruct (_ || _); [done|]. rewrite lookup_insert_ne; [done|]. congruence.
    + rewrite (transition_audit_table flt now user jobId body db j requested
                 Hv Hj Hp Ha).
      destruct (_ || _).
      * exists []. split; [by rewrite app_nil_r | cbn; lia].
      * eexists. split; [reflexivity|]. cbn; lia.
    + apply (transition_notifications_table flt now user jobId body db j requested
               Hv Hj Hp Ha Hc).
Qed.

Lemma put_status_touches_one_job_witness :
  Db.users (Jobs.put_status Sample.audit_insert_fails Sample.later Sample.the_manager
              1000 (Sample.job_body "cancelled") (Sample.db arrived in_production)).1
  = Db.users (Sample.db arrived in_production).
Proof.
  apply (put_status_touches_one_job_and_appends Sample.audit_insert_fails Sample.later
           Sample.the_manager 1000%N (Sample.job_body "cancelled")
           (Sample.db arrived in_production)).
  apply (bool_decide_unpack _). vm_compute. exact I.
Defined.

(** X5.  The order of the checks: a body that fails validation is
    answered 400 even when the job does not exist; a missing job is
    answered 404; and a caller who is neither the assigned worker nor in a
    management role is answered 403 whatever status was requested, allowed
    by the table or not.  None of these requests changes the database. *)
Theorem put_status_checks_in_order (flt : Faults) (now : Date.t) (user : User.t)
    (jobId : UUID) (body : Jobs.StatusBody) (db : Db.t) :
  (Jobs.validationResult body = None ->
   Jobs.put_status flt now user jobId body db = (db, ValidationErrors))
  /\ (forall requested,
        Jobs.validationResult body = Some requested ->
        Db.jobs db !! jobId = None ->
        Jobs.put_status flt now user jobId body db = (db, NotFound "Job not found"))
  /\ (forall requested j,
        Jobs.validationResult body = Some requested ->
        Db.jobs db !! jobId = Some j ->
        Job.assigned_worker_id j <> Some (User.id user) ->
        User.role user ∈ [measurer; delivery_person; installer; client] ->
        Jobs.put_status flt now user jobId body db = (db, AccessDenied)).
Proof.
  destruct (put_status_turned_away flt now user jobId body db) as (H1 & H2 & H3).
  split; [exact H1|]. split; [exact H2|].
  intros requested j Hv Hj Hw Hr. apply (H3 requested j Hv Hj).
  intros [Hp | Hp]; [done|].
  destruct (User.role user);
    repeat (apply elem_of_cons in Hp as [Hp | Hp]; [discriminate|]);
    try (by apply elem_of_nil in Hp);
    repeat (apply elem_of_cons in Hr as [Hr | Hr]; [discriminate|]);
    by apply elem_of_nil in Hr.
Qed.

Lemma put_status_checks_in_order_witness :
  Jobs.put_status no_faults Sample.later Sample.the_client_user 1000
    (Sample.job_body "en_route") (Sample.db assigned pending)
  = (Sample.db assigned pending, AccessDenied).
Proof.
  apply (proj2 (proj2 (put_status_checks_in_order no_faults Sample.later
                         Sample.the_client_user 1000%N (Sample.job_body "en_route")
                         (Sample.db assigned pending)))
           en_route (Sample.the_job assigned)).
  - reflexivity.
  - reflexivity.
  - discriminate.
  - apply (bool_decide_unpack _). vm_compute. exact I.
Defined.

Lemma allowed_next_irreflexive (s : JobStatus) : ~ Spec.allowed_next s s.
Proof. intros H. destruct s; inversion H. Qed.

Lemma allowed_next_not_from_terminal (s s' : JobStatus) :
  Spec.terminal s -> ~ Spec.allowed_next s s'.
Proof. intros [-> | ->] H; inversion H. Qed.

(** X6.  A report cannot be applied twice: after a report was accepted
    and written, the same request sent again, by the same caller, is
    answered with the invalid-transition error naming the status the job
    now has, and changes nothing. *)
Theorem report_cannot_be_repeated (flt : Faults) (now now' : Date.t) (user : User.t)
    (jobId : UUID) (body : Jobs.StatusBody) (db : Db.t) (j : Job.t)
    (requested : JobStatus) :
  consistent db ->
  Jobs.validationResult body = Some requested ->
  Db.jobs db !! jobId = Some j ->
  may_update_job user j ->
  Job.canUpdateStatus j requested = true ->
  Jobs.put_status flt now' user jobId body
    (Jobs.put_status no_faults now user jobId body db).1
  = ((Jobs.put_status no_faults now user jobId body db).1,
     InvalidTransition requested
       (Job.getNextValidStatuses (Job.with_status requested j))).
Proof.
  intros Hc Hv Hj Hp Ha. apply canUpdateStatus_allowed in Ha.
  destruct (consistent_job _ _ _ Hc Hj) as [Hid _].
  pose proof (transition_jobs_table no_faults now user jobId body db j requested
                Hv Hj Hid Hp Ha) as Hjobs.
  cbn [no_faults job_update_rejects] in Hjobs.
  assert (Db.jobs (Jobs.put_status no_faults now user jobId body db).1 !! jobId
          = Some (job_after now requested j)) as Hj'
    by (by rewrite Hjobs, lookup_insert_eq).
  apply (put_status_refused_run flt now' user jobId body _ (job_after now requested j)
           requested Hv Hj').
  - exact Hp.
  - apply allowed_next_irreflexive.
Qed.

Lemma report_cannot_be_repeated_witness :
  (Jobs.put_status no_faults Sample.later Sample.the_installer 1000
     (Sample.job_body "arrived")
     (Jobs.put_status no_faults Sample.noon Sample.the_installer 1000
        (Sample.job_body "arrived") (Sample.db en_route pending)).1).2
  = InvalidTransition arrived [in_progress; cancelled].
Proof.
  rewrite (report_cannot_be_repeated no_faults Sample.noon Sample.later
             Sample.the_installer 1000%N (Sample.job_body "arrived")
             (Sample.db en_route pending) (Sample.the_job en_route) arrived
             ltac:(apply (bool_decide_unpack _); vm_compute; exact I)
             ltac:(reflexivity) ltac:(reflexivity) ltac:(left; reflexivity)
             ltac:(reflexivity)).
  reflexivity.
Defined.

(** X7.  Whatever the request and whichever writes fail, the addressed
    job stays in the table and nothing of its row changes but the status
    and the two timestamps; and a start time that is recorded is never
    replaced. *)
Theorem job_row_kept_and_start_time_write_once (flt : Faults) (now : Date.t)
    (user : User.t) (jobId : UUID) (body : Jobs.StatusBody) (db : Db.t) (j : Job.t) :
  consistent db ->
  Db.jobs db !! jobId = Some j ->
  exists j',
    Db.jobs (Jobs.put_status flt now user jobId body db).1 !! jobId = Some j'
    /\ Job.id j' = Job.id j
    /\ Job.order_id j' = Job.order_id j
    /\ Job.assigned_worker_id j' = Job.assigned_worker_id j
    /\ Job.job_type j' = Job.job_type j
    /\ Job.scheduled_date j' = Job.scheduled_date j
    /\ Job.scheduled_time j' = Job.scheduled_time j
    /\ Job.location_address j' = Job.location_address j
    /\ Job.location_coordinates j' = Job.location_coordinates j
    /\ Job.estimated_duration j' = Job.estimated_duration j
    /\ Job.notes j' = Job.notes j
    /\ (forall t, Job.actual_start_time j = Some t -> Job.actual_start_time j' = Some t).
Proof.
  intros Hc Hj.
  destruct (put_status_untouched_or_accepted flt now user jobId body db)
    as [-> | (j0 & requested & Hv & Hj0 & Hp & Ha)].
  - exists j. repeat split; done.
  - assert (j0 = j) as -> by congruence.
    destruct (consistent_job _ _ _ Hc Hj) as [Hid _].
    rewrite (transition_jobs_table flt now user jobId body db j requested
               Hv Hj Hid Hp Ha).
    destruct (job_update_rejects flt).
    + exists j. repeat split; done.
    + exists (job_after now requested j). rewrite lookup_insert_eq.
      unfold job_after; cbn. repeat split; try done.
      intros t ->. reflexivity.
Qed.

Lemma job_row_kept_witness :
  exists j',
    Db.jobs (Jobs.put_status no_faults Sample.later Sample.the_installer 1000
               (Sample.job_body "completed") (Sample.db in_progress delivered)).1
      !! 1000%N
    = Some j'
    /\ Job.location_address j' = "12 Glass Street".
Proof.
  destruct (job_row_kept_and_start_time_write_once no_faults Sample.later
              Sample.the_installer 1000%N (Sample.job_body "completed")
              (Sample.db in_progress delivered) (Sample.the_job in_progress)
              ltac:(apply (bool_decide_unpack _); vm_compute; exact I)
              ltac:(reflexivity))
    as (j' & Hj' & _ & _ & _ & _ & _ & _ & Ha & _).
  exists j'. split; [exact Hj' | exact Ha].
Defined.

(** ** The audit trail *)

Lemma linked_snoc (prev : option JobStatus) (trail : list JobStatusUpdate.t)
    (u : JobStatusUpdate.t) :
  linked prev (trail ++ [u])
  <-> linked prev trail /\ JobStatusUpdate.previous_status u = trail_end prev trail.
Proof.
  revert prev. induction trail as [|v rest IH]; intros prev; cbn.
  - tauto.
  - rewrite IH. unfold trail_end. cbn. tauto.
Qed.

Lemma trail_end_snoc (prev : option JobStatus) (trail : list JobStatusUpdate.t)
    (u : JobStatusUpdate.t) :
  trail_end prev (trail ++ [u]) = Some (JobStatusUpdate.new_status u).
Proof. unfold trail_end. by rewrite foldl_app. Qed.

(** X8.  The audit trail keeps accounting for the stored status of every
    job: if, before a request, the trail of a job starts from no status,
    links up record to record and ends in the job's stored status, it does
    so after the request as well, provided the audit insert is not rejected
    after a status write that went through. *)
Theorem audit_trail_stays_complete (flt : Faults) (now : Date.t) (user : User.t)
    (jobId : UUID) (body : Jobs.StatusBody) (db : Db.t) (k : UUID) :
  consistent db ->
  job_update_rejects flt = true \/ status_update_create_rejects flt = false ->
  audit_complete db k ->
  audit_complete (Jobs.put_status flt now user jobId body db).1 k.
Proof.
  intros Hc Hf [Hl He].
  destruct (put_status_untouched_or_accepted flt now user jobId body db)
    as [-> | (j & requested & Hv & Hj & Hp & Ha)]; [by split|].
  destruct (consistent_job _ _ _ Hc Hj) as [Hid _].
  unfold audit_complete, audit_trail in *.
  rewrite (transition_jobs_table flt now user jobId body db j requested
             Hv Hj Hid Hp Ha).
  rewrite (transition_audit_table flt now user jobId body db j requested
             Hv Hj Hp Ha).
  destruct (job_update_rejects flt); [by split|].
  destruct Hf as [Hf | ->]; [discriminate|]. cbn [orb].
  rewrite filter_app. cbn [filter list_filter audit_record JobStatusUpdate.job_id].
  destruct (decide (k = jobId)) as [-> | Hne].
  - rewrite Hj in He. cbn in He.
    rewrite decide_True by exact Hid.
    rewrite lookup_insert_eq. split.
    + apply linked_snoc. split; [exact Hl|]. by rewrite He.
    + by rewrite trail_end_snoc.
  - rewrite decide_False by congruence. rewrite app_nil_r.
    rewrite lookup_insert_ne by congruence. by split.
Qed.

Lemma audit_trail_stays_complete_witness :
  audit_complete
    (Jobs.put_status no_faults Sample.noon Sample.the_installer 2000
       (Sample.job_body "en_route") Sample2.db_with_created_job).1
    2000.
Proof.
  apply (audit_trail_stays_complete no_faults Sample.noon Sample.the_installer
           2000%N (Sample.job_body "en_route") Sample2.db_with_created_job 2000%N).
  - apply (bool_decide_unpack _). vm_compute. exact I.
  - right. reflexivity.
  - vm_compute. split; [split; [reflexivity | exact I] | reflexivity].
Defined.

(** X9.  A completed or cancelled job is frozen: no request to the
    status route, from any caller, with any body, changes anything in the
    database. *)
Theorem terminal_job_is_frozen (flt : Faults) (now : Date.t) (user : User.t)
    (jobId : UUID) (body : Jobs.StatusBody) (db : Db.t) (j : Job.t) :
  Db.jobs db !! jobId = Some j ->
  Job.isActive j = false ->
  (Jobs.put_status flt now user jobId body db).1 = db.
Proof.
  intros Hj Ht.
  assert (Spec.terminal (Job.status j)) as Hterminal.
  { unfold Job.isActive in Ht. apply negb_false_iff, bool_decide_eq_true in Ht.
    apply elem_of_cons in Ht as [Ht | Ht]; [by left|].
    apply elem_of_cons in Ht as [Ht | Ht]; [by right|].
    by apply elem_of_nil in Ht. }
  destruct (put_status_untouched_or_accepted flt now user jobId body db)
    as [H | (j0 & requested & Hv & Hj0 & Hp & Ha)]; [exact H|].
  assert (j0 = j) as -> by congruence.
  by destruct (allowed_next_not_from_terminal _ requested Hterminal).
Qed.

Lemma terminal_job_is_frozen_witness :
  (Jobs.put_status no_faults Sample.later Sample.the_manager 1000
     (Sample.job_body "assigned") (Sample.db cancelled pending)).1
  = Sample.db cancelled pending.
Proof.
  apply (terminal_job_is_frozen no_faults Sample.later Sample.the_manager 1000%N
           (Sample.job_body "assigned") (Sample.db cancelled pending)
           (Sample.the_job cancelled)).
  - reflexivity.
  - reflexivity.
Defined.

(** ** Creating and deleting jobs *)

Lemma job_types_lower_case (t : string) :
  t ∈ JobsAdmin.job_types -> JS.when_truthy JS.toLowerCase t = t.
Proof.
  unfold JobsAdmin.job_types. intros H.
  repeat (apply elem_of_cons in H as [-> | H]; [reflexivity|]).
  by apply elem_of_nil in H.
Qed.

Lemma valid_create_body (body : JobsAdmin.CreateBody) :
  JobsAdmin.valid body = true ->
  JobsAdmin.job_type body ∈ JobsAdmin.job_types
  /\ JobsAdmin.location_address body <> "".
Proof.
  unfold JobsAdmin.valid. intros H.
  apply andb_true_iff in H as [H _]. apply andb_true_iff in H as [H _].
  apply andb_true_iff in H as [H1 H2].
  split; [by apply bool_decide_eq_true in H1|].
  apply negb_true_iff in H2. by apply String.eqb_neq in H2.
Qed.

Lemma built_job_type (newId : UUID) (body : JobsAdmin.CreateBody) :
  JobsAdmin.valid body = true ->
  Job.job_type (JobsAdmin.built newId body) = JobsAdmin.job_type body.
Proof.
  intros H. destruct (valid_create_body _ H) as [Ht _].
  cbn. by apply job_types_lower_case.
Qed.

Lemma workerRoleMap_lookup (t : string) (r : Role) :
  JobsAdmin.workerRoleMap !! t = Some r <->
  (t = "measuring" /\ r = measurer)
  \/ (t = "delivery" /\ r = delivery_person)
  \/ (t = "installation" /\ r = installer).
Proof.
  unfold JobsAdmin.workerRoleMap. cbn [list_to_map foldr fst snd].
  destruct (String.eqb_spec t "measuring") as [-> | H1].
  { rewrite lookup_insert_eq. split.
    - intros [= <-]. by left.
    - intros [[_ ->] | [[? _] | [? _]]]; done. }
  rewrite lookup_insert_ne by done.
  destruct (String.eqb_spec t "delivery") as [-> | H2].
  { rewrite lookup_insert_eq. split.
    - intros [= <-]. right. by left.
    - intros [[? _] | [[_ ->] | [? _]]]; done. }
  rewrite lookup_insert_ne by done.
  destruct (String.eqb_spec t "installation") as [-> | H3].
  { rewrite lookup_insert_eq. split.
    - intros [= <-]. right. by right.
    - intros [[? _] | [[? _] | [_ ->]]]; done. }
  rewrite lookup_insert_ne by done. rewrite lookup_empty. split; [done|].
  intros [[? _] | [[? _] | [? _]]]; done.
Qed.

Ltac split_bool :=
  match goal with
  | |- context [if ?c then _ else _] =>
      match type of c with bool => destruct c end
  end.

Ltac enter_create Hr Hv Ho :=
  unfold JobsAdmin.create, Handler.behind;
  rewrite (bool_decide_eq_true_2 _ Hr);
  unfold Handler.run, JobsAdmin.create_handler;
  rewrite Hv; cbn [negb];
  unfold mbind, Handler.bind, Handler.query at 1;
  rewrite Ho.

Section Creation.

Context (flt : JobsAdmin.CreateFaults) (newId : UUID) (user : User.t)
  (body : JobsAdmin.CreateBody) (db : Db.t) (o : Order.t).
Hypothesis Hr : User.role user ∈ [director; manager; supervisor].
Hypothesis Hv : JobsAdmin.valid body = true.
Hypothesis Ho : Db.orders db !! JobsAdmin.order_id body = Some o.
Hypothesis Hfresh : Db.jobs db !! newId = None.
Hypothesis Hw :
  match JobsAdmin.assigned_worker_id body with
  | Some w =>
      exists u, Db.users db !! w = Some u
                /\ JobsAdmin.workerRoleMap !! JobsAdmin.job_type body
                   = Some (User.role u)
  | None => True
  end.

Ltac run_create :=
  enter_create Hr Hv Ho;
  unfold JobsAdmin.Job_create; rewrite (built_job_type newId body Hv);
  rewrite (bool_decide_eq_true_2 _ (proj1 (valid_create_body _ Hv)));
  cbn [negb];
  unfold mbind, Handler.bind, Handler.query, Handler.write, Handler.answer,
    Handler.throw, JobsAdmin.JobStatusUpdate_insert, JobsAdmin.Notification_insert,
    mret, Handler.ret;
  destruct (JobsAdmin.assigned_worker_id body) as [w|] eqn:Hwk;
  [ destruct Hw as (u & Hu & Hrole); rewrite Hrole;
    unfold JobsAdmin.find_worker; rewrite Hu;
    rewrite (bool_decide_eq_true_2 (User.role u = User.role u) eq_refl)
  | ];
  rewrite Hfresh;
  rewrite (bool_decide_eq_false_2 (is_Some None) (is_Some_None (A:=Job.t)));
  destruct flt as [[] [] []];
  cbn [JobsAdmin.job_create_rejects JobsAdmin.first_update_rejects
       JobsAdmin.assignment_rejects orb].

Lemma create_jobs_table :
  Db.jobs (JobsAdmin.create flt newId user body db).1
  = if JobsAdmin.job_create_rejects flt then Db.jobs db
    else <[newId := Job.stored (JobsAdmin.built newId body)]> (Db.jobs db).
Proof.
  run_create; try reflexivity.
  all: cbn -[JobsAdmin.built Job.stored Notification.beforeValidate Validator.isLength lookup insert].
  all: try rewrite Hu.
  all: cbn -[JobsAdmin.built Job.stored Notification.beforeValidate Validator.isLength lookup insert].
  all: repeat split_bool; reflexivity.
Qed.

Lemma create_audit_table :
  Db.job_status_updates (JobsAdmin.create flt newId user body db).1
  = if JobsAdmin.job_create_rejects flt || JobsAdmin.first_update_rejects flt
    then Db.job_status_updates db
    else Db.job_status_updates db ++ [first_audit_record user newId].
Proof.
  run_create; try reflexivity.
  all: cbn -[JobsAdmin.built Job.stored Notification.beforeValidate Validator.isLength lookup insert].
  all: try rewrite Hu.
  all: cbn -[JobsAdmin.built Job.stored Notification.beforeValidate Validator.isLength lookup insert].
  all: repeat split_bool; reflexivity.
Qed.

Lemma create_other_tables :
  Db.users (JobsAdmin.create flt newId user body db).1 = Db.users db
  /\ Db.clients (JobsAdmin.create flt newId user body db).1 = Db.clients db
  /\ Db.orders (JobsAdmin.create flt newId user body db).1 = Db.orders db.
Proof.
  split; [|split]; run_create; try reflexivity.
  all: cbn -[JobsAdmin.built Job.stored Notification.beforeValidate Validator.isLength lookup insert].
  all: try rewrite Hu.
  all: cbn -[JobsAdmin.built Job.stored Notification.beforeValidate Validator.isLength lookup insert].
  all: repeat split_bool; reflexivity.
Qed.

Lemma create_notifications_table :
  Db.notifications (JobsAdmin.create flt newId user body db).1
  = match JobsAdmin.assigned_worker_id body with
    | Some w =>
        if negb (JobsAdmin.job_create_rejects flt || JobsAdmin.first_update_rejects flt
                 || JobsAdmin.assignment_rejects flt)
           && assignment_fits (JobsAdmin.built newId body) w
        then Db.notifications db
             ++ [Notification.beforeValidate
                   (JobsAdmin.createJobAssignment
                      (default w (User.id <$> Db.users db !! w)) newId
                      (Job.getJobTypeDisplay (JobsAdmin.built newId body))
                      (Job.location_address (JobsAdmin.built newId body)))]
        else Db.notifications db
    | None => Db.notifications db
    end.
Proof.
  run_create; try reflexivity.
  all: cbn -[JobsAdmin.built Job.stored Notification.beforeValidate Validator.isLength lookup insert].
  all: rewrite Hu.
  all: cbn -[JobsAdmin.built Job.stored Notification.beforeValidate Validator.isLength lookup insert].
  all: unfold assignment_fits.
  all: cbn -[JobsAdmin.built Job.stored Notification.beforeValidate Validator.isLength
             JobsAdmin.createJobAssignment lookup insert].
  all: destruct (_ && _)%bool; reflexivity.
Qed.

Lemma create_reply :
  (JobsAdmin.create flt newId user body db).2
  = let payload w :=
      Ok {| JobsAdmin.job :=
              Some {| job_row := Job.stored (JobsAdmin.built newId body);
                      job_order := load_order db (JobsAdmin.order_id body) |};
            JobsAdmin.assignedWorker := w |} in
    if JobsAdmin.job_create_rejects flt || JobsAdmin.first_update_rejects flt
    then Error 500 "Failed to create job"
    else
      match JobsAdmin.assigned_worker_id body with
      | Some w =>
          if negb (JobsAdmin.assignment_rejects flt)
             && assignment_fits (JobsAdmin.built newId body) w
          then payload (Db.users db !! w)
          else Error 500 "Failed to create job"
      | None => payload None
      end.
Proof.
  run_create; try reflexivity.
  all: cbn -[JobsAdmin.built Job.stored Notification.beforeValidate Validator.isLength lookup insert].
  all: rewrite ?Hu.
  all: cbn -[JobsAdmin.built Job.stored Notification.beforeValidate Validator.isLength lookup insert].
  all: unfold assignment_fits.
  all: cbn -[JobsAdmin.built Job.stored Notification.beforeValidate Validator.isLength
             JobsAdmin.createJobAssignment lookup insert].
  all: try (destruct (_ && _)%bool; [|reflexivity]).
  all: try reflexivity.
  all: cbn -[JobsAdmin.built Job.stored Notification.beforeValidate Validator.isLength
             load_job lookup insert].
  all: unfold load_job, load_order, load_client;
    cbn -[JobsAdmin.built Job.stored lookup insert].
  all: rewrite lookup_insert_eq; cbn -[JobsAdmin.built Job.stored lookup insert].
  all: change (Job.order_id (Job.stored (JobsAdmin.built newId body)))
         with (JobsAdmin.order_id body).
  all: change (Job.assigned_worker_id (Job.stored (JobsAdmin.built newId body)))
         with (JobsAdmin.assigned_worker_id body).
  all: rewrite Hwk; cbn -[JobsAdmin.built Job.stored lookup insert]; rewrite ?Hu;
    reflexivity.
Qed.

End Creation.

Lemma audit_trail_unreferenced (db : Db.t) (k : UUID) :
  audit_references_jobs db ->
  Db.jobs db !! k = None ->
  audit_trail db k = [].
Proof.
  unfold audit_references_jobs, audit_trail.
  intros Hr Hk. induction (Db.job_status_updates db) as [|u l IH]; [done|].
  apply Forall_cons in Hr as [Hu Hl]. cbn.
  destruct (decide (JobStatusUpdate.job_id u = k)) as [<- | Hne].
  - rewrite Hk in Hu. by destruct Hu.
  - by apply IH.
Qed.

(** X10.  A job that management creates is stored in status [assigned]
    with its address trimmed, every other job row is left alone, and its
    audit trail is exactly one record, from no status to [assigned],
    written by the creator: the trail accounts for the stored status from
    the first moment.  The foreign keys stay satisfied. *)
Theorem created_job_starts_its_audit_trail (flt : JobsAdmin.CreateFaults)
    (newId : UUID) (user : User.t) (body : JobsAdmin.CreateBody) (db : Db.t)
    (o : Order.t) :
  User.role user ∈ [director; manager; supervisor] ->
  JobsAdmin.valid body = true ->
  Db.orders db !! JobsAdmin.order_id body = Some o ->
  Db.jobs db !! newId = None ->
  match JobsAdmin.assigned_worker_id body with
  | Some w =>
      exists u, Db.users db !! w = Some u
                /\ JobsAdmin.workerRoleMap !! JobsAdmin.job_type body
                   = Some (User.role u)
  | None => True
  end ->
  JobsAdmin.job_create_rejects flt = false ->
  JobsAdmin.first_update_rejects flt = false ->
  consistent db ->
  audit_references_jobs db ->
  exists j,
    Db.jobs (JobsAdmin.create flt newId user body db).1 !! newId = Some j
    /\ Job.status j = assigned
    /\ Job.location_address j = JS.trim (JobsAdmin.location_address body)
    /\ Job.assigned_worker_id j = JobsAdmin.assigned_worker_id body
    /\ (forall k, k <> newId ->
          Db.jobs (JobsAdmin.create flt newId user body db).1 !! k = Db.jobs db !! k)
    /\ audit_trail (JobsAdmin.create flt newId user body db).1 newId
       = [first_audit_record user newId]
    /\ audit_complete (JobsAdmin.create flt newId user body db).1 newId
    /\ consistent (JobsAdmin.create flt newId user body db).1
    /\ audit_references_jobs (JobsAdmin.create flt newId user body db).1.
Proof.
  intros Hr Hv Ho Hfresh Hw Hjc Hfu Hc Hrefs.
  pose proof (create_jobs_table flt newId user body db o Hr Hv Ho Hfresh Hw) as Hjobs.
  pose proof (create_audit_table flt newId user body db o Hr Hv Ho Hfresh Hw) as Haud.
  destruct (create_other_tables flt newId user body db o Hr Hv Ho Hfresh Hw)
    as (Husers & Hclients & Horders).
  rewrite Hjc in Hjobs. rewrite Hjc, Hfu in Haud. cbn [orb] in Haud.
  assert (audit_trail (JobsAdmin.create flt newId user body db).1 newId
          = [first_audit_record user newId]) as Htrail.
  { unfold audit_trail. rewrite Haud, filter_app.
    fold (audit_trail db newId). rewrite (audit_trail_unreferenced _ _ Hrefs Hfresh).
    cbn. by rewrite decide_True. }
  exists (Job.stored (JobsAdmin.built newId body)).
  split; [by rewrite Hjobs, lookup_insert_eq|].
  split; [reflexivity|].
  split.
  { destruct (valid_create_body _ Hv) as [_ Hne]. cbn. unfold JS.when_truthy.
    apply String.eqb_neq in Hne. by rewrite Hne. }
  split; [reflexivity|].
  split; [intros k Hk; by rewrite Hjobs, lookup_insert_ne|].
  split; [exact Htrail|].
  split.
  { unfold audit_complete. rewrite Htrail, Hjobs, lookup_insert_eq. by split. }
  split.
  - destruct Hc as (Hcj & Hco & Hcc). unfold consistent.
    rewrite Hjobs, Horders, Hclients, Husers.
    split; [|by split].
    apply map_Forall_insert_2; [|exact Hcj].
    split; [reflexivity|]. cbn. by rewrite Ho.
  - unfold audit_references_jobs. rewrite Haud, Hjobs.
    apply Forall_app. split.
    + eapply Forall_impl; [exact Hrefs|]. intros u [j Hj].
      destruct (decide (JobStatusUpdate.job_id u = newId)) as [-> | Hne].
      * by rewrite lookup_insert_eq.
      * rewrite lookup_insert_ne by done. by exists j.
    + apply Forall_singleton. cbn. by rewrite lookup_insert_eq.
Qed.

Lemma created_job_witness :
  exists j,
    Db.jobs Sample2.db_with_created_job !! 2000%N = Some j
    /\ Job.status j = assigned
    /\ Job.location_address j = "7 Pane Road"
    /\ audit_trail Sample2.db_with_created_job 2000
       = [first_audit_record Sample.the_manager 2000].
Proof.
  destruct (created_job_starts_its_audit_trail JobsAdmin.none_rejected 2000%N
              Sample.the_manager (Sample2.create_body (Some 2%N) " 7 Pane Road ")
              (Sample.db assigned installation_scheduled)
              (Sample.the_order installation_scheduled))
    as (j & Hj & Hs & Ha & _ & _ & Ht & _).
  - apply (bool_decide_unpack _). vm_compute. exact I.
  - reflexivity.
  - reflexivity.
  - reflexivity.
  - exists Sample.the_installer. split; reflexivity.
  - reflexivity.
  - reflexivity.
  - apply (bool_decide_unpack _). vm_compute. exact I.
  - apply (bool_decide_unpack _). vm_compute. exact I.
  - exists j. split; [exact Hj|]. split; [exact Hs|]. split; [|exact Ht].
    rewrite Ha. vm_compute. reflexivity.
Defined.

Lemma create_unfit_worker (flt : JobsAdmin.CreateFaults) (newId : UUID)
    (user : User.t) (body : JobsAdmin.CreateBody) (db : Db.t) (o : Order.t)
    (w : UUID) :
  User.role user ∈ [director; manager; supervisor] ->
  JobsAdmin.valid body = true ->
  Db.orders db !! JobsAdmin.order_id body = Some o ->
  JobsAdmin.assigned_worker_id body = Some w ->
  (forall u, Db.users db !! w = Some u ->
             JobsAdmin.workerRoleMap !! JobsAdmin.job_type body <> Some (User.role u)) ->
  JobsAdmin.create flt newId user body db
  = (db, Error 404 ("Worker not found or incorrect role for "
                    +:+ JobsAdmin.job_type body +:+ " job")).
Proof.
  intros Hr Hv Ho Hw Hno. enter_create Hr Hv Ho. rewrite Hw.
  destruct (valid_create_body _ Hv) as [Ht _].
  destruct (JobsAdmin.workerRoleMap !! JobsAdmin.job_type body) as [role|] eqn:Hrole.
  - unfold mbind, Handler.bind, Handler.query, JobsAdmin.find_worker.
    destruct (Db.users db !! w) as [u|] eqn:Hu; [|reflexivity].
    rewrite bool_decide_eq_false_2; [reflexivity|].
    intros <-. by apply (Hno u).
  - exfalso. unfold JobsAdmin.job_types in Ht.
    repeat (apply elem_of_cons in Ht as [Ht | Ht];
            [rewrite Ht in Hrole; vm_compute in Hrole; discriminate|]).
    by apply elem_of_nil in Ht.
Qed.

(** X11.  A job is only created for a worker who exists and whose role is
    the one the job type calls for (a measurer for measuring, a delivery
    person for delivery, an installer for installation): the route answers
    404 and leaves the database as it was exactly when the named worker is
    not such a user. *)
Theorem create_requires_worker_of_matching_role (flt : JobsAdmin.CreateFaults)
    (newId : UUID) (user : User.t) (body : JobsAdmin.CreateBody) (db : Db.t)
    (o : Order.t) (w : UUID) :
  User.role user ∈ [director; manager; supervisor] ->
  JobsAdmin.valid body = true ->
  Db.orders db !! JobsAdmin.order_id body = Some o ->
  Db.jobs db !! newId = None ->
  JobsAdmin.assigned_worker_id body = Some w ->
  JobsAdmin.create flt newId user body db
  = (db, Error 404 ("Worker not found or incorrect role for "
                    +:+ JobsAdmin.job_type body +:+ " job"))
  <-> ~ (exists u, Db.users db !! w = Some u
                   /\ (JobsAdmin.job_type body, User.role u)
                      ∈ [("measuring", measurer); ("delivery", delivery_person);
                         ("installation", installer)]).
Proof.
  intros Hr Hv Ho Hfresh Hw. split.
  - intros Hrun (u & Hu & Hin).
    assert (JobsAdmin.workerRoleMap !! JobsAdmin.job_type body = Some (User.role u))
      as Hrole.
    { apply workerRoleMap_lookup.
      repeat (apply elem_of_cons in Hin as [[= -> ->] | Hin]; [tauto|]).
      by apply elem_of_nil in Hin. }
    pose proof (create_reply flt newId user body db o Hr Hv Ho Hfresh) as Hreply.
    rewrite Hw in Hreply. specialize (Hreply (ex_intro _ u (conj Hu Hrole))).
    rewrite Hrun in Hreply. cbn [snd] in Hreply.
    cbv zeta in Hreply.
    destruct (_ || _)%bool; [discriminate Hreply|].
    destruct (_ && _)%bool; discriminate Hreply.
  - intros Hno. apply (create_unfit_worker flt newId user body db o w Hr Hv Ho Hw).
    intros u Hu Hrole. apply Hno. exists u. split; [exact Hu|].
    apply workerRoleMap_lookup in Hrole as [[-> <-] | [[-> <-] | [-> <-]]].
    + apply list_elem_of_here.
    + apply list_elem_of_further, list_elem_of_here.
    + do 2 apply list_elem_of_further. apply list_elem_of_here.
Qed.

Lemma create_requires_worker_witness :
  JobsAdmin.create JobsAdmin.none_rejected 2000 Sample.the_manager
    (Sample2.create_body (Some 1%N) "7 Pane Road")
    (Sample.db assigned installation_scheduled)
  = (Sample.db assigned installation_scheduled,
     Error 404 "Worker not found or incorrect role for installation job").
Proof.
  apply (create_requires_worker_of_matching_role JobsAdmin.none_rejected 2000%N
           Sample.the_manager (Sample2.create_body (Some 1%N) "7 Pane Road")
           (Sample.db assigned installation_scheduled)
           (Sample.the_order installation_scheduled) 1%N).
  - apply (bool_decide_unpack _). vm_compute. exact I.
  - reflexivity.
  - reflexivity.
  - reflexivity.
  - reflexivity.
  - intros (u & Hu & Hin). vm_compute in Hu. injection Hu as <-.
    apply (bool_decide_pack _) in Hin. vm_compute in Hin. exact Hin.
Defined.

(** X12.  The route stores the job and its first audit record before it
    notifies the worker, and nothing is rolled back: when the assignment
    notification is refused (its message, which quotes the address, does
    not pass the length validators of the model, or the insert is
    rejected), the caller is told 500 although the job exists, in status
    [assigned] and with its audit record, and no notification is stored. *)
Theorem create_keeps_job_when_notification_fails (flt : JobsAdmin.CreateFaults)
    (newId : UUID) (user : User.t) (body : JobsAdmin.CreateBody) (db : Db.t)
    (o : Order.t) (w : UUID) (u : User.t) :
  User.role user ∈ [director; manager; supervisor] ->
  JobsAdmin.valid body = true ->
  Db.orders db !! JobsAdmin.order_id body = Some o ->
  Db.jobs db !! newId = None ->
  JobsAdmin.assigned_worker_id body = Some w ->
  Db.users db !! w = Some u ->
  JobsAdmin.workerRoleMap !! JobsAdmin.job_type body = Some (User.role u) ->
  JobsAdmin.job_create_rejects flt = false ->
  JobsAdmin.first_update_rejects flt = false ->
  JobsAdmin.assignment_rejects flt = true
  \/ assignment_fits (JobsAdmin.built newId body) w = false ->
  (JobsAdmin.create flt newId user body db).2 = Error 500 "Failed to create job"
  /\ Db.jobs (JobsAdmin.create flt newId user body db).1 !! newId
     = Some (Job.stored (JobsAdmin.built newId body))
  /\ Job.status (Job.stored (JobsAdmin.built newId body)) = assigned
  /\ Db.job_status_updates (JobsAdmin.create flt newId user body db).1
     = Db.job_status_updates db ++ [first_audit_record user newId]
  /\ Db.notifications (JobsAdmin.create flt newId user body db).1
     = Db.notifications db.
Proof.
  intros Hr Hv Ho Hfresh Hw Hu Hrole Hjc Hfu Hfail.
  assert (match JobsAdmin.assigned_worker_id body with
          | Some w => exists u, Db.users db !! w = Some u
                                /\ JobsAdmin.workerRoleMap !! JobsAdmin.job_type body
                                   = Some (User.role u)
          | None => True
          end) as Hfit by (rewrite Hw; by exists u).
  assert (negb (JobsAdmin.assignment_rejects flt)
          && assignment_fits (JobsAdmin.built newId body) w = false) as Hno.
  { destruct Hfail as [-> | ->]; [reflexivity | apply andb_false_r]. }
  rewrite (create_reply flt newId user body db o Hr Hv Ho Hfresh Hfit).
  rewrite (create_jobs_table flt newId user body db o Hr Hv Ho Hfresh Hfit).
  rewrite (create_audit_table flt newId user body db o Hr Hv Ho Hfresh Hfit).
  rewrite (create_notifications_table flt newId user body db o Hr Hv Ho Hfresh Hfit).
  rewrite Hw, Hjc, Hfu. cbn [orb]. cbv zeta. rewrite Hno.
  rewrite lookup_insert_eq.
  done.
Qed.

Lemma create_keeps_job_witness :
  (JobsAdmin.create JobsAdmin.none_rejected 2000 Sample.the_manager
     (Sample2.create_body (Some 2%N) Sample2.long_address)
     (Sample.db assigned installation_scheduled)).2
  = Error 500 "Failed to create job"
  /\ Job.status
       <$> Db.jobs (JobsAdmin.create JobsAdmin.none_rejected 2000 Sample.the_manager
                      (Sample2.create_body (Some 2%N) Sample2.long_address)
                      (Sample.db assigned installation_scheduled)).1 !! 2000%N
     = Some assigned.
Proof.
  destruct (create_keeps_job_when_notification_fails JobsAdmin.none_rejected 2000%N
              Sample.the_manager (Sample2.create_body (Some 2%N) Sample2.long_address)
              (Sample.db assigned installation_scheduled)
              (Sample.the_order installation_scheduled) 2%N Sample.the_installer)
    as (Hreply & Hjob & Hs & _).
  - apply (bool_decide_unpack _). vm_compute. exact I.
  - reflexivity.
  - reflexivity.
  - reflexivity.
  - reflexivity.
  - reflexivity.
  - reflexivity.
  - reflexivity.
  - reflexivity.
  - right. vm_compute. reflexivity.
  - split; [exact Hreply|]. rewrite Hjob. cbn [fmap option_fmap option_map].
    by rewrite Hs.
Defined.

(** ** Deleting jobs and orders *)

Lemma job_delete_outcome (destroy : JobsAdmin.Destroy Job.t) (user : User.t)
    (jobId : UUID) (db : Db.t) :
  User.role user ∈ [director; manager; supervisor] ->
  JobsAdmin.delete destroy user jobId db
  = match Db.jobs db !! jobId with
    | None => (db, Error 404 "Job not found")
    | Some j =>
        if bool_decide (Job.status j = assigned) then
          match destroy j db with
          | Some db' => (db', Ok "Job deleted successfully")
          | None => (db, Error 500 "Failed to delete job")
          end
        else (db, Error 400 "Only assigned jobs can be deleted")
    end.
Proof.
  intros Hr. unfold JobsAdmin.delete, Handler.behind.
  rewrite (bool_decide_eq_true_2 _ Hr).
  unfold Handler.run, JobsAdmin.delete_handler, mbind, Handler.bind, Handler.query.
  destruct (Db.jobs db !! jobId) as [j|]; [|reflexivity].
  destruct (bool_decide (Job.status j = assigned)); cbn [negb]; [|reflexivity].
  unfold JobsAdmin.destroy_with, Handler.attempt. by destruct (destroy j db).
Qed.

Lemma order_delete_outcome (destroy : JobsAdmin.Destroy Order.t) (user : User.t)
    (orderId : UUID) (db : Db.t) :
  User.role user ∈ [director; manager] ->
  OrdersAdmin.delete destroy user orderId db
  = match Db.orders db !! orderId with
    | None => (db, Error 404 "Order not found")
    | Some o =>
        if bool_decide (Order.status o = pending) then
          match destroy o db with
          | Some db' => (db', Ok "Order deleted successfully")
          | None => (db, Error 500 "Failed to delete order")
          end
        else (db, Error 400 "Only pending orders can be deleted")
    end.
Proof.
  intros Hr. unfold OrdersAdmin.delete, Handler.behind.
  rewrite (bool_decide_eq_true_2 _ Hr).
  unfold Handler.run, OrdersAdmin.delete_handler, mbind, Handler.bind, Handler.query.
  destruct (Db.orders db !! orderId) as [o|]; [|reflexivity].
  destruct (bool_decide (Order.status o = pending)); cbn [negb]; [|reflexivity].
  unfold JobsAdmin.destroy_with, Handler.attempt. by destruct (destroy o db).
Qed.

Lemma canUpdateStatus_never_assigned (j : Job.t) (s : JobStatus) :
  Job.canUpdateStatus j s = true -> s <> assigned.
Proof.
  intros H ->. apply canUpdateStatus_allowed in H. inversion H.
Qed.

(** X13.  Once a status report for a job was accepted and written, the
    job can no longer be deleted: whoever of the management asks, and
    whatever [destroy] would do, the delete route answers 400 and leaves
    the database as the report left it. *)
Theorem reported_job_cannot_be_deleted (destroy : JobsAdmin.Destroy Job.t)
    (flt : Faults) (now : Date.t) (user boss : User.t) (jobId : UUID)
    (body : Jobs.StatusBody) (db : Db.t) (j : Job.t) (requested : JobStatus) :
  consistent db ->
  Jobs.validationResult body = Some requested ->
  Db.jobs db !! jobId = Some j ->
  may_update_job user j ->
  Job.canUpdateStatus j requested = true ->
  job_update_rejects flt = false ->
  User.role boss ∈ [director; manager; supervisor] ->
  JobsAdmin.delete destroy boss jobId (Jobs.put_status flt now user jobId body db).1
  = ((Jobs.put_status flt now user jobId body db).1,
     Error 400 "Only assigned jobs can be deleted").
Proof.
  intros Hc Hv Hj Hp Hcan Hf Hr.
  destruct (consistent_job _ _ _ Hc Hj) as [Hid _].
  pose proof (canUpdateStatus_never_assigned _ _ Hcan) as Hne.
  apply canUpdateStatus_allowed in Hcan.
  pose proof (transition_jobs_table flt now user jobId body db j requested
                Hv Hj Hid Hp Hcan) as Hjobs.
  rewrite Hf in Hjobs.
  rewrite (job_delete_outcome destroy boss jobId _ Hr).
  rewrite Hjobs, lookup_insert_eq.
  by rewrite bool_decide_eq_false_2.
Qed.

Lemma reported_job_cannot_be_deleted_witness :
  (JobsAdmin.delete Schema.delete_job Sample.the_manager 1000
     (Jobs.put_status no_faults Sample.noon Sample.the_installer 1000
        (Sample.job_body "en_route") (Sample.db assigned pending)).1).2
  = Error 400 "Only assigned jobs can be deleted".
Proof.
  rewrite (reported_job_cannot_be_deleted Schema.delete_job no_faults Sample.noon
             Sample.the_installer Sample.the_manager 1000%N
             (Sample.job_body "en_route") (Sample.db assigned pending)
             (Sample.the_job assigned) en_route).
  - reflexivity.
  - apply (bool_decide_unpack _). vm_compute. exact I.
  - reflexivity.
  - reflexivity.
  - left. reflexivity.
  - reflexivity.
  - reflexivity.
  - apply (bool_decide_unpack _). vm_compute. exact I.
Defined.

(** X14.  The delete route for jobs changes the database in one way only:
    by running [destroy] on a stored job that is still [assigned], for a
    caller of the management.  Every other request leaves the database as
    it was. *)
Theorem job_delete_only_destroys_assigned_jobs (destroy : JobsAdmin.Destroy Job.t)
    (user : User.t) (jobId : UUID) (db : Db.t) :
  (JobsAdmin.delete destroy user jobId db).1 <> db ->
  User.role user ∈ [director; manager; supervisor]
  /\ exists j,
       Db.jobs db !! jobId = Some j
       /\ Job.status j = assigned
       /\ destroy j db = Some (JobsAdmin.delete destroy user jobId db).1
       /\ (JobsAdmin.delete destroy user jobId db).2 = Ok "Job deleted successfully".
Proof.
  intros Hch.
  destruct (decide (User.role user ∈ [director; manager; supervisor])) as [Hr|Hr].
  - split; [exact Hr|]. revert Hch.
    rewrite (job_delete_outcome destroy user jobId db Hr).
    destruct (Db.jobs db !! jobId) as [j|]; [|done].
    destruct (bool_decide (Job.status j = assigned)) eqn:Hs; [|done].
    apply bool_decide_eq_true in Hs.
    destruct (destroy j db) as [db'|] eqn:Hd; [|done].
    intros _. exists j. by rewrite Hd.
  - exfalso. apply Hch. unfold JobsAdmin.delete, Handler.behind.
    by rewrite (bool_decide_eq_false_2 _ Hr).
Qed.

Lemma job_delete_witness :
  User.role Sample.the_manager ∈ [director; manager; supervisor]
  /\ exists j,
       Db.jobs (Sample.db assigned pending) !! 1000%N = Some j
       /\ Job.status j = assigned
       /\ (JobsAdmin.delete Schema.delete_job Sample.the_manager 1000
             (Sample.db assigned pending)).2
          = Ok "Job deleted successfully".
Proof.
  destruct (job_delete_only_destroys_assigned_jobs Schema.delete_job
              Sample.the_manager 1000%N (Sample.db assigned pending))
    as (Hr & j & Hj & Hs & _ & Hok).
  - vm_compute. discriminate.
  - split; [exact Hr|]. exists j. split; [exact Hj|]. split; [exact Hs | exact Hok].
Defined.

(** Under database/schema.sql the job that was created for the installer
    is held by its assignment notification: the DELETE statement is
    refused and the route answers 500, the database staying as it was. *)
Example notified_job_is_held :
  JobsAdmin.delete Schema.delete_job Sample.the_manager 2000 Sample2.db_with_created_job
  = (Sample2.db_with_created_job, Error 500 "Failed to delete job").
Proof.
  rewrite job_delete_outcome
    by (apply (bool_decide_unpack _); vm_compute; exact I).
  reflexivity.
Qed.

(** X15.  The delete route for orders changes the database in one way
    only: by running [destroy] on a stored order that is still [pending],
    for a director or a manager; a supervisor, who may set the status of
    an order, may not delete one. *)
Theorem order_delete_only_destroys_pending_orders
    (destroy : JobsAdmin.Destroy Order.t) (user : User.t) (orderId : UUID)
    (db : Db.t) :
  (User.role user = supervisor ->
   requireManagement user = None
   /\ OrdersAdmin.delete destroy user orderId db
      = (db, Insufficient [director; manager] supervisor))
  /\ ((OrdersAdmin.delete destroy user orderId db).1 <> db ->
      User.role user ∈ [director; manager]
      /\ exists o,
           Db.orders db !! orderId = Some o
           /\ Order.status o = pending
           /\ destroy o db = Some (OrdersAdmin.delete destroy user orderId db).1
           /\ (OrdersAdmin.delete destroy user orderId db).2
              = Ok "Order deleted successfully").
Proof.
  split.
  - intros Hs. unfold requireManagement, requireRole, OrdersAdmin.delete,
      Handler.behind. rewrite Hs. split; reflexivity.
  - intros Hch.
    destruct (decide (User.role user ∈ [director; manager])) as [Hr|Hr].
    + split; [exact Hr|]. revert Hch.
      rewrite (order_delete_outcome destroy user orderId db Hr).
      destruct (Db.orders db !! orderId) as [o|]; [|done].
      destruct (bool_decide (Order.status o = pending)) eqn:Hs; [|done].
      apply bool_decide_eq_true in Hs.
      destruct (destroy o db) as [db'|] eqn:Hd; [|done].
      intros _. exists o. by rewrite Hd.
    + exfalso. apply Hch. unfold OrdersAdmin.delete, Handler.behind.
      by rewrite (bool_decide_eq_false_2 _ Hr).
Qed.

Lemma order_delete_witness :
  User.role Sample.the_manager ∈ [director; manager]
  /\ exists o,
       Db.orders (Sample.db completed pending) !! 100%N = Some o
       /\ Order.status o = pending.
Proof.
  destruct (proj2 (order_delete_only_destroys_pending_orders Schema.delete_order
                     Sample.the_manager 100%N (Sample.db completed pending)))
    as (Hr & o & Ho & Hs & _).
  - vm_compute. discriminate.
  - split; [exact Hr|]. exists o. split; [exact Ho | exact Hs].
Defined.




(** X17.  The status route for orders accepts [pending] from any status,
    so a director or manager can take an order of any status back past the
    status check of the delete route, which then runs [destroy] on it.
    With the tables as database/schema.sql declares them the order is not
    deleted, though: the notification that the status route stored for the
    client names the order, the DELETE statement is refused, and the
    delete route answers 500 with the database as the status route left
    it. *)
Theorem reset_order_is_held_by_its_notification (flt : Faults) (now : Date.t)
    (user : User.t) (orderId : UUID) (body : Orders.StatusBody) (db : Db.t)
    (o : Order.t) :
  consistent db ->
  User.role user ∈ [director; manager] ->
  Orders.validationResult body = Some pending ->
  Db.orders db !! orderId = Some o ->
  order_update_rejects flt = false ->
  notification_create_rejects flt = false ->
  Order.status <$> Db.orders (Orders.put_status flt now user orderId body db).1 !! orderId
  = Some pending
  /\ (forall destroy : JobsAdmin.Destroy Order.t,
        OrdersAdmin.delete destroy user orderId
          (Orders.put_status flt now user orderId body db).1
        = match destroy (order_after now pending (Orders.notes body) o)
                        (Orders.put_status flt now user orderId body db).1 with
          | Some db' => (db', Ok "Order deleted successfully")
          | None => ((Orders.put_status flt now user orderId body db).1,
                     Error 500 "Failed to delete order")
          end)
  /\ (exists n,
        n ∈ Db.notifications (Orders.put_status flt now user orderId body db).1
        /\ Notification.related_order_id n = Some orderId)
  /\ OrdersAdmin.delete Schema.delete_order user orderId
       (Orders.put_status flt now user orderId body db).1
     = ((Orders.put_status flt now user orderId body db).1,
        Error 500 "Failed to delete order").
Proof.
  intros Hc Hr Hv Ho Hf Hn.
  assert (User.role user ∈ [director; manager; supervisor]) as Hr'.
  { apply elem_of_cons in Hr as [-> | Hr]; [apply list_elem_of_here|].
    apply elem_of_cons in Hr as [-> | Hr];
      [apply list_elem_of_further, list_elem_of_here|].
    by apply elem_of_nil in Hr. }
  destruct (consistent_order _ _ _ Hc Ho) as (Hid & c & u & Hcl & Hu & _).
  pose proof (order_update_orders_table flt now user orderId body db o pending
                Hr' Hv Ho Hc) as Horders.
  pose proof (order_update_notifications flt now user orderId body db o pending
                Hr' Hv Ho Hc c u Hcl Hu) as Hnotes.
  rewrite Hf in Horders. rewrite Hf, Hn in Hnotes. cbn [orb] in Hnotes.
  assert (forall destroy : JobsAdmin.Destroy Order.t,
            OrdersAdmin.delete destroy user orderId
              (Orders.put_status flt now user orderId body db).1
            = match destroy (order_after now pending (Orders.notes body) o)
                            (Orders.put_status flt now user orderId body db).1 with
              | Some db' => (db', Ok "Order deleted successfully")
              | None => ((Orders.put_status flt now user orderId body db).1,
                         Error 500 "Failed to delete order")
              end) as Hdelete.
  { intros destroy. rewrite (order_delete_outcome destroy user orderId _ Hr).
    by rewrite Horders, lookup_insert_eq. }
  split; [by rewrite Horders, lookup_insert_eq|].
  split; [exact Hdelete|].
  split.
  { eexists. split.
    - rewrite Hnotes. apply elem_of_app. right. apply list_elem_of_here.
    - cbn. by rewrite Hid. }
  rewrite Hdelete. unfold Schema.delete_order.
  rewrite Hnotes, existsb_app. cbn [existsb].
  cbn [Notification.related_order_id Notification.beforeValidate order_notification
       Order.id order_after Order.with_actual_completion_date Order.with_notes
       Order.with_status].
  rewrite (bool_decide_eq_true_2 _ eq_refl). cbn [orb].
  by rewrite orb_true_r.
Qed.

Lemma reset_order_is_held_witness :
  (OrdersAdmin.delete Schema.delete_order Sample.the_manager 100
     (Orders.put_status no_faults Sample.later Sample.the_manager 100
        (Sample.order_body "pending") (Sample.db completed order_completed)).1).2
  = Error 500 "Failed to delete order".
Proof.
  destruct (reset_order_is_held_by_its_notification no_faults Sample.later
              Sample.the_manager 100%N (Sample.order_body "pending")
              (Sample.db completed order_completed)
              (Sample.the_order order_completed))
    as (_ & _ & _ & Hheld).
  - apply (bool_decide_unpack _). vm_compute. exact I.
  - apply (bool_decide_unpack _). vm_compute. exact I.
  - reflexivity.
  - reflexivity.
  - reflexivity.
  - reflexivity.
  - by rewrite Hheld.
Defined.

(** ** Who may see a job and who may report on it *)

(** X18.  For the staff, seeing a job and reporting on it are the same
    permission: [GET /:jobId] answers with the job exactly when the status
    route would let the caller through, and with 403 otherwise.  (A client
    is judged differently: by the owner of the order when viewing, by the
    assignment alone when reporting.) *)
Theorem staff_may_view_iff_may_report (user : User.t) (jobId : UUID) (db : Db.t)
    (j : Job.t) :
  User.role user <> client ->
  Db.jobs db !! jobId = Some j ->
  (may_update_job user j ->
   JobsAdmin.get user jobId db
   = (db, Ok {| job_row := j; job_order := load_order db (Job.order_id j) |}))
  /\ (~ may_update_job user j ->
      JobsAdmin.get user jobId db = (db, Error 403 "Access denied")).
Proof.
  intros Hnc Hj.
  unfold JobsAdmin.get, Handler.run, mbind, Handler.bind, Handler.query.
  rewrite (load_job_found _ _ _ Hj).
  unfold JobsAdmin.may_view, isWorker, User.canViewAllProjects.
  rewrite (bool_decide_eq_false_2 _ Hnc). cbn [job_row mbind option_bind].
  split.
  - intros [Ha | Hm].
    + rewrite (bool_decide_eq_true_2 _ Ha).
      destruct (User.role user); try done.
    + by rewrite (bool_decide_eq_true_2 _ Hm).
  - intros Hno. unfold may_update_job in Hno.
    rewrite (bool_decide_eq_false_2 (User.role user ∈ [director; manager; supervisor]))
      by (intros ?; apply Hno; by right).
    rewrite (bool_decide_eq_false_2 (Job.assigned_worker_id j = _))
      by (intros ?; apply Hno; by left).
    by rewrite andb_false_r.
Qed.

Lemma staff_may_view_witness :
  (JobsAdmin.get Sample.the_installer 1000 (Sample.db arrived pending)).2
  = Ok {| job_row := Sample.the_job arrived;
          job_order := load_order (Sample.db arrived pending) 100 |}.
Proof.
  destruct (staff_may_view_iff_may_report Sample.the_installer 1000%N
              (Sample.db arrived pending) (Sample.the_job arrived))
    as [Hyes _].
  - discriminate.
  - reflexivity.
  - rewrite Hyes; [reflexivity|]. left. reflexivity.
Defined.

(** ** The gates on the caller *)

(** X19.  The role gates sort the callers into three disjoint groups:
    every user passes exactly one of [requireManagement], [requireWorker]
    and [requireClient]; [requireAdmin] lets through a part of the
    management only; and the gates written with the model's predicates
    agree with the ones written with role lists. *)
Theorem role_gates_partition (user : User.t) :
  (requireManagement user = None /\ requireWorker user <> None
     /\ requireClient user <> None
   \/ requireManagement user <> None /\ requireWorker user = None
      /\ requireClient user <> None
   \/ requireManagement user <> None /\ requireWorker user <> None
      /\ requireClient user = None)
  /\ (requireAdmin user = None -> requireManagement user = None)
  /\ (requireUserManagement user = None <-> requireAdmin user = None)
  /\ (requireProjectView user = None <-> requireManagement user = None)
  /\ (isWorker user = true <-> requireWorker user = None)
  /\ (isClient user = true <-> requireClient user = None).
Proof.
  unfold requireManagement, requireWorker, requireClient, requireAdmin,
    requireUserManagement, requireProjectView, requireRole, isWorker, isClient,
    User.canManageUsers, User.canViewAllProjects.
  destruct (User.role user); vm_compute; intuition congruence.
Qed.

(** ** The rate limiter *)

Lemma times_of_app (key : string) (a b : list (string * Z)) :
  RateLimiter.times_of key (a ++ b)
  = RateLimiter.times_of key a ++ RateLimiter.times_of key b.
Proof. unfold RateLimiter.times_of. by rewrite filter_app, fmap_app. Qed.

Lemma times_of_one (key k : string) (now : Z) :
  RateLimiter.times_of key [(k, now)] = if decide (k = key) then [now] else [].
Proof.
  unfold RateLimiter.times_of. cbn.
  by destruct (decide (k = key)).
Qed.

(** What one request does to the stored attempts. *)
Lemma limit_outcome (windowMs max : Z) (key : string) (now : Z)
    (attempts : RateLimiter.t) :
  let recent := filter (fun time => now - windowMs < time)
                       (default [] (attempts !! key)) in
  (max <= Z.of_nat (length recent)
   /\ (RateLimiter.limit windowMs max key now attempts).2
      = RateLimiter.TooMany
          ((fun first => RateLimiter.ceil_seconds (first + windowMs - now))
             <$> head recent)
   /\ forall k, default [] ((RateLimiter.limit windowMs max key now attempts).1 !! k)
                = default [] (attempts !! k))
  \/ (Z.of_nat (length recent) < max
      /\ (RateLimiter.limit windowMs max key now attempts).2 = RateLimiter.Next
      /\ default [] ((RateLimiter.limit windowMs max key now attempts).1 !! key)
         = recent ++ [now]
      /\ forall k, k <> key ->
           default [] ((RateLimiter.limit windowMs max key now attempts).1 !! k)
           = default [] (attempts !! k)).
Proof.
  intros recent. unfold RateLimiter.limit.
  assert (default [] ((if bool_decide (is_Some (attempts !! key)) then attempts
                       else <[key := []]> attempts) !! key)
          = default [] (attempts !! key)) as Hsame.
  { destruct (bool_decide (is_Some (attempts !! key))) eqn:Hb; [done|].
    apply bool_decide_eq_false in Hb.
    rewrite lookup_insert_eq.
    destruct (attempts !! key) as [l|]; [|done].
    exfalso. apply Hb. by exists l. }
  assert (forall k, default [] ((if bool_decide (is_Some (attempts !! key)) then attempts
                                 else <[key := []]> attempts) !! k)
                    = default [] (attempts !! k)) as Hall.
  { intros k. destruct (decide (k = key)) as [-> | Hne]; [exact Hsame|].
    destruct (bool_decide (is_Some (attempts !! key))); [done|].
    by rewrite lookup_insert_ne. }
  rewrite Hsame. fold recent.
  destruct (decide (max <= Z.of_nat (length recent))) as [Hfull | Hroom].
  - left. rewrite bool_decide_eq_true_2 by done. cbn [fst snd]. by repeat split.
  - right. rewrite bool_decide_eq_false_2 by done. cbn [fst snd].
    split; [lia|]. split; [done|]. split; [by rewrite lookup_insert_eq|].
    intros k Hk. rewrite lookup_insert_ne by done. apply Hall.
Qed.

(** The invariant of a limiter that served [passed] and whose last
    request came at [last]: what it stores for a key is, above any bound a
    later request can use, the times it let through for that key; and no
    window holds more than [max] of them. *)
Lemma serve_bound (windowMs max : Z) (requests passed : list (string * Z))
    (attempts : RateLimiter.t) (last : Z) :
  (forall k b, last - windowMs <= b ->
     filter (fun time => b < time) (default [] (attempts !! k))
     = filter (fun time => b < time) (RateLimiter.times_of k passed)) ->
  (forall k t, Z.of_nat (RateLimiter.passed_in_window windowMs k t passed)
               <= Z.max 0 max) ->
  RateLimiter.in_order last requests ->
  forall k t,
    Z.of_nat (RateLimiter.passed_in_window windowMs k t
                (passed ++ (RateLimiter.serve windowMs max requests attempts).2))
    <= Z.max 0 max.
Proof.
  revert passed attempts last.
  induction requests as [|[key now] rest IH]; intros passed attempts last Hst Hb Ho.
  { cbn. intros k t. rewrite app_nil_r. apply Hb. }
  destruct Ho as [Hlast Ho]. cbn [RateLimiter.serve].
  pose proof (limit_outcome windowMs max key now attempts) as Hout.
  cbv zeta in Hout.
  destruct (RateLimiter.limit windowMs max key now attempts) as [attempts' verdict].
  cbn [fst snd] in Hout.
  destruct Hout as [(Hfull & -> & Hkeep) | (Hroom & -> & Hkey & Hkeep)].
  - apply (IH passed attempts' now); [|exact Hb|exact Ho].
    intros k b Hbd. rewrite Hkeep. apply Hst. lia.
  - destruct (RateLimiter.serve windowMs max rest attempts') as [final more] eqn:Hs.
    cbn [snd]. intros k t.
    replace (passed ++ (key, now) :: more) with ((passed ++ [(key, now)]) ++ more)
      by (by rewrite <- app_assoc).
    replace more with (RateLimiter.serve windowMs max rest attempts').2
      by (by rewrite Hs).
    apply (IH (passed ++ [(key, now)]) attempts' now); [| |exact Ho].
    + intros k' b Hbd. rewrite times_of_app, times_of_one, filter_app.
      destruct (decide (key = k')) as [<- | Hne].
      * rewrite Hkey, filter_app. f_equal.
        rewrite list_filter_filter_l by (intros x ?; lia).
        apply Hst. lia.
      * rewrite Hkeep by done. cbn. rewrite app_nil_r. apply Hst. lia.
    + intros k' t'. unfold RateLimiter.passed_in_window.
      rewrite times_of_app, times_of_one, filter_app, length_app.
      destruct (decide (key = k')) as [<- | Hne];
        [|cbn; rewrite Nat.add_0_r; apply Hb].
      cbn [filter list_filter].
      destruct (decide (t' - windowMs < now <= t')) as [Hin | Hout];
        [|cbn; rewrite Nat.add_0_r; apply Hb].
      cbn [length].
      assert (Z.of_nat (length (filter (fun time => t' - windowMs < time <= t')
                                  (RateLimiter.times_of key passed)))
              <= Z.of_nat (length (filter (fun time => now - windowMs < time)
                                     (default [] (attempts !! key))))) as Hle.
      { rewrite (Hst key (now - windowMs)) by lia.
        rewrite <- (list_filter_filter_l (fun time => t' - windowMs < time <= t')
                      (fun time => now - windowMs < time))
          by (intros x ?; lia).
        apply inj_le, length_filter. }
      lia.
Qed.

(** X20.  The rate limiter keeps its promise: over any series of requests
    served in the order of the clock, starting with no attempts stored,
    the requests it lets through for one key within any window of
    [windowMs] milliseconds are at most [max]. *)
Theorem limiter_lets_at_most_max_through (windowMs max : Z)
    (requests : list (string * Z)) (first : Z) (key : string) (t : Z) :
  RateLimiter.in_order first requests ->
  Z.of_nat (RateLimiter.passed_in_window windowMs key t
              (RateLimiter.serve windowMs max requests ∅).2)
  <= Z.max 0 max.
Proof.
  intros Ho.
  apply (serve_bound windowMs max requests [] ∅ first); [| |exact Ho].
  - intros k b _. by rewrite lookup_empty.
  - intros k t'. cbn. lia.
Qed.

Lemma limiter_witness :
  Z.of_nat (RateLimiter.passed_in_window 900000 "10.0.0.7" 6000
              (RateLimiter.serve 900000 5
                 [("10.0.0.7", 1000); ("10.0.0.7", 2000); ("10.0.0.9", 2500);
                  ("10.0.0.7", 3000); ("10.0.0.7", 4000); ("10.0.0.7", 5000);
                  ("10.0.0.7", 6000)] ∅).2)
  <= Z.max 0 5.
Proof.
  apply (limiter_lets_at_most_max_through 900000 5 _ 0).
  simpl. lia.
Defined.

Lemma serve_stored (windowMs max : Z) (requests : list (string * Z))
    (attempts : RateLimiter.t) :
  (forall k, Z.of_nat (length (default [] (attempts !! k))) <= Z.max 0 max) ->
  forall k,
    Z.of_nat (length (default []
                        ((RateLimiter.serve windowMs max requests attempts).1 !! k)))
    <= Z.max 0 max.
Proof.
  revert attempts. induction requests as [|[key now] rest IH]; intros attempts Hb;
    [exact Hb|].
  cbn [RateLimiter.serve].
  pose proof (limit_outcome windowMs max key now attempts) as Hout.
  cbv zeta in Hout.
  destruct (RateLimiter.limit windowMs max key now attempts) as [attempts' verdict].
  cbn [fst snd] in Hout.
  destruct Hout as [(Hfull & -> & Hkeep) | (Hroom & -> & Hkey & Hkeep)].
  - apply IH. intros k. rewrite Hkeep. apply Hb.
  - destruct (RateLimiter.serve windowMs max rest attempts') as [final more] eqn:Hs.
    cbn [fst]. replace final with (RateLimiter.serve windowMs max rest attempts').1
      by (by rewrite Hs).
    apply IH. intros k. destruct (decide (k = key)) as [-> | Hne].
    + rewrite Hkey, length_app. cbn [length]. lia.
    + rewrite Hkeep by done. apply Hb.
Qed.

Lemma filter_keeps_all {A} (P : A -> Prop) `{!forall x, Decision (P x)} (l : list A) :
  (length l <= length (filter P l))%nat -> filter P l = l.
Proof.
  induction l as [|x l IH]; [done|].
  destruct (decide (P x)) as [Hx | Hx].
  - rewrite filter_cons_True by done. cbn [length]. intros Hlen.
    f_equal. apply IH. lia.
  - rewrite filter_cons_False by done. cbn [length]. intros Hlen.
    pose proof (length_filter P l). lia.
Qed.

Lemma ceil_seconds_covers (x : Z) :
  x <= 1000 * RateLimiter.ceil_seconds x
  /\ (0 < x -> 1 <= RateLimiter.ceil_seconds x).
Proof.
  unfold RateLimiter.ceil_seconds.
  pose proof (Z.mul_div_le (- x) 1000 ltac:(lia)).
  split; [lia|]. intros Hx.
  pose proof (Z.div_lt_upper_bound (- x) 1000 0 ltac:(lia) ltac:(lia)). lia.
Qed.

(** X21.  The [retry_after] of a 429 is honest: a caller the limiter
    turned away, who comes back once the announced number of seconds has
    passed, is let through; and the announced wait is at least one
    second.  This holds in every state a limiter can get into by serving
    requests. *)
Theorem waiting_retry_after_is_enough (windowMs max : Z)
    (requests : list (string * Z)) (key : string) (now later r : Z) :
  (RateLimiter.limit windowMs max key now
     (RateLimiter.serve windowMs max requests ∅).1).2
  = RateLimiter.TooMany (Some r) ->
  now + 1000 * r <= later ->
  1 <= r
  /\ (RateLimiter.limit windowMs max key later
        (RateLimiter.limit windowMs max key now
           (RateLimiter.serve windowMs max requests ∅).1).1).2
     = RateLimiter.Next.
Proof.
  intros Hturned Hwait.
  pose proof (serve_stored windowMs max requests ∅
                ltac:(intros k; rewrite lookup_empty; cbn; lia)) as Hstored.
  set (attempts := (RateLimiter.serve windowMs max requests ∅).1) in *.
  pose proof (limit_outcome windowMs max key now attempts) as Hout.
  cbv zeta in Hout.
  destruct Hout as [(Hfull & Hv & Hkeep) | (_ & Hv & _)];
    [|rewrite Hv in Hturned; discriminate].
  rewrite Hv in Hturned. injection Hturned as Hr.
  specialize (Hstored key).
  assert (filter (fun time => now - windowMs < time) (default [] (attempts !! key))
          = default [] (attempts !! key)) as Hall
    by (apply filter_keeps_all; lia).
  rewrite Hall in Hr, Hfull.
  destruct (default [] (attempts !! key)) as [|first others] eqn:Hl;
    [discriminate|].
  cbn in Hr. injection Hr as <-. cbn [length] in *.
  assert (now - windowMs < first) as Hfirst.
  { assert (first ∈ filter (fun time => now - windowMs < time) (first :: others))
      as Hin by (rewrite Hall; apply list_elem_of_here).
    by apply list_elem_of_filter in Hin as [? _]. }
  destruct (ceil_seconds_covers (first + windowMs - now)) as [Hcover Hpos].
  split; [apply Hpos; lia|].
  pose proof (limit_outcome windowMs max key later
                (RateLimiter.limit windowMs max key now attempts).1) as Hout.
  cbv zeta in Hout. rewrite Hkeep, Hl in Hout.
  destruct Hout as [(Hfull' & _) | (_ & Hnext & _)]; [|exact Hnext].
  exfalso. rewrite filter_cons_False in Hfull' by lia.
  pose proof (length_filter (fun time => later - windowMs < time) others) as Hle.
  lia.
Qed.

Lemma waiting_retry_after_witness :
  1 <= 897
  /\ (RateLimiter.limit 900000 3 "10.0.0.7" 901000
        (RateLimiter.limit 900000 3 "10.0.0.7" 4000
           (RateLimiter.serve 900000 3
              [("10.0.0.7", 1000); ("10.0.0.7", 2000); ("10.0.0.7", 3000)] ∅).1).1).2
     = RateLimiter.Next.
Proof.
  apply (waiting_retry_after_is_enough 900000 3
           [("10.0.0.7", 1000); ("10.0.0.7", 2000); ("10.0.0.7", 3000)]
           "10.0.0.7" 4000 901000 897).
  - vm_compute. reflexivity.
  - lia.
Defined.

(** ** Sessions, reset tokens and verification codes *)

Lemma authenticated_session (verify : string -> Auth.Verified)
    (hashToken : string -> string) (token : option string) (now later : Z)
    (s : Auth.Store) (u : User.t) (session : UserSession.t) :
  Auth.authenticateToken verify hashToken token now later s = Ok (u, session) ->
  session ∈ Auth.sessions s
  /\ now < UserSession.expires_at session
  /\ ~ UserSession.expires_at session < later
  /\ User.is_active u = true.
Proof.
  unfold Auth.authenticateToken. intros H.
  destruct token as [token|]; [|discriminate].
  destruct (String.eqb token ""); [discriminate|].
  destruct (verify token) as [userId| | |]; try discriminate.
  destruct (UserSession.findByTokenHash now (hashToken token) (Auth.sessions s))
    as [found|] eqn:Hf; [|discriminate].
  destruct (UserSession.isValid later found) eqn:Hvalid; [|discriminate].
  cbn [negb] in H.
  destruct (userId ≫= _) as [a|]; [|discriminate].
  destruct (User.is_active (Auth.user a)) eqn:Hact; [|discriminate].
  cbn [negb] in H. injection H as <- <-.
  apply head_Some_elem_of, list_elem_of_filter in Hf as [[_ Hexp] Hin].
  unfold UserSession.isValid, UserSession.isExpired in Hvalid.
  apply negb_true_iff, bool_decide_eq_false in Hvalid.
  done.
Qed.

(** X22.  Logging out everywhere ends every session of the caller and no
    one else's: afterwards no request, with whatever token and at whatever
    time, is let through [authenticateToken] on a session of that user,
    while the sessions of other users are all still stored; a plain logout
    removes the one session only. *)
Theorem logout_all_ends_every_session (flt : Auth.Rejects) (user : User.t)
    (s : Auth.Store) :
  Auth.sessions_reject flt = false ->
  (Auth.logout_all flt user s).2 = Ok "Logged out from all devices"
  /\ (forall verify hashToken token now later u session,
        Auth.authenticateToken verify hashToken token now later
          (Auth.logout_all flt user s).1 = Ok (u, session) ->
        UserSession.user_id session <> User.id user)
  /\ (forall session,
        session ∈ Auth.sessions s ->
        UserSession.user_id session <> User.id user ->
        session ∈ Auth.sessions (Auth.logout_all flt user s).1)
  /\ (forall current session,
        session ∈ Auth.sessions s ->
        UserSession.id session <> UserSession.id current ->
        session ∈ Auth.sessions (Auth.logout flt current s).1).
Proof.
  intros Hf. unfold Auth.logout_all, Auth.logout, Handler.run, mbind, Handler.bind,
    Handler.write. rewrite Hf. cbn.
  split; [reflexivity|]. split; [|split].
  - intros verify hashToken token now later u session Hok.
    apply authenticated_session in Hok as [Hin _].
    cbn in Hin. by apply list_elem_of_filter in Hin as [? _].
  - intros session Hin Hother. by apply list_elem_of_filter.
  - intros current session Hin Hother. by apply list_elem_of_filter.
Qed.

Lemma logout_all_witness :
  (Auth.logout_all Auth.accepts_all Sample.the_manager Sample3.store).2
  = Ok "Logged out from all devices"
  /\ Auth.authenticateToken Sample3.verify Sample3.hashToken (Some "laptop")
       1000000 1000001
       (Auth.logout_all Auth.accepts_all Sample.the_manager Sample3.store).1
     = Error 401 "Invalid or expired session"
  /\ Auth.authenticateToken Sample3.verify Sample3.hashToken (Some "laptop")
       1000000 1000001 Sample3.store
     = Ok (Sample.the_manager, UserSession.mk 51 1 "hash-laptop" 3000000).
Proof.
  destruct (logout_all_ends_every_session Auth.accepts_all Sample.the_manager
              Sample3.store ltac:(reflexivity)) as (Hreply & _).
  split; [exact Hreply|]. split; vm_compute; reflexivity.
Defined.

Lemma filter_none {A} (P : A -> Prop) `{!forall x, Decision (P x)} (l : list A) :
  (forall x, x ∈ l -> ~ P x) -> filter P l = [].
Proof.
  induction l as [|x l IH]; intros Hno; [done|].
  rewrite filter_cons_False by (apply Hno, list_elem_of_here).
  apply IH. intros y Hy. by apply Hno, list_elem_of_further.
Qed.

Lemma toUpperCase_length (s : string) :
  String.length (JS.toUpperCase s) = String.length s.
Proof.
  unfold JS.toUpperCase, JS.of_code_units, JS.code_units.
  induction s as [|c s IH]; [done|]. cbn. by rewrite IH.
Qed.

Lemma substring_length_le (n m : nat) (s : string) :
  (String.length (String.substring n m s) <= m)%nat.
Proof.
  revert n m. induction s as [|c s IH]; intros n m.
  - destruct n, m; cbn; lia.
  - destruct n as [|n]; destruct m as [|m]; cbn; try lia.
    + specialize (IH 0%nat m). lia.
    + apply IH.
    + apply IH.
Qed.

Lemma reset_code_short (token : string) :
  (String.length (Auth.reset_code token) <= 8)%nat.
Proof.
  unfold Auth.reset_code. rewrite toUpperCase_length. apply substring_length_le.
Qed.

(** X23.  The code that [POST /forgot-password] sends, the first eight
    characters of the token in upper case, is not what
    [POST /reset-password] looks up, which is the whole token.  With the
    tokens as the model generates them (64 hexadecimal digits), a reset
    with the code that was sent for a token is answered 400 and changes
    nothing, whichever token it was sent for and whenever the request
    comes, also while that token is still valid. *)
Theorem emailed_reset_code_never_resets (flt : Auth.Rejects)
    (hash : string -> string) (now : Z) (sent_for password : string)
    (s : Auth.Store) :
  Forall (fun r => Auth.generated_token (PasswordResetToken.token r) = true)
         (Auth.reset_tokens s) ->
  Auth.generated_token sent_for = true ->
  Auth.strong_password password = true ->
  Auth.reset_password flt hash now
    {| Auth.token := Auth.reset_code sent_for; Auth.password := password |} s
  = (s, Error 400 "Invalid or expired reset token").
Proof.
  intros Hlen Hsent Hstrong. unfold Auth.reset_password, Handler.run.
  cbn [Auth.token Auth.password]. rewrite Hstrong.
  assert (String.eqb (Auth.reset_code sent_for) "" = false) as ->.
  { apply String.eqb_neq. intros Hempty.
    unfold Auth.generated_token in Hsent. apply andb_true_iff in Hsent as [Hsent _].
    apply Nat.eqb_eq in Hsent.
    pose proof (toUpperCase_length (String.substring 0 8 sent_for)) as Hup.
    fold (Auth.reset_code sent_for) in Hup. rewrite Hempty in Hup. cbn in Hup.
    destruct sent_for as [|c rest]; [discriminate Hsent|]. discriminate Hup. }
  cbn [negb andb].
  unfold mbind, Handler.bind, Handler.query, PasswordResetToken.findValidToken.
  rewrite filter_none; [reflexivity|].
  intros r Hr [Heq _]. rewrite Forall_forall in Hlen. specialize (Hlen r Hr).
  unfold Auth.generated_token in Hlen. apply andb_true_iff in Hlen as [Hlen _].
  apply Nat.eqb_eq in Hlen.
  pose proof (reset_code_short sent_for) as Hshort.
  rewrite <- Heq, Hlen in Hshort. lia.
Qed.

Lemma emailed_reset_code_witness :
  Auth.reset_password Auth.accepts_all Sample3.bcrypt 1000000
    {| Auth.token := "9F86D081"; Auth.password := "Windows2024" |} Sample3.store
  = (Sample3.store, Error 400 "Invalid or expired reset token")
  /\ (Auth.reset_password Auth.accepts_all Sample3.bcrypt 1000000
        {| Auth.token := Sample3.a_token; Auth.password := "Windows2024" |}
        Sample3.store).2
     = Ok "Password reset successful".
Proof.
  split; [|vm_compute; reflexivity].
  apply (emailed_reset_code_never_resets Auth.accepts_all Sample3.bcrypt 1000000
           Sample3.a_token "Windows2024" Sample3.store).
  - apply (bool_decide_unpack _). vm_compute. exact I.
  - vm_compute. reflexivity.
  - vm_compute. reflexivity.
Defined.

Lemma unique_by {A B} (f : A -> B) (l : list A) (x y : A) :
  NoDup (f <$> l) -> x ∈ l -> y ∈ l -> f x = f y -> x = y.
Proof.
  induction l as [|z l IH]; intros Hnd Hx Hy Hf; [by apply elem_of_nil in Hx|].
  cbn in Hnd. apply NoDup_cons in Hnd as [Hz Hnd].
  apply elem_of_cons in Hx as [-> | Hx]; apply elem_of_cons in Hy as [-> | Hy].
  - done.
  - exfalso. apply Hz. rewrite Hf. by apply list_elem_of_fmap_2.
  - exfalso. apply Hz. rewrite <- Hf. by apply list_elem_of_fmap_2.
  - by apply IH.
Qed.

(** What a successful reset did. *)
Lemma reset_password_done (flt : Auth.Rejects) (hash : string -> string) (now : Z)
    (body : Auth.ResetBody) (s : Auth.Store) (message : string) :
  (Auth.reset_password flt hash now body s).2 = Ok message ->
  exists resetToken owner,
    PasswordResetToken.findValidToken now (Auth.token body) (Auth.reset_tokens s)
    = Some resetToken
    /\ Auth.users s !! PasswordResetToken.user_id resetToken = Some owner
    /\ (Auth.reset_password flt hash now body s).1
       = Auth.with_sessions
           (UserSession.revokeAllForUser (User.id (Auth.user owner)) None
              (Auth.sessions s))
           (Auth.with_reset_tokens
              (PasswordResetToken.markAsUsed resetToken (Auth.reset_tokens s))
              (Auth.with_users
                 (alter (Auth.set_password_hash (hash (Auth.password body)))
                        (User.id (Auth.user owner)) (Auth.users s))
                 s)).
Proof.
  unfold Auth.reset_password, Handler.run.
  destruct (negb (String.eqb (Auth.token body) "")
            && Auth.strong_password (Auth.password body));
    cbn [negb]; [|discriminate].
  unfold mbind, Handler.bind, Handler.query.
  destruct (PasswordResetToken.findValidToken now (Auth.token body)
              (Auth.reset_tokens s)) as [resetToken|] eqn:Hfound; [|discriminate].
  destruct (Auth.users s !! PasswordResetToken.user_id resetToken) as [owner|]
    eqn:Howner; [|discriminate].
  unfold Auth.User_update, Handler.write, Handler.throw, mret, Handler.ret.
  destruct (Auth.hasLoginMethod _); cbn [negb]; [|discriminate].
  destruct (Auth.user_update_rejects flt); [discriminate|].
  destruct (Auth.token_save_rejects flt); [discriminate|].
  destruct (Auth.sessions_reject flt); [discriminate|].
  intros _. exists resetToken, owner. split; [done|]. split; [done|]. reflexivity.
Qed.

(** X24.  A reset token works once, and a reset ends every session of
    the user the token belongs to.  After a reset that was answered with
    success (the users being stored under their ids and the tokens being
    unique, as the columns are), the same token is refused at any later
    time and whatever the new password; the stored hash of the user the
    token names is the hash of the new password and no other user was
    touched; and the sessions that are left are exactly those of the
    other users, so that whoever held a session of that user has to log in
    again. *)
Theorem reset_token_is_single_use (flt flt' : Auth.Rejects)
    (hash hash' : string -> string) (now later : Z) (body body' : Auth.ResetBody)
    (s : Auth.Store) (message : string) :
  map_Forall (fun k a => User.id (Auth.user a) = k) (Auth.users s) ->
  NoDup (PasswordResetToken.token <$> Auth.reset_tokens s) ->
  (Auth.reset_password flt hash now body s).2 = Ok message ->
  Auth.token body' = Auth.token body ->
  Auth.strong_password (Auth.password body') = true ->
  exists resetToken,
    PasswordResetToken.findValidToken now (Auth.token body) (Auth.reset_tokens s)
    = Some resetToken
    /\ Auth.reset_password flt' hash' later body'
         (Auth.reset_password flt hash now body s).1
       = ((Auth.reset_password flt hash now body s).1,
          Error 400 "Invalid or expired reset token")
    /\ Auth.password_hash
         <$> Auth.users (Auth.reset_password flt hash now body s).1
               !! PasswordResetToken.user_id resetToken
       = Some (hash (Auth.password body))
    /\ (forall k, k <> PasswordResetToken.user_id resetToken ->
          Auth.users (Auth.reset_password flt hash now body s).1 !! k
          = Auth.users s !! k)
    /\ (forall session,
          session ∈ Auth.sessions (Auth.reset_password flt hash now body s).1
          <-> session ∈ Auth.sessions s
              /\ UserSession.user_id session <> PasswordResetToken.user_id resetToken).
Proof.
  intros Hkeyed Hnd Hok Htok Hstrong.
  destruct (reset_password_done _ _ _ _ _ _ Hok) as (r & owner & Hfound & Howner & ->).
  pose proof (Hkeyed _ _ Howner) as Hid. cbn beta in Hid.
  exists r. split; [exact Hfound|]. split; [|split; [|split]].
  - unfold Auth.reset_password at 1, Handler.run. rewrite Htok, Hstrong.
    assert (String.eqb (Auth.token body) "" = false) as ->.
    { revert Hok. unfold Auth.reset_password, Handler.run.
      destruct (String.eqb (Auth.token body) ""); [discriminate|done]. }
    cbn [negb andb]. unfold mbind, Handler.bind, Handler.query.
    cbn [Auth.reset_tokens Auth.with_sessions Auth.with_reset_tokens].
    assert (PasswordResetToken.findValidToken later (Auth.token body)
              (PasswordResetToken.markAsUsed r (Auth.reset_tokens s)) = None) as ->;
      [|reflexivity].
    unfold PasswordResetToken.findValidToken, PasswordResetToken.markAsUsed.
    apply head_Some_elem_of, list_elem_of_filter in Hfound as [[Hrt _] Hrin].
    match goal with |- head ?l = None => assert (l = []) as ->; [|done] end.
    apply filter_none.
    intros x Hx [Hxt [Hxu _]].
    apply list_elem_of_fmap_1 in Hx as (y & -> & Hy).
    destruct (bool_decide (PasswordResetToken.id y = PasswordResetToken.id r)) eqn:Hsame;
      [discriminate Hxu|].
    apply bool_decide_eq_false in Hsame. apply Hsame.
    f_equal. apply (unique_by PasswordResetToken.token (Auth.reset_tokens s));
      [done..|congruence].
  - cbn [Auth.users Auth.with_sessions Auth.with_reset_tokens Auth.with_users].
    rewrite Hid, lookup_alter_eq, Howner. reflexivity.
  - intros k Hk.
    cbn [Auth.users Auth.with_sessions Auth.with_reset_tokens Auth.with_users].
    rewrite Hid. by rewrite lookup_alter_ne.
  - intros session. cbn [Auth.sessions Auth.with_sessions].
    unfold UserSession.revokeAllForUser. rewrite Hid, list_elem_of_filter. tauto.
Qed.

Lemma reset_token_single_use_witness :
  Auth.reset_password Auth.accepts_all Sample3.bcrypt 1100000
    {| Auth.token := Sample3.a_token; Auth.password := "Another2025" |}
    (Auth.reset_password Auth.accepts_all Sample3.bcrypt 1000000
       {| Auth.token := Sample3.a_token; Auth.password := "Windows2024" |}
       Sample3.store).1
  = ((Auth.reset_password Auth.accepts_all Sample3.bcrypt 1000000
        {| Auth.token := Sample3.a_token; Auth.password := "Windows2024" |}
        Sample3.store).1,
     Error 400 "Invalid or expired reset token")
  /\ Auth.password_hash
       <$> Auth.users (Auth.reset_password Auth.accepts_all Sample3.bcrypt 1000000
                         {| Auth.token := Sample3.a_token;
                            Auth.password := "Windows2024" |}
                         Sample3.store).1 !! 1%N
     = Some "$2a$12$Windows2024".
Proof.
  destruct (reset_token_is_single_use Auth.accepts_all Auth.accepts_all Sample3.bcrypt
              Sample3.bcrypt 1000000 1100000
              {| Auth.token := Sample3.a_token; Auth.password := "Windows2024" |}
              {| Auth.token := Sample3.a_token; Auth.password := "Another2025" |}
              Sample3.store "Password reset successful")
    as (r & Hfound & Hrefused & Hhash & _).
  - apply (bool_decide_unpack _). vm_compute. exact I.
  - apply (bool_decide_unpack _). vm_compute. exact I.
  - vm_compute. reflexivity.
  - reflexivity.
  - vm_compute. reflexivity.
  - split; [exact Hrefused|].
    vm_compute in Hfound. injection Hfound as <-. exact Hhash.
Defined.

(** The run of [POST /verify] once a valid code was found and marked. *)
Lemma verify_run (flt : Auth.Rejects) (now : Z) (body : Auth.VerifyBody)
    (s : Auth.Store) (userId : UUID) (vc : VerificationCode.t) :
  Auth.verify_valid body = true ->
  Auth.user_id body = Some userId ->
  VerificationCode.findValidCode now userId (Auth.code body) (Auth.type body)
    (Auth.verification_codes s) = Some vc ->
  Auth.code_save_rejects flt = false ->
  let marked :=
    Auth.with_verification_codes
      (VerificationCode.markAsUsed vc (Auth.verification_codes s)) s in
  let set :=
    if String.eqb (Auth.type body) "email" then Auth.set_email_verified true
    else if String.eqb (Auth.type body) "sms" then Auth.set_phone_verified true
         else id in
  Auth.verify flt now body s
  = match Auth.users s !! VerificationCode.user_id vc with
    | None => (marked, Error 500 "Verification failed")
    | Some owner =>
        if negb (Auth.hasLoginMethod (Auth.beforeValidate (set owner)))
           || Auth.user_update_rejects flt
        then (marked, Error 500 "Verification failed")
        else (Auth.with_users
                (alter set (User.id (Auth.user owner)) (Auth.users s)) marked,
              Ok ((if String.eqb (Auth.type body) "email" then "Email" else "Phone")
                  +:+ " verified successfully"))
    end.
Proof.
  intros Hvalid Huser Hfound Hsave marked set.
  unfold Auth.verify, Handler.run. rewrite Hvalid, Huser. cbn [negb].
  unfold mbind, Handler.bind, Handler.query, Handler.write. rewrite Hfound, Hsave.
  fold marked.
  destruct (Auth.users s !! VerificationCode.user_id vc) as [owner|]; [|reflexivity].
  unfold Auth.User_update, Handler.write, Handler.throw, mret, Handler.ret.
  fold set.
  destruct (Auth.hasLoginMethod (Auth.beforeValidate (set owner)));
    cbn [negb orb]; [|reflexivity].
  destruct (Auth.user_update_rejects flt); reflexivity.
Qed.

Lemma verify_codes (flt : Auth.Rejects) (now : Z) (body : Auth.VerifyBody)
    (s : Auth.Store) (userId : UUID) (vc : VerificationCode.t) :
  Auth.verify_valid body = true ->
  Auth.user_id body = Some userId ->
  VerificationCode.findValidCode now userId (Auth.code body) (Auth.type body)
    (Auth.verification_codes s) = Some vc ->
  Auth.code_save_rejects flt = false ->
  Auth.verification_codes (Auth.verify flt now body s).1
  = VerificationCode.markAsUsed vc (Auth.verification_codes s).
Proof.
  intros Hvalid Huser Hfound Hsave.
  rewrite (verify_run flt now body s userId vc Hvalid Huser Hfound Hsave).
  cbv zeta. destruct (Auth.users s !! _); [|reflexivity].
  destruct (_ || _)%bool; reflexivity.
Qed.

(** X25.  A verification code works once, and it is spent before the
    user is marked verified.  The row [POST /verify] finds is valid by
    the model's own [isValid], and never again once it is marked; after
    the route saved it as used, no query ever finds that row again, at any
    time and for any code or user, while every other row of the table is
    as it was; if the request was answered with success, the flag of the
    verified channel was set on the owner and nothing else changed among
    the users; and if the update of the user fails, the request is
    answered 500 with the code spent and the user not verified. *)
Theorem verification_code_is_single_use (flt : Auth.Rejects) (now : Z)
    (body : Auth.VerifyBody) (s : Auth.Store) (userId : UUID)
    (vc : VerificationCode.t) :
  Auth.verify_valid body = true ->
  Auth.user_id body = Some userId ->
  VerificationCode.findValidCode now userId (Auth.code body) (Auth.type body)
    (Auth.verification_codes s) = Some vc ->
  Auth.code_save_rejects flt = false ->
  VerificationCode.isValid now vc = true
  /\ (forall later, VerificationCode.isValid later (VerificationCode.with_used true vc)
                    = false)
  /\ (forall later u c t r,
        VerificationCode.findValidCode later u c t
          (Auth.verification_codes (Auth.verify flt now body s).1) = Some r ->
        VerificationCode.id r <> VerificationCode.id vc)
  /\ (forall r, r ∈ Auth.verification_codes s ->
        VerificationCode.id r <> VerificationCode.id vc ->
        r ∈ Auth.verification_codes (Auth.verify flt now body s).1)
  /\ (forall message,
        (Auth.verify flt now body s).2 = Ok message ->
        exists owner,
          Auth.users s !! VerificationCode.user_id vc = Some owner
          /\ Auth.users (Auth.verify flt now body s).1
             = alter (if String.eqb (Auth.type body) "email"
                      then Auth.set_email_verified true
                      else Auth.set_phone_verified true)
                     (User.id (Auth.user owner)) (Auth.users s))
  /\ (Auth.user_update_rejects flt = true ->
      (Auth.verify flt now body s).2 = Error 500 "Verification failed"
      /\ Auth.users (Auth.verify flt now body s).1 = Auth.users s).
Proof.
  intros Hvalid Huser Hfound Hsave.
  pose proof (verify_codes flt now body s userId vc Hvalid Huser Hfound Hsave)
    as Hcodes.
  assert (Auth.type body = "email" \/ Auth.type body = "sms") as Htype.
  { unfold Auth.verify_valid in Hvalid.
    apply andb_true_iff in Hvalid as [_ Ht]. apply bool_decide_eq_true in Ht.
    apply elem_of_cons in Ht as [-> | Ht]; [by left|].
    apply elem_of_cons in Ht as [-> | Ht]; [by right|].
    by apply elem_of_nil in Ht. }
  split; [|split; [done|]].
  { pose proof Hfound as Hv.
    apply head_Some_elem_of, list_elem_of_filter in Hv as [(_ & _ & _ & Hu & Hexp) _].
    unfold VerificationCode.isValid, VerificationCode.isExpired. rewrite Hu.
    rewrite bool_decide_eq_false_2 by lia. done. }
  split; [|split; [|split]].
  - intros later u c t r Hr. rewrite Hcodes in Hr.
    apply head_Some_elem_of, list_elem_of_filter in Hr as [(_ & _ & _ & Hu & _) Hin].
    unfold VerificationCode.markAsUsed in Hin.
    apply list_elem_of_fmap_1 in Hin as (y & -> & Hy).
    destruct (bool_decide (VerificationCode.id y = VerificationCode.id vc)) eqn:Hid;
      [discriminate Hu|].
    by apply bool_decide_eq_false in Hid.
  - intros r Hin Hother. rewrite Hcodes. unfold VerificationCode.markAsUsed.
    apply (list_elem_of_fmap_2' _ _ r); [exact Hin|].
    by rewrite bool_decide_eq_false_2.
  - intros message.
    rewrite (verify_run flt now body s userId vc Hvalid Huser Hfound Hsave).
    cbv zeta.
    destruct (Auth.users s !! VerificationCode.user_id vc) as [owner|];
      [|discriminate].
    destruct (_ || _)%bool; [discriminate|]. intros _.
    exists owner. split; [reflexivity|]. cbn.
    by destruct Htype as [-> | ->].
  - intros Hrej.
    rewrite (verify_run flt now body s userId vc Hvalid Huser Hfound Hsave).
    cbv zeta. rewrite Hrej.
    destruct (Auth.users s !! VerificationCode.user_id vc) as [owner|];
      [|by split].
    rewrite orb_true_r. by split.
Qed.

Lemma verification_code_witness :
  (Auth.verify Auth.accepts_all 1000000
     {| Auth.code := "493817"; Auth.type := "sms"; Auth.user_id := Some 2%N |}
     (Auth.verify Auth.accepts_all 900000
        {| Auth.code := "493817"; Auth.type := "sms"; Auth.user_id := Some 2%N |}
        Sample3.store).1).2
  = Error 400 "Invalid or expired verification code"
  /\ forall r,
       VerificationCode.findValidCode 1000000 2 "493817" "sms"
         (Auth.verification_codes
            (Auth.verify Auth.accepts_all 900000
               {| Auth.code := "493817"; Auth.type := "sms";
                  Auth.user_id := Some 2%N |}
               Sample3.store).1) = Some r ->
       VerificationCode.id r <> 70%N.
Proof.
  split; [vm_compute; reflexivity|].
  destruct (verification_code_is_single_use Auth.accepts_all 900000
              {| Auth.code := "493817"; Auth.type := "sms"; Auth.user_id := Some 2%N |}
              Sample3.store 2%N
              (VerificationCode.mk 70 2 "493817" "sms" 1200000 false 300000))
    as (_ & _ & Hnever & _).
  - vm_compute. reflexivity.
  - reflexivity.
  - vm_compute. reflexivity.
  - reflexivity.
  - intros r. apply Hnever.
Defined.

(** ** The general update of a job *)

(** X26.  The general update route is a way around the transition table:
    a management user who names a status in the body of [PUT /:jobId] has
    it written, whatever the status the job is in (a completed job can be
    put back to [assigned]), and nothing else happens: no audit record, no
    notification, no time stamp, no change to the order.  So the audit
    trail, if it accounted for the status of the job before, does not
    account for it afterwards. *)
Theorem general_update_sets_status_without_audit (flt : JobsUpdate.Faults)
    (user : User.t) (jobId : UUID) (s : string) (requested : JobStatus)
    (db : Db.t) (j : Job.t) :
  User.role user ∈ [director; manager; supervisor] ->
  consistent db ->
  Db.jobs db !! jobId = Some j ->
  isIn_job_status s = Some requested ->
  JobsUpdate.job_update_rejects flt = false ->
  JobsUpdate.update flt user jobId (JobsUpdate.status_only s) db
  = (Db.with_jobs (<[jobId := Job.with_status requested j]> (Db.jobs db)) db,
     Ok (Job.beforeValidate (Job.with_status requested j)))
  /\ (audit_complete db jobId ->
      requested <> Job.status j ->
      ~ audit_complete
          (JobsUpdate.update flt user jobId (JobsUpdate.status_only s) db).1 jobId).
Proof.
  intros Hr Hc Hj Hs Hf.
  destruct (consistent_job _ _ _ Hc Hj) as [Hid _].
  assert (JobsUpdate.update flt user jobId (JobsUpdate.status_only s) db
          = (Db.with_jobs (<[jobId := Job.with_status requested j]> (Db.jobs db)) db,
             Ok (Job.beforeValidate (Job.with_status requested j)))) as Hrun.
  { unfold JobsUpdate.update, Handler.behind. rewrite (bool_decide_eq_true_2 _ Hr).
    unfold Handler.run, JobsUpdate.update_handler. cbn [JobsUpdate.valid
      JobsUpdate.status_only JobsUpdate.scheduled_time JobsUpdate.estimated_duration
      JobsUpdate.assigned_worker_id andb negb].
    unfold mbind, Handler.bind, Handler.query. rewrite Hj.
    unfold mret, Handler.ret, JobsUpdate.Job_update.
    change (JobsUpdate.status (JobsUpdate.status_only s)) with (Some s).
    cbn [mbind option_bind]. rewrite Hs.
    unfold mbind, Handler.bind, Handler.write. rewrite Hf.
    rewrite Hid, (alter_found _ _ _ _ Hj).
    destruct j; reflexivity. }
  split; [exact Hrun|].
  rewrite Hrun. cbn [fst]. unfold audit_complete, audit_trail.
  cbn [Db.job_status_updates Db.with_jobs Db.jobs].
  rewrite Hj, lookup_insert_eq. cbn.
  intros [_ Hend] Hne [_ Hend']. congruence.
Qed.

Lemma general_update_witness :
  JobsUpdate.update JobsUpdate.none_rejected Sample.the_manager 1000
    (JobsUpdate.status_only "assigned") (Sample.db completed installation_completed)
  = (Sample.db assigned installation_completed, Ok (Sample.the_job assigned)).
Proof.
  destruct (general_update_sets_status_without_audit JobsUpdate.none_rejected
              Sample.the_manager 1000%N "assigned" assigned
              (Sample.db completed installation_completed)
              (Sample.the_job completed)) as [Hrun _].
  - apply (bool_decide_unpack _). vm_compute. exact I.
  - apply (bool_decide_unpack _). vm_compute. exact I.
  - reflexivity.
  - reflexivity.
  - reflexivity.
  - rewrite Hrun. vm_compute. reflexivity.
Defined.

(** ** The bulk routes for notifications *)

Lemma marked_inbox (userId : UUID) (table : list Notification.t) :
  let mark n :=
    if bool_decide (Notification.user_id n = userId /\ Notification.is_read n = false)
    then Notifications.with_is_read true n else n in
  Notifications.of_user userId false (mark <$> table) = []
  /\ mark <$> (mark <$> table) = mark <$> table
  /\ length (Notifications.of_user userId true (mark <$> table))
     = length (filter (fun n => Notification.user_id n = userId) table)
  /\ filter (fun n => ~ (Notification.user_id n = userId
                         /\ Notification.is_read n = true)) (mark <$> table)
     = filter (fun n => Notification.user_id n <> userId) table.
Proof.
  intros mark. unfold Notifications.of_user.
  induction table as [|n l (IH1 & IH2 & IH3 & IH4)]; [done|].
  cbn [fmap list_fmap]. fold (mark <$> l). fold (mark <$> (mark <$> l)).
  rewrite IH2.
  assert (Notification.user_id (mark n) = Notification.user_id n) as Hu.
  { unfold mark. by destruct (bool_decide _). }
  assert (Notification.user_id n = userId -> Notification.is_read (mark n) = true)
    as Hr.
  { intros Hn. unfold mark. destruct (bool_decide _) eqn:Hb; [done|].
    apply bool_decide_eq_false in Hb.
    destruct (Notification.is_read n); [done|]. by destruct Hb. }
  assert (mark (mark n) = mark n) as Hi.
  { unfold mark at 1. destruct (bool_decide _) eqn:Hb; [|done].
    apply bool_decide_eq_true in Hb as [Hb1 Hb2]. rewrite Hu in Hb1.
    rewrite (Hr Hb1) in Hb2. discriminate. }
  assert (Notification.user_id n <> userId -> mark n = n) as Hother.
  { intros Hn. unfold mark. rewrite bool_decide_eq_false_2; [done|]. by intros [? _]. }
  rewrite Hi. split; [|split; [done|split]].
  - rewrite filter_cons_False; [exact IH1|].
    rewrite Hu. intros [Hn Hf]. rewrite (Hr Hn) in Hf. discriminate.
  - destruct (decide (Notification.user_id n = userId)) as [Hn | Hn].
    + rewrite filter_cons_True by (rewrite Hu; split; [done | by apply Hr]).
      rewrite (filter_cons_True (fun n => Notification.user_id n = userId)) by done.
      cbn [length]. by rewrite IH3.
    + rewrite filter_cons_False by (rewrite Hu; by intros [? _]).
      by rewrite (filter_cons_False (fun n => Notification.user_id n = userId)).
  - destruct (decide (Notification.user_id n = userId)) as [Hn | Hn].
    + rewrite filter_cons_False
        by (intros Hno; apply Hno; rewrite Hu; split; [done | by apply Hr]).
      by rewrite (filter_cons_False (fun n => Notification.user_id n <> userId))
        by (intros Hno; by apply Hno).
    + rewrite filter_cons_True by (rewrite Hu; by intros [? _]).
      rewrite (filter_cons_True (fun n => Notification.user_id n <> userId)) by done.
      by rewrite IH4, (Hother Hn).
Qed.

(** X27.  Marking everything read and then deleting what is read empties
    the inbox of the caller and of nobody else.  The first request reports
    how many notifications of the caller were unread and, sent again,
    finds none to update and changes nothing; the second one then removes
    every notification of the caller, reports their number, and leaves
    the notifications of the other users as they were, in their order. *)
Theorem mark_all_then_delete_clears_inbox (user : User.t) (db : Db.t) :
  (Notifications.mark_all_read false user db).2
  = Ok (length (Notifications.of_user (User.id user) false (Db.notifications db)))
  /\ Notifications.mark_all_read false user (Notifications.mark_all_read false user db).1
     = ((Notifications.mark_all_read false user db).1, Ok 0%nat)
  /\ (Notifications.delete_read false user
        (Notifications.mark_all_read false user db).1).2
     = Ok (length (filter (fun n => Notification.user_id n = User.id user)
                          (Db.notifications db)))
  /\ Db.notifications
       (Notifications.delete_read false user
          (Notifications.mark_all_read false user db).1).1
     = filter (fun n => Notification.user_id n <> User.id user) (Db.notifications db).
Proof.
  destruct (marked_inbox (User.id user) (Db.notifications db)) as (H1 & H2 & H3 & H4).
  unfold Notifications.mark_all_read, Notifications.delete_read, Handler.run,
    mbind, Handler.bind, Handler.query, Handler.write, mret, Handler.ret.
  cbn [fst snd Db.notifications Db.with_notifications].
  split; [reflexivity|]. split; [|split].
  - rewrite H1, H2. reflexivity.
  - by rewrite H3.
  - exact H4.
Qed.

(** ** Which route answers *)

Lemma toLowerCase_length (s : string) :
  String.length (JS.toLowerCase s) = String.length s.
Proof.
  unfold JS.toLowerCase, JS.of_code_units, JS.code_units.
  induction s as [|c s IH]; [done|]. cbn. by rewrite IH.
Qed.

Lemma covers_matches (earlier later : Express.Route) (requested : list string) :
  Express.covers earlier later = true ->
  Express.matches (Express.path later) requested = true ->
  Express.matches (Express.path earlier) requested = true.
Proof.
  unfold Express.covers. intros H.
  apply andb_true_iff in H as [H Hall]. apply andb_true_iff in H as [_ Hlen].
  apply bool_decide_eq_true in Hlen. revert Hlen Hall requested.
  generalize (Express.path later) as pl. generalize (Express.path earlier) as pe.
  induction pe as [|e pe IH]; intros [|l pl] Hlen Hall requested; try discriminate.
  - done.
  - cbn in Hall. apply andb_true_iff in Hall as [Hseg Hall].
    destruct requested as [|r requested]; [done|]. cbn.
    intros Hm. apply andb_true_iff in Hm as [Hl Hrest].
    rewrite (IH pl) by (done || by injection Hlen). rewrite andb_true_r.
    destruct e as [a|a], l as [b|b]; cbn in *; try discriminate.
    + apply String.eqb_eq in Hseg, Hl. apply String.eqb_eq. congruence.
    + apply negb_true_iff, String.eqb_neq in Hseg. apply String.eqb_eq in Hl.
      apply negb_true_iff, String.eqb_neq. intros ->.
      pose proof (toLowerCase_length b) as Hb. rewrite Hl in Hb. cbn in Hb.
      by destruct b.
    + done.
Qed.

Lemma dispatch_behind (before after : list Express.Route)
    (earlier later : Express.Route) (m : Express.Method) (requested : list string) :
  Express.covers earlier later = true ->
  later ∉ before ->
  later <> earlier ->
  Express.dispatch (before ++ earlier :: after) m requested <> Some later.
Proof.
  intros Hc Hnotin Hne Hd. unfold Express.dispatch in Hd.
  assert (bool_decide (Express.method later = m)
          && Express.matches (Express.path later) requested = true) as Hlater
    by (by apply find_some in Hd as [_ ?]).
  apply andb_true_iff in Hlater as [Hm Hp].
  assert (bool_decide (Express.method earlier = m)
          && Express.matches (Express.path earlier) requested = true) as Hearlier.
  { rewrite (covers_matches _ _ _ Hc Hp), andb_true_r.
    apply bool_decide_eq_true in Hm. apply bool_decide_eq_true.
    unfold Express.covers in Hc. apply andb_true_iff in Hc as [Hc _].
    apply andb_true_iff in Hc as [Hc _]. apply bool_decide_eq_true in Hc. congruence. }
  induction before as [|x before IH]; cbn in Hd.
  - rewrite Hearlier in Hd. congruence.
  - destruct (bool_decide (Express.method x = m) && _).
    + injection Hd as ->. apply Hnotin, list_elem_of_here.
    + apply IH; [|done]. intros ?. by apply Hnotin, list_elem_of_further.
Qed.

(** X28.  Two routes of the backend are declared behind a route that
    takes all their requests, and so never run: [GET /preferences] of the
    notifications, behind [GET /:notificationId], and
    [PUT /videos/reorder] of the company pages, behind
    [PUT /videos/:videoId].  Every other declared route is reached by some
    request. *)
Theorem unreachable_routes (routes : list Express.Route) (r : Express.Route) :
  routes ∈ Express.routers ->
  r ∈ routes ->
  (exists requested,
     Express.dispatch routes (Express.method r) requested = Some r)
  <-> r <> Express.route 466 Express.GET [Express.Lit "preferences"]
      /\ r <> Express.route 721 Express.PUT
                [Express.Lit "videos"; Express.Lit "reorder"].
Proof.
  intros Hrouter Hr. split.
  - intros [requested Hd]. split; intros ->.
    + assert (routes = Express.notifications) as ->.
      { unfold Express.routers in Hrouter.
        repeat (apply elem_of_cons in Hrouter as [-> | Hrouter];
                [first [reflexivity
                       | exfalso; apply (bool_decide_pack _) in Hr;
                         vm_compute in Hr; exact Hr]|]).
        by apply elem_of_nil in Hrouter. }
      revert Hd.
      apply (dispatch_behind [Express.route 14 Express.GET []]
               (skipn 2 Express.notifications)
               (Express.route 93 Express.GET [Express.Param "notificationId"])).
      * vm_compute. reflexivity.
      * intros Hin. apply (bool_decide_pack _) in Hin. vm_compute in Hin. exact Hin.
      * discriminate.
    + assert (routes = Express.company) as ->.
      { unfold Express.routers in Hrouter.
        repeat (apply elem_of_cons in Hrouter as [-> | Hrouter];
                [first [reflexivity
                       | exfalso; apply (bool_decide_pack _) in Hr;
                         vm_compute in Hr; exact Hr]|]).
        by apply elem_of_nil in Hrouter. }
      revert Hd.
      apply (dispatch_behind (firstn 4 Express.company) (skipn 5 Express.company)
               (Express.route 687 Express.PUT
                  [Express.Lit "videos"; Express.Param "videoId"])).
      * vm_compute. reflexivity.
      * intros Hin. apply (bool_decide_pack _) in Hin. vm_compute in Hin. exact Hin.
      * discriminate.
  - intros [Hn1 Hn2]. exists (Express.sample_path r).
    unfold Express.routers in Hrouter.
    repeat (apply elem_of_cons in Hrouter as [-> | Hrouter];
            [ repeat (apply elem_of_cons in Hr as [-> | Hr];
                      [first [vm_compute; reflexivity | done]|]);
              by apply elem_of_nil in Hr |]).
    by apply elem_of_nil in Hrouter.
Qed.

Lemma unreachable_routes_witness :
  exists requested,
    Express.dispatch Express.notifications Express.PUT requested
    = Some (Express.route 166 Express.PUT [Express.Lit "mark-all-read"]).
Proof.
  apply (unreachable_routes Express.notifications
           (Express.route 166 Express.PUT [Express.Lit "mark-all-read"])).
  - apply (bool_decide_unpack _). vm_compute. exact I.
  - apply (bool_decide_unpack _). vm_compute. exact I.
  - split; discriminate.
Defined.

(** ** Signing contracts *)

Lemma sign_refused_when_signed (rejects : bool) (now : Date.t) (user : User.t)
    (contractId : UUID) (s : Contracts.Store) (c : Contract.t) :
  Contracts.contracts s !! contractId = Some c ->
  Contract.is_signed c = true ->
  (Contracts.sign rejects now user contractId s).1 = s
  /\ forall signed, (Contracts.sign rejects now user contractId s).2 <> Ok signed.
Proof.
  intros Hc Hs. unfold Contracts.sign, Handler.run, mbind, Handler.bind,
    Handler.query. rewrite Hc.
  destruct (Contracts.may_access user s c) as [[|]|]; cbn; [|done..].
  rewrite Hs. done.
Qed.

Lemma delete_refused_when_signed (destroy : Contract.t -> Contracts.Store -> option Contracts.Store)
    (user : User.t) (contractId : UUID) (s : Contracts.Store) (c : Contract.t) :
  Contracts.contracts s !! contractId = Some c ->
  Contract.is_signed c = true ->
  (Contracts.delete destroy user contractId s).1 = s
  /\ forall message, (Contracts.delete destroy user contractId s).2 <> Ok message.
Proof.
  intros Hc Hs. unfold Contracts.delete, Handler.behind.
  destruct (bool_decide _); [|done].
  unfold Handler.run, Contracts.delete_handler, mbind, Handler.bind, Handler.query.
  rewrite Hc, Hs. done.
Qed.

(** X29.  A signature is final, and the route gives it without asking
    for a document.  A management user signs any unsigned contract, with
    or without a file (the model's [canBeSigned] is not consulted); the
    row then carries the day of signing.  From then on the sign route
    turns everyone away and the delete route does too, both leaving the
    store as it is, so the signature and its date stay. *)
Theorem signature_is_final (now later : Date.t) (user : User.t) (contractId : UUID)
    (s : Contracts.Store) (c : Contract.t) :
  User.role user ∈ [director; manager; supervisor] ->
  Contracts.contracts s !! contractId = Some c ->
  Contract.id c = contractId ->
  Contract.is_signed c = false ->
  Contracts.sign false now user contractId s
  = (Contracts.with_contracts
       (<[contractId := Contract.markAsSigned now c]> (Contracts.contracts s)) s,
     Ok (Contract.beforeValidate (Contract.markAsSigned now c)))
  /\ Contract.getStatusDisplay (Contract.markAsSigned now c)
     = Contract.Signed (Some (Contract.date_only now))
  /\ (forall rejects anyone,
        (Contracts.sign rejects later anyone contractId
           (Contracts.sign false now user contractId s).1).1
        = (Contracts.sign false now user contractId s).1
        /\ forall signed,
             (Contracts.sign rejects later anyone contractId
                (Contracts.sign false now user contractId s).1).2 <> Ok signed)
  /\ (forall destroy anyone,
        (Contracts.delete destroy anyone contractId
           (Contracts.sign false now user contractId s).1).1
        = (Contracts.sign false now user contractId s).1
        /\ forall message,
             (Contracts.delete destroy anyone contractId
                (Contracts.sign false now user contractId s).1).2 <> Ok message).
Proof.
  intros Hr Hc Hid Hs.
  assert (Contracts.sign false now user contractId s
          = (Contracts.with_contracts
               (<[contractId := Contract.markAsSigned now c]> (Contracts.contracts s)) s,
             Ok (Contract.beforeValidate (Contract.markAsSigned now c)))) as Hrun.
  { unfold Contracts.sign, Handler.run, mbind, Handler.bind, Handler.query. rewrite Hc.
    unfold Contracts.may_access, User.canViewAllProjects.
    rewrite (bool_decide_eq_true_2 _ Hr).
    assert (User.role user <> client) as Hnc.
    { intros Heq. rewrite Heq in Hr. apply (bool_decide_pack _) in Hr.
      vm_compute in Hr. exact Hr. }
    rewrite (bool_decide_eq_false_2 _ Hnc). cbn [mbind option_bind orb].
    rewrite Hs. unfold Handler.write, mret, Handler.ret.
    by rewrite Hid, (alter_found _ _ _ _ Hc). }
  rewrite Hrun. cbn [fst].
  assert (Contracts.contracts
            (Contracts.with_contracts
               (<[contractId := Contract.markAsSigned now c]> (Contracts.contracts s)) s)
            !! contractId = Some (Contract.markAsSigned now c)) as Hc'
    by apply lookup_insert_eq.
  split; [reflexivity|]. split; [reflexivity|]. split.
  - intros rejects anyone.
    by apply (sign_refused_when_signed rejects later anyone contractId _ _ Hc').
  - intros destroy anyone.
    by apply (delete_refused_when_signed destroy anyone contractId _ _ Hc').
Qed.

Lemma signature_is_final_witness :
  Contract.canBeSigned Sample4.draft = false
  /\ Contract.is_signed
       <$> Contracts.contracts
             (Contracts.sign false Sample.noon Sample.the_manager 500 Sample4.store).1
             !! 500%N
     = Some true
  /\ (Contracts.delete Sample4.destroy_contract Sample.the_manager 500
        (Contracts.sign false Sample.noon Sample.the_manager 500 Sample4.store).1).1
     = (Contracts.sign false Sample.noon Sample.the_manager 500 Sample4.store).1.
Proof.
  destruct (signature_is_final Sample.noon Sample.later Sample.the_manager 500%N
              Sample4.store Sample4.draft) as (Hrun & _ & _ & Hdel).
  - apply (bool_decide_unpack _). vm_compute. exact I.
  - reflexivity.
  - reflexivity.
  - reflexivity.
  - split; [reflexivity|]. split.
    + rewrite Hrun. vm_compute. reflexivity.
    + apply (Hdel Sample4.destroy_contract Sample.the_manager).
Defined.

(** ** Who manages the users *)

(** X30.  An administrator cannot delete their own account, but nothing
    keeps them from giving up their role: the role route writes whatever
    role the body names onto whatever user, the caller included.  If the
    caller was the only director or manager and names another role for
    themselves, no stored user passes [requireUserManagement] any more,
    the gate in front of the routes of this router that create a user,
    change a role or a status, and delete a user. *)
Theorem last_admin_can_step_down (caller : Auth.Account) (role : string)
    (role' : Role) (s : Auth.Store) :
  Auth.users s !! User.id (Auth.user caller) = Some caller ->
  User.canManageUsers (Auth.user caller) = true ->
  Auth.hasLoginMethod (Auth.beforeValidate caller) = true ->
  Users.isIn_role role = Some role' ->
  (forall destroy,
     Users.delete destroy (Auth.user caller) (User.id (Auth.user caller)) s
     = (s, Error 400 "Cannot delete your own account"))
  /\ Auth.users
       (Users.put_role false (Auth.user caller) (User.id (Auth.user caller)) role s).1
     = <[User.id (Auth.user caller) := Users.set_role role' caller]> (Auth.users s)
  /\ (role' ∉ [director; manager] ->
      (forall k a, Auth.users s !! k = Some a -> k <> User.id (Auth.user caller) ->
                   User.canManageUsers (Auth.user a) = false) ->
      forall k a,
        Auth.users
          (Users.put_role false (Auth.user caller) (User.id (Auth.user caller)) role s).1
          !! k = Some a ->
        requireUserManagement (Auth.user a)
        = Some (Error 403 "User management permissions required")).
Proof.
  intros Hcaller Hadmin Hlogin Hrole.
  assert (Auth.users
            (Users.put_role false (Auth.user caller) (User.id (Auth.user caller))
               role s).1
          = <[User.id (Auth.user caller) := Users.set_role role' caller]> (Auth.users s))
    as Husers.
  { unfold Users.put_role, Users.behind_user_management. rewrite Hadmin. cbn [negb].
    unfold Handler.run. rewrite Hrole.
    unfold mbind, Handler.bind, Handler.query. rewrite Hcaller.
    unfold Auth.User_update.
    assert (Auth.hasLoginMethod (Auth.beforeValidate (Users.set_role role' caller))
            = true) as -> by exact Hlogin.
    cbn [negb]. unfold Handler.write, mret, Handler.ret. cbn [fst Auth.users Auth.with_users].
    change (User.id (Auth.user (Users.set_role role' caller)))
      with (User.id (Auth.user caller)).
    by rewrite (alter_found _ _ _ _ Hcaller). }
  split; [|split; [exact Husers|]].
  - intros destroy. unfold Users.delete, Users.behind_user_management.
    rewrite Hadmin. cbn [negb]. unfold Handler.run.
    by rewrite bool_decide_eq_true_2.
  - intros Hnot Hothers k a. rewrite Husers.
    unfold requireUserManagement.
    destruct (decide (k = User.id (Auth.user caller))) as [-> | Hne].
    + rewrite lookup_insert_eq. intros [= <-].
      unfold User.canManageUsers. cbn [Users.set_role Auth.user User.role].
      by rewrite (bool_decide_eq_false_2 _ Hnot).
    + rewrite lookup_insert_ne by done. intros Ha.
      by rewrite (Hothers k a Ha Hne).
Qed.

Lemma last_admin_witness :
  Auth.users
    (Users.put_role false Sample.the_manager 1 "installer" Sample3.store).1
  = <[1%N := Users.set_role installer Sample3.olga]> (Auth.users Sample3.store).
Proof.
  destruct (last_admin_can_step_down Sample3.olga "installer" installer Sample3.store)
    as (_ & Husers & _).
  - reflexivity.
  - reflexivity.
  - reflexivity.
  - reflexivity.
  - exact Husers.
Defined.
